(** * python-bittrex: a shallow embedding of [bittrex/bittrex.py]

    The module is a signed-request adapter: every endpoint method builds a
    path and a query dictionary and hands them to [_api_query], which
    assembles the URL, takes a millisecond nonce, throttles through [wait]
    and sends one HTTP GET through [dispatch].

    Conventions of the embedding.
    - A Python [str] is a Rocq [string] holding its UTF-8 bytes, so
      [str.encode()] keeps the representation and only changes the tag
      ([PyStr] to [PyBytes]).  [str.lower()] folds the letters A to Z on
      ASCII text; on text with other code points it is the runtime's
      [unicode_lower], which stands for the Unicode tables.
    - A Python [float] is the rational ([Q]) it holds.  The product
      [time.time() * 1000] and the quotient [1.0 / calls_per_second] are
      rounded to the nearest double, ties to even ([round_double]), with
      an exponent that is not bounded: overflow and subnormal numbers are
      outside the model.  The clock itself and the differences of clock
      readings in [wait] are exact.
    - A global name is looked up when a method runs, in the namespace the
      module then has; [module_globals] is that namespace as the module's
      own top-level code leaves it.
    - A [dict] is an association list in insertion order.
    - The standard library and third-party collaborators ([hashlib], [hmac],
      [requests], [getpass], [ast], [Crypto.Cipher.AES], [repr]) are fields
      of a [runtime] record; every definition is parametric in it.
    - Effects are a state-and-exception monad over the client object and
      the outside world (clock, requests sent, sleeps taken).
    - The module-level helper [encrypt], which prompts for a password and
      writes a file, has the cipher and the file as a [keystore] record of
      its own. *)

From Stdlib Require Import String Ascii List ZArith QArith Qround Qpower Lia Lqa Bool.
From stdpp Require Import gmap strings pretty.

Import ListNotations.
Local Open Scope string_scope.
Local Open Scope list_scope.

(** ** Python values *)

Set Warnings "-register-all".

Inductive pyvalue : Type :=
| PyNone
| PyBool (b : bool)
| PyInt (z : Z)
| PyFloat (q : Q)
| PyStr (s : string)
| PyBytes (b : string)
| PyList (l : list pyvalue)
| PyDict (d : list (pyvalue * pyvalue)).

Definition pydict : Type := list (pyvalue * pyvalue).

(** Truth value testing, as in [if x:] and [x if c else y]. *)
Definition py_truthy (v : pyvalue) : bool :=
  match v with
  | PyNone => false
  | PyBool b => b
  | PyInt z => negb (z =? 0)%Z
  | PyFloat q => negb (Qeq_bool q 0)
  | PyStr s => negb (String.eqb s "")
  | PyBytes b => negb (String.eqb b "")
  | PyList l => match l with [] => false | _ => true end
  | PyDict d => match d with [] => false | _ => true end
  end.

Definition is_none (v : pyvalue) : bool :=
  match v with PyNone => true | _ => false end.

(** ** Exceptions *)

Inductive exc_class : Type :=
| NameError | ImportError | TypeError | ValueError | AttributeError
| KeyError | IndexError | ZeroDivisionError | UnicodeDecodeError
| Timeout | ConnectionError | JSONDecodeError
| KeyboardInterrupt | SystemExit.

Record exn : Type := MkExn { exc_type : exc_class; exc_str : string }.

(** [except Exception] catches every class but the two that derive from
    [BaseException] directly. *)
Definition is_Exception (c : exc_class) : bool :=
  match c with
  | KeyboardInterrupt | SystemExit => false
  | _ => true
  end.

(** What the spec calls a transport-level failure: the request timed out,
    the connection failed, or the body was not JSON. *)
Definition is_transport_failure (c : exc_class) : bool :=
  match c with
  | Timeout | ConnectionError | JSONDecodeError => true
  | _ => false
  end.

Inductive outcome (A : Type) : Type :=
| Normal (a : A)
| Raised (e : exn).
Arguments Normal {A} a.
Arguments Raised {A} e.

(** ** Strings *)

Definition lower_ascii (c : ascii) : ascii :=
  let n := nat_of_ascii c in
  if ((65 <=? n) && (n <=? 90))%nat then ascii_of_nat (n + 32) else c.

Fixpoint str_lower (s : string) : string :=
  match s with
  | EmptyString => EmptyString
  | String c r => String (lower_ascii c) (str_lower r)
  end.

(** [s.isascii()] *)
Definition isascii (s : string) : bool :=
  forallb (fun c => (nat_of_ascii c <? 128)%nat) (list_ascii_of_string s).

(** [s.endswith(suffix)] *)
Definition endswith (s suffix : string) : bool :=
  let n := String.length s in
  let m := String.length suffix in
  if (m <=? n)%nat then String.eqb (substring (n - m) m s) suffix else false.

(** ** Module globals *)

Definition BUY_ORDERBOOK := "buy".
Definition SELL_ORDERBOOK := "sell".
Definition BOTH_ORDERBOOK := "both".
Definition TRADE_FEE : Q := 25 # 10000.
Definition TICKINTERVAL_ONEMIN := "oneMin".
Definition TICKINTERVAL_FIVEMIN := "fiveMin".
Definition TICKINTERVAL_HOUR := "hour".
Definition TICKINTERVAL_THIRTYMIN := "thirtyMin".
Definition TICKINTERVAL_DAY := "Day".
Definition ORDERTYPE_LIMIT := "LIMIT".
Definition ORDERTYPE_MARKET := "MARKET".
Definition TIMEINEFFECT_GOOD_TIL_CANCELLED := "GOOD_TIL_CANCELLED".
Definition TIMEINEFFECT_IMMEDIATE_OR_CANCEL := "IMMEDIATE_OR_CANCEL".
Definition TIMEINEFFECT_FILL_OR_KILL := "FILL_OR_KILL".
Definition CONDITIONTYPE_NONE := "NONE".
Definition CONDITIONTYPE_GREATER_THAN := "GREATER_THAN".
Definition CONDITIONTYPE_LESS_THAN := "LESS_THAN".
Definition CONDITIONTYPE_STOP_LOSS_FIXED := "STOP_LOSS_FIXED".
Definition CONDITIONTYPE_STOP_LOSS_PERCENTAGE := "STOP_LOSS_PERCENTAGE".
Definition API_URI := "https://api.bittrex.com".
Definition API_V3_0 := "v3".
Definition BASE_PATH := "/v3{path}".
Definition PROTECTION_PUB := "pub".
Definition PROTECTION_PRV := "prv".

(** The data constants bound at module level, by name.  Imported modules,
    [encrypt] and the class itself are bound too but are never loaded as
    values by the methods below; the two names [API_V1_1] and [API_V2_0]
    are bound nowhere in the file. *)
Definition module_globals : gmap string pyvalue :=
  list_to_map
    [ ("BUY_ORDERBOOK", PyStr BUY_ORDERBOOK);
      ("SELL_ORDERBOOK", PyStr SELL_ORDERBOOK);
      ("BOTH_ORDERBOOK", PyStr BOTH_ORDERBOOK);
      ("TRADE_FEE", PyFloat TRADE_FEE);
      ("TICKINTERVAL_ONEMIN", PyStr TICKINTERVAL_ONEMIN);
      ("TICKINTERVAL_FIVEMIN", PyStr TICKINTERVAL_FIVEMIN);
      ("TICKINTERVAL_HOUR", PyStr TICKINTERVAL_HOUR);
      ("TICKINTERVAL_THIRTYMIN", PyStr TICKINTERVAL_THIRTYMIN);
      ("TICKINTERVAL_DAY", PyStr TICKINTERVAL_DAY);
      ("ORDERTYPE_LIMIT", PyStr ORDERTYPE_LIMIT);
      ("ORDERTYPE_MARKET", PyStr ORDERTYPE_MARKET);
      ("TIMEINEFFECT_GOOD_TIL_CANCELLED", PyStr TIMEINEFFECT_GOOD_TIL_CANCELLED);
      ("TIMEINEFFECT_IMMEDIATE_OR_CANCEL", PyStr TIMEINEFFECT_IMMEDIATE_OR_CANCEL);
      ("TIMEINEFFECT_FILL_OR_KILL", PyStr TIMEINEFFECT_FILL_OR_KILL);
      ("CONDITIONTYPE_NONE", PyStr CONDITIONTYPE_NONE);
      ("CONDITIONTYPE_GREATER_THAN", PyStr CONDITIONTYPE_GREATER_THAN);
      ("CONDITIONTYPE_LESS_THAN", PyStr CONDITIONTYPE_LESS_THAN);
      ("CONDITIONTYPE_STOP_LOSS_FIXED", PyStr CONDITIONTYPE_STOP_LOSS_FIXED);
      ("CONDITIONTYPE_STOP_LOSS_PERCENTAGE", PyStr CONDITIONTYPE_STOP_LOSS_PERCENTAGE);
      ("API_URI", PyStr API_URI);
      ("API_V3_0", PyStr API_V3_0);
      ("BASE_PATH", PyStr BASE_PATH);
      ("PROTECTION_PUB", PyStr PROTECTION_PUB);
      ("PROTECTION_PRV", PyStr PROTECTION_PRV) ].

Definition name_error (name : string) : exn :=
  MkExn NameError ("name '" +:+ name +:+ "' is not defined").

(** Loading a global name in an expression, in the namespace the module
    has when the expression is evaluated. *)
Definition load_global (globals : gmap string pyvalue) (name : string)
  : outcome pyvalue :=
  match globals !! name with
  | Some v => Normal v
  | None => Raised (name_error name)
  end.

(** Sequencing of expression evaluation that may raise. *)
Definition obind {A B} (o : outcome A) (k : A -> outcome B) : outcome B :=
  match o with
  | Normal a => k a
  | Raised e => Raised e
  end.

Notation "x <~ o ;; k" := (obind o (fun x => k))
  (at level 62, o at next level, right associativity).

(** ** Dictionaries *)

Definition as_number (v : pyvalue) : option Q :=
  match v with
  | PyBool b => Some (if b then 1 else 0)%Q
  | PyInt z => Some (inject_Z z)
  | PyFloat q => Some q
  | _ => None
  end.

(** Equality of two hashable values as dictionary keys. *)
Definition key_eqb (a b : pyvalue) : bool :=
  match a, b with
  | PyNone, PyNone => true
  | PyStr x, PyStr y => String.eqb x y
  | PyBytes x, PyBytes y => String.eqb x y
  | _, _ =>
      match as_number a, as_number b with
      | Some x, Some y => Qeq_bool x y
      | _, _ => false
      end
  end.

Definition hashable (v : pyvalue) : bool :=
  match v with
  | PyList _ | PyDict _ => false
  | _ => true
  end.

(** [d[k] = v] on a dictionary in insertion order. *)
Fixpoint dict_set (d : pydict) (k v : pyvalue) : pydict :=
  match d with
  | [] => [(k, v)]
  | (k', v') :: r =>
      if key_eqb k' k then (k', v) :: r else (k', v') :: dict_set r k v
  end.

Fixpoint dict_get (d : pydict) (k : pyvalue) : option pyvalue :=
  match d with
  | [] => None
  | (k', v') :: r => if key_eqb k' k then Some v' else dict_get r k
  end.

Definition dict_has_key (d : pydict) (k : pyvalue) : bool :=
  match dict_get d k with Some _ => true | None => false end.


(** ** The runtime: collaborators outside the module *)

Record http_request : Type := MkRequest {
  req_method : string;
  req_url : string;
  req_headers : list (string * pyvalue);
  req_timeout : Z
}.

(** A [requests.Response], reduced to what [response.json()] gives. *)
Record http_response : Type := MkResponse {
  resp_json : outcome pyvalue
}.

Record runtime : Type := MkRuntime {
  (** [hashlib.sha512(data).hexdigest()] *)
  sha512_hexdigest : string -> string;
  (** [hmac.new(key, msg, hashlib.sha512).hexdigest()] *)
  hmac_sha512_hexdigest : string -> string -> string;
  (** [repr] of the values whose [str] is their [repr] and is not spelled
      out below: floats, bytes, lists, dicts. *)
  py_repr : pyvalue -> string;
  (** [requests.get(url, headers=..., timeout=...)], given the requests
      already sent. *)
  requests_get : list http_request -> http_request -> outcome http_response;
  (** Whether [from Crypto.Cipher import AES] succeeded at import time. *)
  encrypted : bool;
  (** [getpass.getpass(prompt)] *)
  getpass : string -> string;
  (** [AES.new(password)] and the [decrypt] method of the cipher it gives. *)
  aes_new : string -> outcome (pyvalue -> outcome pyvalue);
  (** [ast.literal_eval] *)
  literal_eval : string -> outcome pyvalue;
  (** [bytes.decode()] *)
  bytes_decode : string -> outcome string;
  (** [str.lower()] on text that is not ASCII: the Unicode case tables. *)
  unicode_lower : string -> string
}.

(** ** The client object and the world around it *)

Record client : Type := MkClient {
  api_key : pyvalue;
  api_secret : pyvalue;
  call_rate : Q;
  last_call : option Q;
  base_url : string
}.

(** The world: the wall clock read by [time.time()], the delays still to
    come (one is consumed whenever a primitive runs: time passes between
    any two observations of the clock), and the traces of what the client
    did to it. *)
Record world : Type := MkWorld {
  clock : Q;
  drift : list Q;
  sent : list http_request;
  slept : list Q
}.

Record state : Type := MkState {
  self : client;
  outside : world
}.

Definition M (A : Type) : Type := state -> outcome A * state.

Definition ret {A} (a : A) : M A := fun st => (Normal a, st).

Definition bind {A B} (m : M A) (k : A -> M B) : M B :=
  fun st =>
    match m st with
    | (Normal a, st') => k a st'
    | (Raised e, st') => (Raised e, st')
    end.

Definition raise {A} (e : exn) : M A := fun st => (Raised e, st).

Definition lift {A} (o : outcome A) : M A := fun st => (o, st).

(** [try: body except Exception as e: handler(e)] *)
Definition try_except {A} (body : M A) (handler : exn -> M A) : M A :=
  fun st =>
    match body st with
    | (Normal a, st') => (Normal a, st')
    | (Raised e, st') =>
        if is_Exception (exc_type e) then handler e st' else (Raised e, st')
    end.

Notation "x <- m ;; k" := (bind m (fun x => k))
  (at level 62, m at next level, right associativity).
Notation "m ;;; k" := (bind m (fun _ => k))
  (at level 62, right associativity).

Definition get_self : M client := fun st => (Normal (self st), st).

Definition put_self (c : client) : M unit :=
  fun st => (Normal tt, MkState c (outside st)).

Definition set_last_call (t : Q) : M unit :=
  c <- get_self ;;
  put_self (MkClient (api_key c) (api_secret c) (call_rate c) (Some t) (base_url c)).

Definition set_api_key (v : pyvalue) : M unit :=
  c <- get_self ;;
  put_self (MkClient v (api_secret c) (call_rate c) (last_call c) (base_url c)).

Definition set_api_secret (v : pyvalue) : M unit :=
  c <- get_self ;;
  put_self (MkClient (api_key c) v (call_rate c) (last_call c) (base_url c)).

(** Time moves on by the next scheduled delay. *)
Definition elapse (w : world) : world :=
  match drift w with
  | [] => w
  | d :: ds => MkWorld (clock w + d)%Q ds (sent w) (slept w)
  end.

(** [time.time()] *)
Definition time_time : M Q :=
  fun st =>
    let w := elapse (outside st) in
    (Normal (clock w), MkState (self st) w).

(** [time.sleep(secs)]: returns no earlier than [secs] later. *)
Definition time_sleep (secs : Q) : M unit :=
  fun st =>
    if Qle_bool 0 secs then
      let w := outside st in
      let w1 := MkWorld (clock w + secs)%Q (drift w) (sent w) (slept w ++ [secs]) in
      (Normal tt, MkState (self st) (elapse w1))
    else (Raised (MkExn ValueError "sleep length must be non-negative"), st).

(** ** Doubles *)

(** The exponent of the power of two at or just below a positive rational:
    [2 ^ binade q <= q < 2 ^ (binade q + 1)]. *)
Definition binade (q : Q) : Z :=
  let k := (Z.log2 (Qnum q) - Z.log2 (Zpos (Qden q)))%Z in
  if Qle_bool (2 ^ k)%Q q then k else (k - 1)%Z.

(** Rounding to the nearest integer, a tie going to the even one. *)
Definition round_half_even (q : Q) : Z :=
  let f := Qfloor q in
  match Qcompare (q - inject_Z f)%Q (1 # 2)%Q with
  | Lt => f
  | Gt => (f + 1)%Z
  | Eq => if Z.even f then f else (f + 1)%Z
  end.

(** The distance between neighbouring doubles in the binade of a positive
    rational: 53 significant bits. *)
Definition ulp (q : Q) : Q := (2 ^ (binade q - 52))%Q.

(** The double nearest to a rational, a tie going to the even significand
    (IEEE 754 binary64, round to nearest even), in lowest terms. *)
Definition round_double (q : Q) : Q :=
  match Qcompare q 0%Q with
  | Eq => 0%Q
  | Gt => Qred (inject_Z (round_half_even (q / ulp q)) * ulp q)%Q
  | Lt => Qred (- (inject_Z (round_half_even (- q / ulp (- q))) * ulp (- q)))%Q
  end.

(** [a * b] and [a / b] on floats. *)
Definition float_mul (a b : Q) : Q := round_double (a * b)%Q.
Definition float_div (a b : Q) : Q := round_double (a / b)%Q.

(** [int(x)] of a float: truncation towards zero. *)
Definition py_int_of_float (q : Q) : Z := Z.quot (Qnum q) (Zpos (Qden q)).

Section Bittrex.

Variable rt : runtime.

(** [str(v)] *)
Definition py_str (v : pyvalue) : string :=
  match v with
  | PyNone => "None"
  | PyBool true => "True"
  | PyBool false => "False"
  | PyInt z => pretty z
  | PyStr s => s
  | _ => py_repr rt v
  end.

Definition py_type_name (v : pyvalue) : string :=
  match v with
  | PyNone => "NoneType"
  | PyBool _ => "bool"
  | PyInt _ => "int"
  | PyFloat _ => "float"
  | PyStr _ => "str"
  | PyBytes _ => "bytes"
  | PyList _ => "list"
  | PyDict _ => "dict"
  end.

(** [v.encode()]: defined on [str] only. *)
Definition py_encode (v : pyvalue) : outcome string :=
  match v with
  | PyStr s => Normal s
  | _ => Raised (MkExn AttributeError
           ("'" +:+ py_type_name v +:+ "' object has no attribute 'encode'"))
  end.

(** [template.format(name=value, ...)] for templates whose replacement fields are
    plain names, which is all the module uses.  The third argument is the
    field name being read, when inside braces. *)
Fixpoint str_format_go (kwargs : list (string * pyvalue))
    (field : option string) (t : string) : outcome string :=
  match field, t with
  | None, EmptyString => Normal EmptyString
  | None, String "{" (String "{" r) =>
      match str_format_go kwargs None r with
      | Normal s => Normal (String "{" s)
      | Raised e => Raised e
      end
  | None, String "}" (String "}" r) =>
      match str_format_go kwargs None r with
      | Normal s => Normal (String "}" s)
      | Raised e => Raised e
      end
  | None, String "{" r => str_format_go kwargs (Some EmptyString) r
  | None, String "}" _ =>
      Raised (MkExn ValueError "Single '}' encountered in format string")
  | None, String c r =>
      match str_format_go kwargs None r with
      | Normal s => Normal (String c s)
      | Raised e => Raised e
      end
  | Some _, EmptyString =>
      Raised (MkExn ValueError "expected '}' before end of string")
  | Some name, String "}" r =>
      match List.find (fun kv => String.eqb (fst kv) name) kwargs with
      | Some kv =>
          match str_format_go kwargs None r with
          | Normal s => Normal (py_str (snd kv) +:+ s)
          | Raised e => Raised e
          end
      | None => Raised (MkExn KeyError ("'" +:+ name +:+ "'"))
      end
  | Some name, String c r =>
      str_format_go kwargs (Some (name +:+ String c EmptyString)) r
  end.

Definition str_format (t : string) (kwargs : list (string * pyvalue))
  : outcome string :=
  str_format_go kwargs None t.

(** ** [urllib.parse.urlencode] *)

Definition hex_digit (n : nat) : ascii :=
  match n with
  | 0 => "0" | 1 => "1" | 2 => "2" | 3 => "3" | 4 => "4" | 5 => "5"
  | 6 => "6" | 7 => "7" | 8 => "8" | 9 => "9" | 10 => "A" | 11 => "B"
  | 12 => "C" | 13 => "D" | 14 => "E" | _ => "F"
  end%char.

(** Characters [quote] never escapes: letters, digits and [_.-~]. *)
Definition always_safe (c : ascii) : bool :=
  let n := nat_of_ascii c in
  ((65 <=? n) && (n <=? 90) || (97 <=? n) && (n <=? 122)
   || (48 <=? n) && (n <=? 57)
   || (n =? 95) || (n =? 46) || (n =? 45) || (n =? 126))%nat.

Definition quote_char (c : ascii) : string :=
  if always_safe c then String c EmptyString
  else if Ascii.eqb c " " then "+"
  else let n := nat_of_ascii c in
       String "%" (String (hex_digit (n / 16)) (String (hex_digit (n mod 16)) EmptyString)).

Fixpoint quote_plus (s : string) : string :=
  match s with
  | EmptyString => EmptyString
  | String c r => quote_char c +:+ quote_plus r
  end.

Definition quote_value (v : pyvalue) : string :=
  match v with
  | PyBytes b => quote_plus b
  | _ => quote_plus (py_str v)
  end.

Definition urlencode (query : pydict) : string :=
  String.concat "&"
    (map (fun kv => quote_value (fst kv) +:+ "=" +:+ quote_value (snd kv)) query).

(** [requests.get(...)]: the request goes out, time passes, the transport
    answers or raises. *)
Definition http_get (r : http_request) : M http_response :=
  fun st =>
    let w := elapse (outside st) in
    (requests_get rt (sent w) r,
     MkState (self st) (MkWorld (clock w) (drift w) (sent w ++ [r]) (slept w))).

(** ** class Bittrex *)

(** [__init__(self, api_key, api_secret, calls_per_second=1)];
    [calls_per_second] is the number passed, a float or an int that a
    double holds exactly. *)
Definition __init__ (key secret : pyvalue) (calls_per_second : Q)
  : outcome client :=
  let k := if is_none key then EmptyString else py_str key in
  let s := if is_none secret then EmptyString else py_str secret in
  if Qeq_bool calls_per_second 0
  then Raised (MkExn ZeroDivisionError "float division by zero")
  else
    let rate := float_div 1 calls_per_second in
    let uri := API_URI in
    match str_format "{uri}{path}" [("uri", PyStr uri); ("path", PyStr BASE_PATH)] with
    | Normal url => Normal (MkClient (PyStr k) (PyStr s) rate None url)
    | Raised e => Raised e
    end.

Definition auth_headers (key_bytes timestamp content_hash signature : string)
  : list (string * pyvalue) :=
  [ ("Api-Key", PyBytes key_bytes);
    ("Api-Timestamp", PyStr timestamp);
    ("Api-Content-Hash", PyStr content_hash);
    ("Api-Signature", PyStr signature) ].

(** [dispatch(self, request_url, api_timestamp, body)] *)
Definition dispatch (request_url api_timestamp : string) (body : pyvalue)
  : M pyvalue :=
  let request_body := if py_truthy body then body else PyStr EmptyString in
  body_bytes <- lift (py_encode request_body) ;;
  let signature := sha512_hexdigest rt body_bytes in
  let pre_sign := api_timestamp +:+ request_url +:+ "GET" +:+ signature in
  c <- get_self ;;
  secret_bytes <- lift (py_encode (api_secret c)) ;;
  let api_sign := hmac_sha512_hexdigest rt secret_bytes pre_sign in
  key_bytes <- lift (py_encode (api_key c)) ;;
  response <- http_get
    (MkRequest "GET" request_url
       (auth_headers key_bytes api_timestamp signature api_sign) 10%Z) ;;
  lift (resp_json response).

Definition is_str (v : pyvalue) : bool :=
  match v with PyStr _ => true | _ => false end.

Definition literal_eval_if_str (v : pyvalue) (store : pyvalue -> M unit) : M unit :=
  match v with
  | PyStr s => x <- lift (literal_eval rt s) ;; store x
  | _ => ret tt
  end.

Definition decrypt_decode (v : pyvalue) : outcome pyvalue :=
  match v with
  | PyBytes b =>
      match bytes_decode rt b with
      | Normal s => Normal (PyStr s)
      | Raised e => Raised e
      end
  | _ => Raised (MkExn AttributeError
           ("'" +:+ py_type_name v +:+ "' object has no attribute 'decode'"))
  end.

Definition pycrypto_missing : string :=
  String (ascii_of_nat 34) "pycrypto" +:+ String (ascii_of_nat 34) " module has to be installed".

(** [decrypt(self)] *)
Definition decrypt : M unit :=
  if encrypted rt then
    cipher <- lift (aes_new rt
      (getpass rt "Input decryption password (string will not show)")) ;;
    try_except
      (c <- get_self ;;
       literal_eval_if_str (api_key c) set_api_key ;;;
       c <- get_self ;;
       literal_eval_if_str (api_secret c) set_api_secret)
      (fun _ => ret tt) ;;;
    c <- get_self ;;
    plain <- lift (cipher (api_key c)) ;;
    k <- lift (decrypt_decode plain) ;;
    set_api_key k ;;;
    c <- get_self ;;
    plain <- lift (cipher (api_secret c)) ;;
    s <- lift (decrypt_decode plain) ;;
    set_api_secret s
  else raise (MkExn ImportError pycrypto_missing).

(** [wait(self)] *)
Definition wait : M unit :=
  c <- get_self ;;
  match last_call c with
  | None =>
      now <- time_time ;;
      set_last_call now
  | Some last =>
      now <- time_time ;;
      let passed := (now - last)%Q in
      (if negb (Qle_bool (call_rate c) passed)
       then time_sleep (call_rate c - passed)%Q
       else ret tt) ;;;
      t <- time_time ;;
      set_last_call t
  end.

Definition no_api_response (e : exn) : pyvalue :=
  PyDict [ (PyStr "success", PyBool false);
           (PyStr "message", PyStr "NO_API_RESPONSE");
           (PyStr "result", PyNone);
           (PyStr "error", PyStr (exc_str e)) ].

(** [if not options: options = {}] *)
Definition options_or_empty (options : option pydict) : pydict :=
  match options with
  | Some d => d
  | None => []
  end.

(** [_api_query(self, protection=None, path_dict=None, options=None, body=None)] *)
Definition _api_query (protection path_dict : pyvalue) (options : option pydict)
    (body : pyvalue) : M pyvalue :=
  let options := options_or_empty options in
  c <- get_self ;;
  let request_url := base_url c in
  request_url <- lift (str_format request_url [("path", path_dict)]) ;;
  now <- time_time ;;
  let nonce := py_str (PyInt (py_int_of_float (float_mul now 1000))) in
  let request_url := request_url +:+ urlencode options in
  try_except
    (wait ;;; dispatch request_url nonce body)
    (fun e => ret (no_api_response e)).

(** *** Expression helpers used by the endpoint methods *)

Definition unhashable (v : pyvalue) : exn :=
  MkExn TypeError ("unhashable type: '" +:+ py_type_name v +:+ "'").

(** A dictionary display [{k1: v1, k2: v2, ...}] whose keys and values have
    been evaluated. *)
Fixpoint dict_display_from (d : pydict) (items : list (pyvalue * pyvalue))
  : outcome pydict :=
  match items with
  | [] => Normal d
  | (k, v) :: r =>
      if hashable k then dict_display_from (dict_set d k v) r
      else Raised (unhashable k)
  end.

Definition dict_display (items : list (pyvalue * pyvalue)) : outcome pydict :=
  dict_display_from [] items.

Definition not_subscriptable (v : pyvalue) : exn :=
  MkExn TypeError ("'" +:+ py_type_name v +:+ "' object is not subscriptable").

Definition seq_index (len : nat) (i : Z) : option nat :=
  if ((0 <=? i) && (i <? Z.of_nat len))%Z then Some (Z.to_nat i)
  else if ((- Z.of_nat len <=? i) && (i <? 0))%Z then Some (Z.to_nat (Z.of_nat len + i))
  else None.

Definition as_index (k : pyvalue) : option Z :=
  match k with
  | PyInt z => Some z
  | PyBool b => Some (if b then 1 else 0)%Z
  | _ => None
  end.

(** [v[k]] *)
Definition py_getitem (v k : pyvalue) : outcome pyvalue :=
  match v with
  | PyDict d =>
      if hashable k then
        match dict_get d k with
        | Some x => Normal x
        | None => Raised (MkExn KeyError
            (match k with PyStr s => "'" +:+ s +:+ "'" | _ => py_str k end))
        end
      else Raised (unhashable k)
  | PyList l =>
      match as_index k with
      | Some i =>
          match seq_index (List.length l) i with
          | Some n =>
              match nth_error l n with
              | Some x => Normal x
              | None => Raised (MkExn IndexError "list index out of range")
              end
          | None => Raised (MkExn IndexError "list index out of range")
          end
      | None => Raised (MkExn TypeError
          ("list indices must be integers or slices, not " +:+ py_type_name k))
      end
  | PyStr s =>
      match as_index k with
      | Some i =>
          match seq_index (String.length s) i with
          | Some n =>
              match String.get n s with
              | Some c => Normal (PyStr (String c EmptyString))
              | None => Raised (MkExn IndexError "string index out of range")
              end
          | None => Raised (MkExn IndexError "string index out of range")
          end
      | None => Raised (MkExn TypeError
          ("string indices must be integers, not '" +:+ py_type_name k +:+ "'"))
      end
  | PyBytes s =>
      match as_index k with
      | Some i =>
          match seq_index (String.length s) i with
          | Some n =>
              match String.get n s with
              | Some c => Normal (PyInt (Z.of_nat (nat_of_ascii c)))
              | None => Raised (MkExn IndexError "index out of range")
              end
          | None => Raised (MkExn IndexError "index out of range")
          end
      | None => Raised (MkExn TypeError
          ("byte indices must be integers or slices, not " +:+ py_type_name k))
      end
  | _ => Raised (not_subscriptable v)
  end.

Fixpoint chars_of (s : string) : list ascii :=
  match s with
  | EmptyString => []
  | String c r => c :: chars_of r
  end.

(** The elements a [for] clause draws from [v]. *)
Definition py_iter (v : pyvalue) : outcome (list pyvalue) :=
  match v with
  | PyList l => Normal l
  | PyDict d => Normal (map fst d)
  | PyStr s => Normal (map (fun c => PyStr (String c EmptyString)) (chars_of s))
  | PyBytes s => Normal (map (fun c => PyInt (Z.of_nat (nat_of_ascii c))) (chars_of s))
  | _ => Raised (MkExn TypeError
           ("'" +:+ py_type_name v +:+ "' object is not iterable"))
  end.

(** [str.lower()]: on ASCII text the letters A to Z are folded; other text
    goes by the Unicode tables. *)
Definition text_lower (s : string) : string :=
  if isascii s then str_lower s else unicode_lower rt s.

(** [v.lower()]; [bytes.lower()] folds the ASCII letters only. *)
Definition py_lower (v : pyvalue) : outcome pyvalue :=
  match v with
  | PyStr s => Normal (PyStr (text_lower s))
  | PyBytes s => Normal (PyBytes (str_lower s))
  | _ => Raised (MkExn AttributeError
           ("'" +:+ py_type_name v +:+ "' object has no attribute 'lower'"))
  end.

(** [v.endswith(suffix)] *)
Definition py_endswith (v suffix : pyvalue) : outcome bool :=
  match v, suffix with
  | PyStr s, PyStr t => Normal (endswith s t)
  | PyBytes s, PyBytes t => Normal (endswith s t)
  | PyStr _, _ => Raised (MkExn TypeError
      ("endswith first arg must be str or a tuple of str, not " +:+ py_type_name suffix))
  | PyBytes _, _ => Raised (MkExn TypeError
      ("endswith first arg must be bytes or a tuple of bytes, not " +:+ py_type_name suffix))
  | _, _ => Raised (MkExn AttributeError
      ("'" +:+ py_type_name v +:+ "' object has no attribute 'endswith'"))
  end.

(** *** Endpoint methods

    Default arguments are passed explicitly: an omitted argument is the
    default of the signature ([PyNone], or [PyFloat 0] for [target]).  The
    keyword arguments of each call are evaluated in the order written. *)

Definition get_markets : M pyvalue :=
  _api_query PyNone (PyStr "/markets") None PyNone.

Definition get_currencies : M pyvalue :=
  _api_query PyNone (PyStr "/currencies") None PyNone.

Definition get_market_summaries : M pyvalue :=
  _api_query PyNone (PyStr "/markets/summaries") None PyNone.

Definition get_market_summary (market : pyvalue) : M pyvalue :=
  path <- lift (str_format "/markets/{marketSymbol}/summary" [("marketSymbol", market)]) ;;
  _api_query PyNone (PyStr path) None PyNone.

Definition get_market_ticker (market : pyvalue) : M pyvalue :=
  path <- lift (str_format "/markets/{marketSymbol}/ticker" [("marketSymbol", market)]) ;;
  _api_query PyNone (PyStr path) None PyNone.

(** The query dictionary of an optional filter: [{k1: x, k2: x, ...} if x
    else None]. *)
Definition filter_options (keys : list string) (x : pyvalue) : option pydict :=
  if py_truthy x then Some (map (fun k => (PyStr k, x)) keys) else None.

(** The methods below load module-level names when they run; [globals] is
    the namespace of the module at that moment. *)
Section Globals.

Variable globals : gmap string pyvalue.

Definition buy_limit (market quantity rate : pyvalue) : M pyvalue :=
  v <- lift (load_global globals "API_V1_1") ;;
  path_dict <- lift (dict_display [(v, PyStr "/market/buylimit")]) ;;
  let options := Some [(PyStr "market", market); (PyStr "quantity", quantity); (PyStr "rate", rate)] in
  protection <- lift (load_global globals "PROTECTION_PRV") ;;
  _api_query protection (PyDict path_dict) options PyNone.

Definition sell_limit (market quantity rate : pyvalue) : M pyvalue :=
  v <- lift (load_global globals "API_V1_1") ;;
  path_dict <- lift (dict_display [(v, PyStr "/market/selllimit")]) ;;
  let options := Some [(PyStr "market", market); (PyStr "quantity", quantity); (PyStr "rate", rate)] in
  protection <- lift (load_global globals "PROTECTION_PRV") ;;
  _api_query protection (PyDict path_dict) options PyNone.

Definition cancel (uuid : pyvalue) : M pyvalue :=
  v1 <- lift (load_global globals "API_V1_1") ;;
  v2 <- lift (load_global globals "API_V2_0") ;;
  path_dict <- lift (dict_display [(v1, PyStr "/market/cancel"); (v2, PyStr "/key/market/tradecancel")]) ;;
  let options := Some [(PyStr "uuid", uuid); (PyStr "orderid", uuid)] in
  protection <- lift (load_global globals "PROTECTION_PRV") ;;
  _api_query protection (PyDict path_dict) options PyNone.

Definition get_open_orders (market : pyvalue) : M pyvalue :=
  v1 <- lift (load_global globals "API_V1_1") ;;
  v2 <- lift (load_global globals "API_V2_0") ;;
  path_dict <- lift (dict_display [(v1, PyStr "/market/getopenorders"); (v2, PyStr "/key/market/getopenorders")]) ;;
  let options := filter_options ["market"; "marketname"] market in
  protection <- lift (load_global globals "PROTECTION_PRV") ;;
  _api_query protection (PyDict path_dict) options PyNone.

Definition get_balances : M pyvalue :=
  v1 <- lift (load_global globals "API_V1_1") ;;
  v2 <- lift (load_global globals "API_V2_0") ;;
  path_dict <- lift (dict_display [(v1, PyStr "/account/getbalances"); (v2, PyStr "/key/balance/GetBalances")]) ;;
  protection <- lift (load_global globals "PROTECTION_PRV") ;;
  _api_query protection (PyDict path_dict) None PyNone.

Definition get_balance (currency : pyvalue) : M pyvalue :=
  v1 <- lift (load_global globals "API_V1_1") ;;
  v2 <- lift (load_global globals "API_V2_0") ;;
  path_dict <- lift (dict_display [(v1, PyStr "/account/getbalance"); (v2, PyStr "/key/balance/getbalance")]) ;;
  let options := Some [(PyStr "currency", currency); (PyStr "currencyname", currency)] in
  protection <- lift (load_global globals "PROTECTION_PRV") ;;
  _api_query protection (PyDict path_dict) options PyNone.

Definition get_deposit_address (currency : pyvalue) : M pyvalue :=
  v1 <- lift (load_global globals "API_V1_1") ;;
  v2 <- lift (load_global globals "API_V2_0") ;;
  path_dict <- lift (dict_display [(v1, PyStr "/account/getdepositaddress"); (v2, PyStr "/key/balance/getdepositaddress")]) ;;
  let options := Some [(PyStr "currency", currency); (PyStr "currencyname", currency)] in
  protection <- lift (load_global globals "PROTECTION_PRV") ;;
  _api_query protection (PyDict path_dict) options PyNone.

(** The [options] local of [withdraw], as it stands when the call to
    [_api_query] is reached. *)
Definition withdraw_options (currency quantity address paymentid : pyvalue) : pydict :=
  let options := [ (PyStr "currency", currency);
                   (PyStr "quantity", quantity);
                   (PyStr "address", address) ] in
  if py_truthy paymentid then dict_set options (PyStr "paymentid") paymentid
  else options.

Definition withdraw (currency quantity address paymentid : pyvalue) : M pyvalue :=
  let options := withdraw_options currency quantity address paymentid in
  v1 <- lift (load_global globals "API_V1_1") ;;
  v2 <- lift (load_global globals "API_V2_0") ;;
  path_dict <- lift (dict_display [(v1, PyStr "/account/withdraw"); (v2, PyStr "/key/balance/withdrawcurrency")]) ;;
  protection <- lift (load_global globals "PROTECTION_PRV") ;;
  _api_query protection (PyDict path_dict) (Some options) PyNone.

Definition get_order_history (market : pyvalue) : M pyvalue :=
  if py_truthy market then
    v1 <- lift (load_global globals "API_V1_1") ;;
    v2 <- lift (load_global globals "API_V2_0") ;;
    path_dict <- lift (dict_display [(v1, PyStr "/account/getorderhistory"); (v2, PyStr "/key/market/GetOrderHistory")]) ;;
    let options := Some [(PyStr "market", market); (PyStr "marketname", market)] in
    protection <- lift (load_global globals "PROTECTION_PRV") ;;
    _api_query protection (PyDict path_dict) options PyNone
  else
    v1 <- lift (load_global globals "API_V1_1") ;;
    v2 <- lift (load_global globals "API_V2_0") ;;
    path_dict <- lift (dict_display [(v1, PyStr "/account/getorderhistory"); (v2, PyStr "/key/orders/getorderhistory")]) ;;
    protection <- lift (load_global globals "PROTECTION_PRV") ;;
    _api_query protection (PyDict path_dict) None PyNone.

Definition get_order (uuid : pyvalue) : M pyvalue :=
  v1 <- lift (load_global globals "API_V1_1") ;;
  v2 <- lift (load_global globals "API_V2_0") ;;
  path_dict <- lift (dict_display [(v1, PyStr "/account/getorder"); (v2, PyStr "/key/orders/getorder")]) ;;
  let options := Some [(PyStr "uuid", uuid); (PyStr "orderid", uuid)] in
  protection <- lift (load_global globals "PROTECTION_PRV") ;;
  _api_query protection (PyDict path_dict) options PyNone.

Definition get_withdrawal_history (currency : pyvalue) : M pyvalue :=
  v1 <- lift (load_global globals "API_V1_1") ;;
  v2 <- lift (load_global globals "API_V2_0") ;;
  path_dict <- lift (dict_display [(v1, PyStr "/account/getwithdrawalhistory"); (v2, PyStr "/key/balance/getwithdrawalhistory")]) ;;
  let options := filter_options ["currency"; "currencyname"] currency in
  protection <- lift (load_global globals "PROTECTION_PRV") ;;
  _api_query protection (PyDict path_dict) options PyNone.

Definition get_deposit_history (currency : pyvalue) : M pyvalue :=
  v1 <- lift (load_global globals "API_V1_1") ;;
  v2 <- lift (load_global globals "API_V2_0") ;;
  path_dict <- lift (dict_display [(v1, PyStr "/account/getdeposithistory"); (v2, PyStr "/key/balance/getdeposithistory")]) ;;
  let options := filter_options ["currency"; "currencyname"] currency in
  protection <- lift (load_global globals "PROTECTION_PRV") ;;
  _api_query protection (PyDict path_dict) options PyNone.

(** The list comprehension of [list_markets_by_currency]: for each market
    the condition is evaluated first, then the element expression. *)
Fixpoint markets_ending_with (currency : pyvalue) (markets : list pyvalue)
  : outcome (list pyvalue) :=
  match markets with
  | [] => Normal []
  | market :: rest =>
      name <~ py_getitem market (PyStr "MarketName") ;;
      low <~ py_lower name ;;
      cur <~ py_lower currency ;;
      keep <~ py_endswith low cur ;;
      if keep : bool then
        elt <~ py_getitem market (PyStr "MarketName") ;;
        more <~ markets_ending_with currency rest ;;
        Normal (elt :: more)
      else markets_ending_with currency rest
  end.

Definition list_markets_by_currency (currency : pyvalue) : M pyvalue :=
  response <- get_markets ;;
  result <- lift (py_getitem response (PyStr "result")) ;;
  markets <- lift (py_iter result) ;;
  names <- lift (markets_ending_with currency markets) ;;
  ret (PyList names).

Definition get_wallet_health : M pyvalue :=
  v <- lift (load_global globals "API_V2_0") ;;
  path_dict <- lift (dict_display [(v, PyStr "/pub/Currencies/GetWalletHealth")]) ;;
  protection <- lift (load_global globals "PROTECTION_PUB") ;;
  _api_query protection (PyDict path_dict) None PyNone.

Definition get_balance_distribution : M pyvalue :=
  v <- lift (load_global globals "API_V2_0") ;;
  path_dict <- lift (dict_display [(v, PyStr "/pub/Currency/GetBalanceDistribution")]) ;;
  protection <- lift (load_global globals "PROTECTION_PUB") ;;
  _api_query protection (PyDict path_dict) None PyNone.

Definition get_pending_withdrawals (currency : pyvalue) : M pyvalue :=
  v <- lift (load_global globals "API_V2_0") ;;
  path_dict <- lift (dict_display [(v, PyStr "/key/balance/getpendingwithdrawals")]) ;;
  let options := filter_options ["currencyname"] currency in
  protection <- lift (load_global globals "PROTECTION_PRV") ;;
  _api_query protection (PyDict path_dict) options PyNone.

Definition get_pending_deposits (currency : pyvalue) : M pyvalue :=
  v <- lift (load_global globals "API_V2_0") ;;
  path_dict <- lift (dict_display [(v, PyStr "/key/balance/getpendingdeposits")]) ;;
  let options := filter_options ["currencyname"] currency in
  protection <- lift (load_global globals "PROTECTION_PRV") ;;
  _api_query protection (PyDict path_dict) options PyNone.

Definition generate_deposit_address (currency : pyvalue) : M pyvalue :=
  v <- lift (load_global globals "API_V2_0") ;;
  path_dict <- lift (dict_display [(v, PyStr "/key/balance/getpendingdeposits")]) ;;
  let options := Some [(PyStr "currencyname", currency)] in
  protection <- lift (load_global globals "PROTECTION_PRV") ;;
  _api_query protection (PyDict path_dict) options PyNone.

Definition trade_sell (market order_type quantity rate time_in_effect condition_type target : pyvalue)
  : M pyvalue :=
  v <- lift (load_global globals "API_V2_0") ;;
  path_dict <- lift (dict_display [(v, PyStr "/key/market/tradesell")]) ;;
  let options := Some [(PyStr "marketname", market); (PyStr "ordertype", order_type); (PyStr "quantity", quantity); (PyStr "rate", rate); (PyStr "timeInEffect", time_in_effect); (PyStr "conditiontype", condition_type); (PyStr "target", target)] in
  protection <- lift (load_global globals "PROTECTION_PRV") ;;
  _api_query protection (PyDict path_dict) options PyNone.

Definition trade_buy (market order_type quantity rate time_in_effect condition_type target : pyvalue)
  : M pyvalue :=
  v <- lift (load_global globals "API_V2_0") ;;
  path_dict <- lift (dict_display [(v, PyStr "/key/market/tradebuy")]) ;;
  let options := Some [(PyStr "marketname", market); (PyStr "ordertype", order_type); (PyStr "quantity", quantity); (PyStr "rate", rate); (PyStr "timeInEffect", time_in_effect); (PyStr "conditiontype", condition_type); (PyStr "target", target)] in
  protection <- lift (load_global globals "PROTECTION_PRV") ;;
  _api_query protection (PyDict path_dict) options PyNone.

Definition get_candles (market tick_interval : pyvalue) : M pyvalue :=
  v <- lift (load_global globals "API_V2_0") ;;
  path_dict <- lift (dict_display [(v, PyStr "/pub/market/GetTicks")]) ;;
  let options := Some [(PyStr "marketName", market); (PyStr "tickInterval", tick_interval)] in
  protection <- lift (load_global globals "PROTECTION_PUB") ;;
  _api_query protection (PyDict path_dict) options PyNone.

Definition get_latest_candle (market tick_interval : pyvalue) : M pyvalue :=
  v <- lift (load_global globals "API_V2_0") ;;
  path_dict <- lift (dict_display [(v, PyStr "/pub/market/GetLatestTick")]) ;;
  let options := Some [(PyStr "marketName", market); (PyStr "tickInterval", tick_interval)] in
  protection <- lift (load_global globals "PROTECTION_PUB") ;;
  _api_query protection (PyDict path_dict) options PyNone.

(** *** The methods of the class, as one type of calls *)

Inductive operation : Type :=
| Call_dispatch (request_url api_timestamp : string) (body : pyvalue)
| Call_decrypt
| Call_wait
| Call_api_query (protection path_dict : pyvalue) (options : option pydict) (body : pyvalue)
| Call_get_markets
| Call_get_currencies
| Call_get_market_summaries
| Call_get_market_summary (market : pyvalue)
| Call_get_market_ticker (market : pyvalue)
| Call_buy_limit (market quantity rate : pyvalue)
| Call_sell_limit (market quantity rate : pyvalue)
| Call_cancel (uuid : pyvalue)
| Call_get_open_orders (market : pyvalue)
| Call_get_balances
| Call_get_balance (currency : pyvalue)
| Call_get_deposit_address (currency : pyvalue)
| Call_withdraw (currency quantity address paymentid : pyvalue)
| Call_get_order_history (market : pyvalue)
| Call_get_order (uuid : pyvalue)
| Call_get_withdrawal_history (currency : pyvalue)
| Call_get_deposit_history (currency : pyvalue)
| Call_list_markets_by_currency (currency : pyvalue)
| Call_get_wallet_health
| Call_get_balance_distribution
| Call_get_pending_withdrawals (currency : pyvalue)
| Call_get_pending_deposits (currency : pyvalue)
| Call_generate_deposit_address (currency : pyvalue)
| Call_trade_sell (market order_type quantity rate time_in_effect condition_type target : pyvalue)
| Call_trade_buy (market order_type quantity rate time_in_effect condition_type target : pyvalue)
| Call_get_candles (market tick_interval : pyvalue)
| Call_get_latest_candle (market tick_interval : pyvalue).

Definition returning_none (m : M unit) : M pyvalue := m ;;; ret PyNone.

(** A call of a method while the module has the namespace [globals]. *)
Definition invoke (op : operation) : M pyvalue :=
  match op with
  | Call_dispatch u t b => dispatch u t b
  | Call_decrypt => returning_none decrypt
  | Call_wait => returning_none wait
  | Call_api_query p d o b => _api_query p d o b
  | Call_get_markets => get_markets
  | Call_get_currencies => get_currencies
  | Call_get_market_summaries => get_market_summaries
  | Call_get_market_summary m => get_market_summary m
  | Call_get_market_ticker m => get_market_ticker m
  | Call_buy_limit m q r => buy_limit m q r
  | Call_sell_limit m q r => sell_limit m q r
  | Call_cancel u => cancel u
  | Call_get_open_orders m => get_open_orders m
  | Call_get_balances => get_balances
  | Call_get_balance c => get_balance c
  | Call_get_deposit_address c => get_deposit_address c
  | Call_withdraw c q a p => withdraw c q a p
  | Call_get_order_history m => get_order_history m
  | Call_get_order u => get_order u
  | Call_get_withdrawal_history c => get_withdrawal_history c
  | Call_get_deposit_history c => get_deposit_history c
  | Call_list_markets_by_currency c => list_markets_by_currency c
  | Call_get_wallet_health => get_wallet_health
  | Call_get_balance_distribution => get_balance_distribution
  | Call_get_pending_withdrawals c => get_pending_withdrawals c
  | Call_get_pending_deposits c => get_pending_deposits c
  | Call_generate_deposit_address c => generate_deposit_address c
  | Call_trade_sell m o q r t c g => trade_sell m o q r t c g
  | Call_trade_buy m o q r t c g => trade_buy m o q r t c g
  | Call_get_candles m t => get_candles m t
  | Call_get_latest_candle m t => get_latest_candle m t
  end.

End Globals.

(** A call of a method of the module as it is written. *)
Definition call (op : operation) : M pyvalue := invoke module_globals op.

(** The methods whose [path_dict] is a dictionary keyed by the names
    [API_V1_1] and [API_V2_0]. *)
Definition keyed_by_api_version (op : operation) : bool :=
  match op with
  | Call_buy_limit _ _ _ | Call_sell_limit _ _ _ | Call_cancel _
  | Call_get_open_orders _ | Call_get_balances | Call_get_balance _
  | Call_get_deposit_address _ | Call_withdraw _ _ _ _
  | Call_get_order_history _ | Call_get_order _
  | Call_get_withdrawal_history _ | Call_get_deposit_history _
  | Call_get_wallet_health | Call_get_balance_distribution
  | Call_get_pending_withdrawals _ | Call_get_pending_deposits _
  | Call_generate_deposit_address _
  | Call_trade_sell _ _ _ _ _ _ _ | Call_trade_buy _ _ _ _ _ _ _
  | Call_get_candles _ _ | Call_get_latest_candle _ _ => true
  | _ => false
  end.

End Bittrex.

(** ** The module-level helper [encrypt]

    Its collaborators beyond the client's: the [encrypt] method of the
    cipher, and the file the dictionary is dumped to. *)

Record keystore : Type := MkKeystore {
  (** [AES.new(password)], reduced to the [encrypt] method of the cipher. *)
  aes_encrypt : string -> outcome (pyvalue -> outcome pyvalue);
  (** [with open(export_fn, 'w') as outfile: json.dump(api, outfile)] *)
  json_dump_to : string -> pydict -> outcome unit
}.

Section Keystore.

Variable rt : runtime.
Variable ks : keystore.

(** [encrypt(api_key, api_secret, export=True, export_fn='secrets.json')].
    The names [AES], [getpass] and [json] are bound only when the import of
    [pycrypto] succeeded; [AES] is the first one the body loads. *)
Definition encrypt (api_key api_secret : pyvalue) (export : bool)
    (export_fn : string) : outcome pydict :=
  if encrypted rt then
    cipher <~ aes_encrypt ks
      (getpass rt "Input encryption password (string will not show)") ;;
    api_key_n <~ cipher api_key ;;
    api_secret_n <~ cipher api_secret ;;
    let api := [ (PyStr "key", PyStr (py_str rt api_key_n));
                 (PyStr "secret", PyStr (py_str rt api_secret_n)) ] in
    if export
    then obind (json_dump_to ks export_fn api) (fun _ => Normal api)
    else Normal api
  else Raised (name_error "AES").

End Keystore.

(** The market listing of the fixture. *)
Definition fixture_markets : list pyvalue :=
  [ PyDict [(PyStr "MarketName", PyStr "BTC-LTC")];
    PyDict [(PyStr "MarketName", PyStr "ETH-BTC")];
    PyDict [(PyStr "MarketName", PyStr "USDT-LTC")] ].

(** The arguments of one call of [_api_query]. *)
Record query : Type := MkQuery {
  q_protection : pyvalue;
  q_path_dict : pyvalue;
  q_options : option pydict;
  q_body : pyvalue
}.

(** ** A reference runtime

    The theorems below hold for every runtime.  Closed examples need one:
    [Hashlib] is SHA-512 and HMAC as FIPS 180-4 and RFC 2104 define them,
    on bytes as integers below 256. *)

Module Hashlib.

Local Open Scope Z_scope.

Definition mask64 (x : Z) : Z := Z.land x 0xffffffffffffffff.
Definition add64 (a b : Z) : Z := mask64 (a + b).
Definition rotr (n x : Z) : Z :=
  Z.lor (Z.shiftr x n) (mask64 (Z.shiftl x (64 - n))).

Definition Ch (x y z : Z) : Z :=
  Z.lxor (Z.land x y) (Z.land (Z.lxor x 0xffffffffffffffff) z).
Definition Maj (x y z : Z) : Z :=
  Z.lxor (Z.lxor (Z.land x y) (Z.land x z)) (Z.land y z).
Definition Sigma0 (x : Z) : Z := Z.lxor (Z.lxor (rotr 28 x) (rotr 34 x)) (rotr 39 x).
Definition Sigma1 (x : Z) : Z := Z.lxor (Z.lxor (rotr 14 x) (rotr 18 x)) (rotr 41 x).
Definition sigma0 (x : Z) : Z := Z.lxor (Z.lxor (rotr 1 x) (rotr 8 x)) (Z.shiftr x 7).
Definition sigma1 (x : Z) : Z := Z.lxor (Z.lxor (rotr 19 x) (rotr 61 x)) (Z.shiftr x 6).

Definition K512 : list Z :=
  [ 0x428a2f98d728ae22; 0x7137449123ef65cd; 0xb5c0fbcfec4d3b2f; 0xe9b5dba58189dbbc;
    0x3956c25bf348b538; 0x59f111f1b605d019; 0x923f82a4af194f9b; 0xab1c5ed5da6d8118;
    0xd807aa98a3030242; 0x12835b0145706fbe; 0x243185be4ee4b28c; 0x550c7dc3d5ffb4e2;
    0x72be5d74f27b896f; 0x80deb1fe3b1696b1; 0x9bdc06a725c71235; 0xc19bf174cf692694;
    0xe49b69c19ef14ad2; 0xefbe4786384f25e3; 0x0fc19dc68b8cd5b5; 0x240ca1cc77ac9c65;
    0x2de92c6f592b0275; 0x4a7484aa6ea6e483; 0x5cb0a9dcbd41fbd4; 0x76f988da831153b5;
    0x983e5152ee66dfab; 0xa831c66d2db43210; 0xb00327c898fb213f; 0xbf597fc7beef0ee4;
    0xc6e00bf33da88fc2; 0xd5a79147930aa725; 0x06ca6351e003826f; 0x142929670a0e6e70;
    0x27b70a8546d22ffc; 0x2e1b21385c26c926; 0x4d2c6dfc5ac42aed; 0x53380d139d95b3df;
    0x650a73548baf63de; 0x766a0abb3c77b2a8; 0x81c2c92e47edaee6; 0x92722c851482353b;
    0xa2bfe8a14cf10364; 0xa81a664bbc423001; 0xc24b8b70d0f89791; 0xc76c51a30654be30;
    0xd192e819d6ef5218; 0xd69906245565a910; 0xf40e35855771202a; 0x106aa07032bbd1b8;
    0x19a4c116b8d2d0c8; 0x1e376c085141ab53; 0x2748774cdf8eeb99; 0x34b0bcb5e19b48a8;
    0x391c0cb3c5c95a63; 0x4ed8aa4ae3418acb; 0x5b9cca4f7763e373; 0x682e6ff3d6b2b8a3;
    0x748f82ee5defb2fc; 0x78a5636f43172f60; 0x84c87814a1f0ab72; 0x8cc702081a6439ec;
    0x90befffa23631e28; 0xa4506cebde82bde9; 0xbef9a3f7b2c67915; 0xc67178f2e372532b;
    0xca273eceea26619c; 0xd186b8c721c0c207; 0xeada7dd6cde0eb1e; 0xf57d4f7fee6ed178;
    0x06f067aa72176fba; 0x0a637dc5a2c898a6; 0x113f9804bef90dae; 0x1b710b35131c471b;
    0x28db77f523047d84; 0x32caab7b40c72493; 0x3c9ebe0a15c9bebc; 0x431d67c49c100d4c;
    0x4cc5d4becb3e42b6; 0x597f299cfc657e2a; 0x5fcb6fab3ad6faec; 0x6c44198c4a475817 ].

Definition H512 : list Z :=
  [ 0x6a09e667f3bcc908; 0xbb67ae8584caa73b; 0x3c6ef372fe94f82b; 0xa54ff53a5f1d36f1;
    0x510e527fade682d1; 0x9b05688c2b3e6c1f; 0x1f83d9abfb41bd6b; 0x5be0cd19137e2179 ].

Definition bytes_of_string (s : string) : list Z :=
  map (fun c => Z.of_nat (nat_of_ascii c)) (list_ascii_of_string s).

(** Big-endian bytes of [x], [n] of them. *)
Fixpoint be_bytes (n : nat) (x : Z) : list Z :=
  match n with
  | O => []
  | S m => Z.land (Z.shiftr x (8 * Z.of_nat m)) 0xff :: be_bytes m x
  end.

Definition be_word (bs : list Z) : Z :=
  fold_left (fun acc b => Z.lor (Z.shiftl acc 8) b) bs 0.

(** The message, a one bit, zeros up to 112 modulo 128, then the length in
    bits on sixteen bytes. *)
Definition pad (msg : list Z) : list Z :=
  let len := Z.of_nat (List.length msg) in
  let zeros := Z.to_nat ((111 - len) mod 128) in
  msg ++ [0x80] ++ repeat 0 zeros ++ be_bytes 16 (8 * len).

Fixpoint chunks (fuel size : nat) (l : list Z) : list (list Z) :=
  match fuel, l with
  | O, _ => []
  | _, [] => []
  | S f, _ => firstn size l :: chunks f size (skipn size l)
  end.

(** The last sixteen schedule words, newest first, give the next one. *)
Definition next_word (window : list Z) : Z :=
  add64 (add64 (sigma1 (nth 1 window 0)) (nth 6 window 0))
        (add64 (sigma0 (nth 14 window 0)) (nth 15 window 0)).

Fixpoint extend (n : nat) (window : list Z) (acc : list Z) : list Z :=
  match n with
  | O => rev acc
  | S m =>
      let w := next_word window in
      extend m (w :: firstn 15 window) (w :: acc)
  end.

Definition schedule (block : list Z) : list Z :=
  let w16 := map be_word (chunks 16 8 block) in
  w16 ++ extend 64 (rev w16) [].

Definition round (st : list Z) (kw : Z * Z) : list Z :=
  match st with
  | [a; b; c; d; e; f; g; h] =>
      let t1 := add64 (add64 (add64 h (Sigma1 e)) (add64 (Ch e f g) (fst kw))) (snd kw) in
      let t2 := add64 (Sigma0 a) (Maj a b c) in
      [add64 t1 t2; a; b; c; add64 d t1; e; f; g]
  | _ => st
  end.

Definition compress (h : list Z) (block : list Z) : list Z :=
  let final := fold_left round (combine K512 (schedule block)) h in
  map (fun p => add64 (fst p) (snd p)) (combine h final).

Definition sha512_bytes (msg : list Z) : list Z :=
  let padded := pad msg in
  let state := fold_left compress (chunks (List.length padded) 128 padded) H512 in
  flat_map (be_bytes 8) state.

Definition hex_lower (n : Z) : ascii :=
  ascii_of_nat (Z.to_nat (if n <? 10 then 48 + n else 87 + n)).

Definition hexdigest (bs : list Z) : string :=
  string_of_list_ascii
    (flat_map (fun b => [hex_lower (Z.shiftr b 4); hex_lower (Z.land b 15)]) bs).

(** [hashlib.sha512(data).hexdigest()] *)
Definition sha512 (data : string) : string :=
  hexdigest (sha512_bytes (bytes_of_string data)).

(** [hmac.new(key, msg, hashlib.sha512).hexdigest()] *)
Definition hmac_sha512 (key msg : string) : string :=
  let k := bytes_of_string key in
  let k := if (128 <? Z.of_nat (List.length k)) then sha512_bytes k else k in
  let k := k ++ repeat 0 (128 - List.length k)%nat in
  let inner := sha512_bytes (map (Z.lxor 0x36) k ++ bytes_of_string msg) in
  hexdigest (sha512_bytes (map (Z.lxor 0x5c) k ++ inner)).

End Hashlib.

Module Reference.

(** [repr] of printable ASCII bytes; other values are not rendered. *)
Definition repr (v : pyvalue) : string :=
  match v with
  | PyBytes b => "b'" +:+ b +:+ "'"
  | PyList _ => "[...]"
  | PyDict _ => "{...}"
  | _ => "..."
  end.

Definition decode (b : string) : outcome string :=
  if isascii b then Normal b
  else Raised (MkExn UnicodeDecodeError "'utf-8' codec can't decode bytes").

Definition no_quote (s : string) : bool :=
  forallb (fun c => negb (Ascii.eqb c "'" || Ascii.eqb c "\"))%char
    (list_ascii_of_string s).

(** [ast.literal_eval] on bytes literals [b'...'] without escapes. *)
Definition literal (s : string) : outcome pyvalue :=
  let n := String.length s in
  let inner := substring 2 (n - 3) s in
  if (3 <=? n)%nat && String.eqb (substring 0 2 s) "b'"
     && String.eqb (substring (n - 1) 1 s) "'" && no_quote inner
  then Normal (PyBytes inner)
  else Raised (MkExn ValueError "malformed node or string").

Fixpoint xor_with (key : list ascii) (pos : nat) (data : list ascii) : list ascii :=
  match data with
  | [] => []
  | c :: r =>
      ascii_of_N (N.lxor (N_of_ascii c)
                    (N_of_ascii (nth (pos mod List.length key) key zero)))
      :: xor_with key (S pos) r
  end.

(** [str.lower()] on UTF-8 text of the Latin-1 range: after the lead byte
    195 the capital letters 128 to 158, the multiplication sign 151 apart,
    move up by 32; the ASCII letters are folded as everywhere. *)
Fixpoint lower_latin (lead : bool) (s : string) : string :=
  match s with
  | EmptyString => EmptyString
  | String c r =>
      let n := nat_of_ascii c in
      if lead then
        String (if ((128 <=? n) && (n <=? 158) && negb (n =? 151))%nat
                then ascii_of_nat (n + 32) else c)
               (lower_latin false r)
      else String (lower_ascii c) (lower_latin (n =? 195)%nat r)
  end.

(** Stands in for [AES.new(key)]: the same checks on key and input
    lengths, and a keyed byte-wise permutation in place of the AES rounds. *)
Definition cipher (key : string) : outcome (pyvalue -> outcome pyvalue) :=
  let n := String.length key in
  if ((n =? 16) || (n =? 24) || (n =? 32))%nat then
    Normal (fun v =>
      match v with
      | PyBytes b =>
          if (String.length b mod 16 =? 0)%nat
          then Normal (PyBytes (string_of_list_ascii
                 (xor_with (list_ascii_of_string key) 0 (list_ascii_of_string b))))
          else Raised (MkExn ValueError
                 "Input strings must be a multiple of 16 in length")
      | _ => Raised (MkExn TypeError "argument must be bytes")
      end)
  else Raised (MkExn ValueError "AES key must be either 16, 24, or 32 bytes long").

(** A runtime with [pycrypto] installed, the password typed at the prompt
    and the transport given. *)
Definition runtime_with (password : string)
    (transport : list http_request -> http_request -> outcome http_response)
  : runtime :=
  {| sha512_hexdigest := Hashlib.sha512;
     hmac_sha512_hexdigest := Hashlib.hmac_sha512;
     py_repr := repr;
     requests_get := transport;
     encrypted := true;
     getpass := fun _ => password;
     aes_new := cipher;
     literal_eval := literal;
     bytes_decode := decode;
     unicode_lower := lower_latin false |}.

(** The exchange answers every request with the same JSON document. *)
Definition answering (json : pyvalue) : runtime :=
  runtime_with "0123456789abcdef" (fun _ _ => Normal (MkResponse (Normal json))).

(** The request never gets an answer. *)
Definition failing (e : exn) : runtime :=
  runtime_with "0123456789abcdef" (fun _ _ => Raised e).

(** The exchange answers with a body that is not JSON. *)
Definition garbled (e : exn) : runtime :=
  runtime_with "0123456789abcdef" (fun _ _ => Normal (MkResponse (Raised e))).

(** The moment the clock starts at, as [time.time()] returns it: the
    double nearest to 1762000000.123. *)
Definition first_reading : Q := 7390363648515899 # 4194304.

Definition start_of_time (delays : list Q) : world :=
  MkWorld first_reading delays [] [].

(** What [Bittrex("key", "secret", calls_per_second=2)] constructs. *)
Definition trader : client :=
  MkClient (PyStr "key") (PyStr "secret") (1 # 2) None
    "https://api.bittrex.com/v3{path}".

(** A client holding credentials as [encrypt] exports them. *)
Definition sealed : client :=
  MkClient (PyStr "b'MYAPIKEYMYAPIKEY'") (PyStr "b'MYSECRETMYSECRET'") 1 None
    "https://api.bittrex.com/v3{path}".

Definition spaces : string := "                ".

Definition timed_out : exn := MkExn Timeout "timed out".

Definition not_json : exn :=
  MkExn JSONDecodeError "Expecting value: line 1 column 1 (char 0)".

Definition listing : pyvalue :=
  PyDict [(PyStr "result", PyList fixture_markets)].

(** The stand-in cipher is its own inverse; the dump always succeeds. *)
Definition vault : keystore :=
  MkKeystore cipher (fun _ _ => Normal tt).

(** The user interrupts the request. *)
Definition interrupted : exn := MkExn KeyboardInterrupt EmptyString.

(** The reference client a little after a call. *)
Definition paused : client :=
  MkClient (PyStr "key") (PyStr "secret") (1 # 2) (Some (1762000000 # 1))
    "https://api.bittrex.com/v3{path}".

(** A listing whose second record names its market by [symbol]. *)
Definition renamed_listing : pydict :=
  [ (PyStr "result",
     PyList [ PyDict [(PyStr "MarketName", PyStr "BTC-LTC")];
              PyDict [(PyStr "symbol", PyStr "ETH-BTC")];
              PyDict [(PyStr "MarketName", PyStr "USDT-LTC")] ]) ].

(** A client whose stored key is too short for the cipher. *)
Definition short_sealed : client :=
  MkClient (PyStr "b'abc'") (PyStr "x") 1 None "https://api.bittrex.com/v3{path}".

(** A client holding a key that was never sealed. *)
Definition unsealed : client :=
  MkClient (PyStr "plainkey") (PyStr "plainsecret") 1 None
    "https://api.bittrex.com/v3{path}".

Definition some_queries : list query :=
  [ MkQuery PyNone (PyStr "/markets") None PyNone;
    MkQuery (PyStr PROTECTION_PRV) (PyStr "/balances") None (PyInt 7);
    MkQuery PyNone (PyStr "/currencies") (Some [(PyStr "a", PyInt 1)]) PyNone ].


(** A listing with names outside ASCII: BTC- followed by a capital and by
    a small E with acute accent, in UTF-8. *)
Definition accented (small : bool) : string :=
  "BTC-" +:+ String (ascii_of_nat 195)
               (String (ascii_of_nat (if small then 169 else 137)) EmptyString).

Definition latin_listing : pyvalue :=
  PyDict [(PyStr "result",
           PyList [ PyDict [(PyStr "MarketName", PyStr (accented false))];
                    PyDict [(PyStr "MarketName", PyStr "ETH-BTC")];
                    PyDict [(PyStr "MarketName", PyStr (accented true))] ])].

Definition busy_clock : world :=
  start_of_time [0; 1 # 10; 0; 2 # 10; 3 # 10; 0; 1 # 100]%Q.

End Reference.

(** ** Vocabulary of the statements *)

(** A capital letter of ASCII. *)
Definition is_upper (c : ascii) : bool :=
  ((65 <=? nat_of_ascii c) && (nat_of_ascii c <=? 90))%nat.

(** The same character, or the same letter in its two cases: a capital
    and the small letter 32 places after it. *)
Definition same_letter (a b : ascii) : Prop :=
  a = b
  \/ (is_upper a = true /\ nat_of_ascii b = nat_of_ascii a + 32)
  \/ (is_upper b = true /\ nat_of_ascii a = nat_of_ascii b + 32).

(** Two texts that differ at most in the case of their letters. *)
Inductive same_text : string -> string -> Prop :=
| same_text_empty : same_text EmptyString EmptyString
| same_text_step (a b : ascii) (s t : string) :
    same_letter a b -> same_text s t -> same_text (String a s) (String b t).

(** The name ends with the currency, case apart. *)
Definition ends_ignoring_case (name currency : string) : Prop :=
  exists front back : string,
    name = front +:+ back /\ same_text back currency.



(** A market record of the listing: a dictionary with a [MarketName]. *)
Definition has_market_name (market : pyvalue) (name : string) : Prop :=
  exists d : pydict,
    market = PyDict d /\ dict_get d (PyStr "MarketName") = Some (PyStr name).

(** A client as the constructor leaves it and the other methods keep it:
    both credentials are [str] and the base URL is the versioned template. *)
Definition constructed (c : client) : bool :=
  is_str (api_key c) && is_str (api_secret c)
  && String.eqb (base_url c) "https://api.bittrex.com/v3{path}".

(** The text of a credential. *)
Definition text_of (v : pyvalue) : string :=
  match v with PyStr s => s | _ => EmptyString end.

(** A body [dispatch] can encode: a [str], or anything falsy. *)
Definition sendable (body : pyvalue) : bool :=
  negb (py_truthy body) || is_str body.

Definition body_text (body : pyvalue) : string :=
  if py_truthy body then text_of body else EmptyString.

Definition with_last_call (c : client) (t : Q) : client :=
  MkClient (api_key c) (api_secret c) (call_rate c) (Some t) (base_url c).

(** The world once [wait] has returned, for a client [c] entering it. *)
Definition world_after_wait (c : client) (w : world) : world :=
  match last_call c with
  | None => elapse w
  | Some last =>
      let w1 := elapse w in
      let passed := (clock w1 - last)%Q in
      if negb (Qle_bool (call_rate c) passed) then
        elapse (elapse (MkWorld (clock w1 + (call_rate c - passed))%Q (drift w1)
                          (sent w1) (slept w1 ++ [(call_rate c - passed)%Q])))
      else elapse w1
  end.

(** [except Exception as e: return {...}] applied to an outcome. *)
Definition caught (o : outcome pyvalue) : outcome pyvalue :=
  match o with
  | Normal v => Normal v
  | Raised e =>
      if is_Exception (exc_type e) then Normal (no_api_response e) else Raised e
  end.

(** The request [dispatch] sends for these credentials, URL, timestamp and
    body bytes. *)
Definition signed_request (rt : runtime) (key secret url timestamp body : string)
  : http_request :=
  let content_hash := sha512_hexdigest rt body in
  let signature :=
    hmac_sha512_hexdigest rt secret (timestamp +:+ url +:+ "GET" +:+ content_hash) in
  MkRequest "GET" url (auth_headers key timestamp content_hash signature) 10.

Definition has_header (name : string) (r : http_request) : bool :=
  existsb (fun h => String.eqb (fst h) name) (req_headers r).

Definition has_auth_headers (r : http_request) : bool :=
  has_header "Api-Key" r && has_header "Api-Timestamp" r
  && has_header "Api-Content-Hash" r && has_header "Api-Signature" r.

(** An operation requires authentication when it is declared private. *)
Definition requires_auth (protection : pyvalue) : bool :=
  key_eqb protection (PyStr PROTECTION_PRV).

Fixpoint occurs (c : ascii) (s : string) : bool :=
  match s with
  | EmptyString => false
  | String d r => Ascii.eqb c d || occurs c r
  end.

(** A computation that leaves both credentials of the client as they are. *)
Definition keeps_credentials {A} (m : M A) : Prop :=
  forall st : state,
    api_key (self (snd (m st))) = api_key (self st)
    /\ api_secret (self (snd (m st))) = api_secret (self st).

(** Time does not run backwards: every delay still to come is non-negative,
    so the clock is monotone and a sleep lasts at least what was asked. *)
Definition paced (w : world) : Prop := Forall (fun d => (0 <= d)%Q) (drift w).


Definition count (n : nat) : Q := inject_Z (Z.of_nat n).

(** The base URL is the template the constructor builds. *)
Definition well_based (c : client) : Prop :=
  base_url c = "https://api.bittrex.com/v3{path}".

(** The one kind of request the module sends. *)
Definition is_signed_get (r : http_request) : Prop :=
  req_method r = "GET" /\ req_timeout r = 10%Z /\ has_auth_headers r = true.

(** A computation that sends nothing. *)
Definition quiet {A} (m : M A) : Prop :=
  forall st : state, sent (outside (snd (m st))) = sent (outside st).

(** A computation that sends nothing, or one signed GET. *)
Definition sends_at_most_one {A} (m : M A) : Prop :=
  forall st : state,
    sent (outside (snd (m st))) = sent (outside st)
    \/ exists r : http_request,
         sent (outside (snd (m st))) = sent (outside st) ++ [r]
         /\ is_signed_get r.

(** A computation that leaves the rate and the base URL as they are. *)
Definition keeps_settings {A} (m : M A) : Prop :=
  forall st : state,
    call_rate (self (snd (m st))) = call_rate (self st)
    /\ base_url (self (snd (m st))) = base_url (self st).

(** The state after a run of calls of [_api_query], each entered in the
    state the one before left, whatever it returned or raised. *)
Fixpoint after_queries (rt : runtime) (calls : list query) (st : state) : state :=
  match calls with
  | [] => st
  | q :: rest =>
      after_queries rt rest
        (snd (_api_query rt (q_protection q) (q_path_dict q) (q_options q)
                (q_body q) st))
  end.

(** The password opens what it sealed: the cipher text, printed and read
    back as a literal, decrypts to bytes that decode to [text]. *)
Definition opens (rt : runtime) (ks : keystore) (password : string)
    (plain : pyvalue) (text : string) : Prop :=
  exists (enc dec : pyvalue -> outcome pyvalue) (sealed opened : string),
    aes_encrypt ks password = Normal enc
    /\ aes_new rt password = Normal dec
    /\ enc plain = Normal (PyBytes sealed)
    /\ literal_eval rt (py_repr rt (PyBytes sealed)) = Normal (PyBytes sealed)
    /\ dec (PyBytes sealed) = Normal (PyBytes opened)
    /\ bytes_decode rt opened = Normal text.

(** The call sends one request, to this URL. *)
Definition requests_url {A} (m : M A) (st : state) (url : string) : Prop :=
  exists r : http_request,
    sent (outside (snd (m st))) = sent (outside st) ++ [r] /\ req_url r = url.

(** * Properties *)

(** ** Names the module never binds *)

Lemma API_V1_1_unbound : module_globals !! "API_V1_1" = None.
Proof. vm_compute. reflexivity. Qed.

Lemma API_V2_0_unbound : module_globals !! "API_V2_0" = None.
Proof. vm_compute. reflexivity. Qed.

Lemma load_API_V1_1 :
  load_global module_globals "API_V1_1" = Raised (name_error "API_V1_1").
Proof. unfold load_global. rewrite API_V1_1_unbound. reflexivity. Qed.

Lemma load_API_V2_0 :
  load_global module_globals "API_V2_0" = Raised (name_error "API_V2_0").
Proof. unfold load_global. rewrite API_V2_0_unbound. reflexivity. Qed.

Lemma append_empty_r (s : string) : s +:+ EmptyString = s.
Proof.
  induction s as [|c s IH]; [reflexivity|].
  change (String c (s +:+ EmptyString) = String c s). now rewrite IH.
Qed.

Lemma append_assoc (a b c : string) : (a +:+ b) +:+ c = a +:+ (b +:+ c).
Proof.
  induction a as [|x a IH]; [reflexivity|].
  change (String x ((a +:+ b) +:+ c) = String x (a +:+ (b +:+ c))). now rewrite IH.
Qed.

(** ** Suffixes *)

Lemma append_cons (c : ascii) (a b : string) :
  String c a +:+ b = String c (a +:+ b).
Proof. reflexivity. Qed.

Lemma length_append (a b : string) :
  String.length (a +:+ b) = String.length a + String.length b.
Proof.
  induction a as [|c a IH]; [reflexivity|].
  rewrite append_cons. cbn [String.length]. now rewrite IH.
Qed.

Lemma substring_all (s : string) : substring 0 (String.length s) s = s.
Proof.
  induction s as [|c s IH]; [reflexivity|].
  cbn [String.length substring]. now rewrite IH.
Qed.

Lemma substring_tail (a b : string) :
  substring (String.length a) (String.length b) (a +:+ b) = b.
Proof.
  induction a as [|c a IH].
  - apply substring_all.
  - rewrite append_cons. cbn [String.length substring]. exact IH.
Qed.

Lemma split_at (k : nat) (s : string) :
  k <= String.length s ->
  s = substring 0 k s +:+ substring k (String.length s - k) s.
Proof.
  revert k. induction s as [|c s IH]; intros k Hk.
  - cbn [String.length] in Hk. assert (k = 0) by lia. subst k. reflexivity.
  - destruct k as [|k].
    + cbn [substring]. rewrite Nat.sub_0_r.
      change (String c s = substring 0 (String.length (String c s)) (String c s)).
      now rewrite substring_all.
    + cbn [String.length] in *. cbn [substring Nat.sub].
      rewrite append_cons. f_equal. apply IH. lia.
Qed.

Lemma endswith_iff (s t : string) :
  endswith s t = true <-> exists front : string, s = front +:+ t.
Proof.
  unfold endswith. split.
  - destruct (String.length t <=? String.length s)%nat eqn:L; [|discriminate].
    apply Nat.leb_le in L. intros E. apply String.eqb_eq in E.
    exists (substring 0 (String.length s - String.length t) s).
    assert (Hs := split_at (String.length s - String.length t) s ltac:(lia)).
    replace (String.length s - (String.length s - String.length t))
      with (String.length t) in Hs by lia.
    rewrite E in Hs. exact Hs.
  - intros [front ->]. rewrite length_append.
    replace (String.length t <=? String.length front + String.length t)%nat
      with true by (symmetry; apply Nat.leb_le; lia).
    replace (String.length front + String.length t - String.length t)
      with (String.length front) by lia.
    rewrite substring_tail. apply String.eqb_refl.
Qed.

(** ** Case folding on ASCII *)

Lemma nat_of_lower_ascii (c : ascii) :
  nat_of_ascii (lower_ascii c)
  = if is_upper c then nat_of_ascii c + 32 else nat_of_ascii c.
Proof.
  unfold lower_ascii, is_upper.
  destruct ((65 <=? nat_of_ascii c)%nat && (nat_of_ascii c <=? 90)%nat) eqn:U;
    [|reflexivity].
  apply andb_prop in U as [_ U]. apply Nat.leb_le in U.
  apply nat_ascii_embedding. lia.
Qed.

Lemma is_upper_bounds (c : ascii) :
  is_upper c = true <-> 65 <= nat_of_ascii c <= 90.
Proof.
  unfold is_upper. rewrite andb_true_iff, !Nat.leb_le. tauto.
Qed.

Lemma nat_of_ascii_inj (a b : ascii) : nat_of_ascii a = nat_of_ascii b -> a = b.
Proof.
  intros H. rewrite <- (ascii_nat_embedding a), <- (ascii_nat_embedding b).
  now rewrite H.
Qed.

Lemma lower_ascii_same (a b : ascii) :
  lower_ascii a = lower_ascii b <-> same_letter a b.
Proof.
  unfold same_letter. split.
  - intros H. apply (f_equal nat_of_ascii) in H. rewrite !nat_of_lower_ascii in H.
    destruct (is_upper a) eqn:Ua, (is_upper b) eqn:Ub.
    + left. apply nat_of_ascii_inj. lia.
    + right. left. split; [reflexivity | lia].
    + right. right. split; [reflexivity | lia].
    + left. apply nat_of_ascii_inj. exact H.
  - intros [-> | [[Ua Hb] | [Ub Ha]]]; [reflexivity | |];
      apply nat_of_ascii_inj; rewrite !nat_of_lower_ascii.
    + rewrite Ua. apply is_upper_bounds in Ua.
      replace (is_upper b) with false; [lia|].
      symmetry. apply not_true_is_false. rewrite is_upper_bounds. lia.
    + rewrite Ub. apply is_upper_bounds in Ub.
      replace (is_upper a) with false; [lia|].
      symmetry. apply not_true_is_false. rewrite is_upper_bounds. lia.
Qed.

Lemma str_lower_same (s t : string) :
  str_lower s = str_lower t <-> same_text s t.
Proof.
  split.
  - revert t. induction s as [|a s IH]; intros [|b t] H; try discriminate H.
    + constructor.
    + cbn [str_lower] in H. injection H as Hc Hr.
      constructor; [apply lower_ascii_same, Hc | apply IH, Hr].
  - induction 1 as [|a b s t Hab _ IH]; [reflexivity|].
    cbn [str_lower]. apply lower_ascii_same in Hab. now rewrite Hab, IH.
Qed.

Lemma str_lower_append (a b : string) :
  str_lower (a +:+ b) = str_lower a +:+ str_lower b.
Proof.
  induction a as [|c a IH]; [reflexivity|].
  rewrite append_cons. cbn [str_lower]. rewrite append_cons. now rewrite IH.
Qed.

Lemma str_lower_split (n a b : string) :
  str_lower n = a +:+ b ->
  exists x y : string, n = x +:+ y /\ str_lower x = a /\ str_lower y = b.
Proof.
  revert n. induction a as [|c a IH]; intros n H.
  - exists EmptyString, n. auto.
  - destruct n as [|d n]; [discriminate H|].
    rewrite append_cons in H. cbn [str_lower] in H. injection H as Hc Hr.
    destruct (IH n Hr) as (x & y & -> & Hx & Hy).
    exists (String d x), y. rewrite append_cons. cbn [str_lower].
    now rewrite Hc, Hx.
Qed.

(** On ASCII text, the test of the comprehension holds exactly of the names
    that end with the currency, case apart. *)
Lemma endswith_lower_iff (name currency : string) :
  endswith (str_lower name) (str_lower currency) = true
  <-> ends_ignoring_case name currency.
Proof.
  rewrite endswith_iff. unfold ends_ignoring_case. split.
  - intros [front H]. destruct (str_lower_split _ _ _ H) as (x & y & -> & _ & Hy).
    exists x, y. split; [reflexivity | apply str_lower_same, Hy].
  - intros (front & back & -> & Hsame). exists (str_lower front).
    rewrite str_lower_append. apply str_lower_same in Hsame. now rewrite Hsame.
Qed.

Lemma bind_lift_raised {A B} (e : exn) (k : A -> M B) (st : state) :
  bind (lift (Raised e)) k st = (Raised e, st).
Proof. reflexivity. Qed.

Lemma occurs_append (c : ascii) (a b : string) :
  occurs c (a +:+ b) = occurs c a || occurs c b.
Proof.
  induction a as [|x a IH]; [reflexivity|].
  change (occurs c (String x (a +:+ b)) = occurs c (String x a) || occurs c b).
  cbn [occurs]. rewrite IH. now rewrite orb_assoc.
Qed.

Lemma quote_char_keeps_out_question_mark (c : ascii) :
  occurs "?" (quote_char c) = false.
Proof.
  destruct c as [[] [] [] [] [] [] [] []]; vm_compute; reflexivity.
Qed.

Lemma quote_plus_keeps_out_question_mark (s : string) :
  occurs "?" (quote_plus s) = false.
Proof.
  induction s as [|c s IH]; [reflexivity|].
  cbn [quote_plus]. rewrite occurs_append, IH, quote_char_keeps_out_question_mark.
  reflexivity.
Qed.

Lemma py_int_of_float_floor (q : Q) : (0 <= q)%Q -> py_int_of_float q = Qfloor q.
Proof.
  destruct q as [n d]. unfold Qle, py_int_of_float, Qfloor. cbn [Qnum Qden].
  intros H. apply Z.quot_div_nonneg; lia.
Qed.

(** ** Doubles: rounding to nearest *)

Section Doubles.

Local Open Scope Q_scope.

Lemma pow2_pos (z : Z) : 0 < 2 ^ z.
Proof. apply Qpower_0_lt. reflexivity. Qed.

Lemma pow2_add (a b : Z) : 2 ^ (a + b) == 2 ^ a * 2 ^ b.
Proof. apply Qpower_plus. discriminate. Qed.

Lemma pow2_le (a b : Z) : (a <= b)%Z -> 2 ^ a <= 2 ^ b.
Proof. intros H. apply Qpower_le_compat_l; [exact H | discriminate]. Qed.

Lemma pow2_lt (a b : Z) : (a < b)%Z -> 2 ^ a < 2 ^ b.
Proof. intros H. apply Qpower_lt_compat_l; [exact H | reflexivity]. Qed.

Lemma pow2_S (a : Z) : 2 ^ (a + 1) == 2 * 2 ^ a.
Proof. rewrite pow2_add. change (2 ^ 1) with 2. ring. Qed.

Lemma pow2_of_Z (a : Z) : (0 <= a)%Z -> inject_Z (2 ^ a) == 2 ^ a.
Proof. intros H. rewrite (Zpower_Qpower 2 a H). reflexivity. Qed.

Lemma log2_bounds (n : Z) :
  (0 < n)%Z ->
  2 ^ Z.log2 n <= inject_Z n /\ inject_Z n < 2 ^ (Z.log2 n + 1).
Proof.
  intros Hn. destruct (Z.log2_spec n Hn) as [H1 H2].
  assert (H0 := Z.log2_nonneg n).
  rewrite <- (pow2_of_Z (Z.log2 n)) by lia.
  rewrite <- (pow2_of_Z (Z.log2 n + 1)) by lia.
  rewrite <- Zle_Qle, <- Zlt_Qlt. replace (Z.log2 n + 1)%Z with (Z.succ (Z.log2 n)) by lia.
  split; assumption.
Qed.

Lemma binade_spec (q : Q) :
  0 < q -> 2 ^ binade q <= q /\ q < 2 ^ (binade q + 1).
Proof.
  intros Hq. destruct q as [n d]. unfold binade. cbn [Qnum Qden].
  assert (Hn : (0 < n)%Z) by (unfold Qlt in Hq; cbn in Hq; lia).
  destruct (log2_bounds n Hn) as [N1 N2].
  destruct (log2_bounds (Zpos d) eq_refl) as [D1 D2].
  set (a := Z.log2 n) in *. set (b := Z.log2 (Zpos d)) in *.
  assert (Hq' : n # d == inject_Z n / inject_Z (Zpos d)) by apply Qmake_Qdiv.
  assert (Hd : 0 < inject_Z (Zpos d)) by reflexivity.
  assert (Hmul : (n # d) * inject_Z (Zpos d) == inject_Z n).
  { rewrite Hq'. field. discriminate. }
  assert (Pa := pow2_pos a). assert (Pb := pow2_pos b).
  assert (Pk := pow2_pos (a - b)).
  assert (E1 : 2 ^ a == 2 ^ (a - b) * 2 ^ b).
  { rewrite <- pow2_add. replace (a - b + b)%Z with a by lia. reflexivity. }
  assert (E2 : 2 ^ (a + 1) == 2 * 2 ^ a) by apply pow2_S.
  assert (E3 : 2 ^ (b + 1) == 2 * 2 ^ b) by apply pow2_S.
  destruct (Qle_bool (2 ^ (a - b)) (n # d)) eqn:C.
  - apply Qle_bool_iff in C. split; [exact C|].
    assert (E4 : 2 ^ (a - b + 1) == 2 * 2 ^ (a - b)) by apply pow2_S.
    rewrite E4.
    (* q * d = n < 2^(a+1) = 2 * 2^(a-b) * 2^b <= 2 * 2^(a-b) * d *)
    apply Qnot_le_lt. intros Hc.
    assert (2 * 2 ^ (a - b) * inject_Z (Zpos d) <= (n # d) * inject_Z (Zpos d)).
    { apply Qmult_le_compat_r; [exact Hc | apply Qlt_le_weak, Hd]. }
    assert (2 * 2 ^ (a - b) * 2 ^ b <= 2 * 2 ^ (a - b) * inject_Z (Zpos d)).
    { apply Qmult_le_l; [lra | exact D1]. }
    lra.
  - assert (C' : n # d < 2 ^ (a - b)).
    { apply Qnot_le_lt. intros H. apply Qle_bool_iff in H. congruence. }
    replace (a - b - 1 + 1)%Z with (a - b)%Z by lia. split; [|exact C'].
    assert (E4 : 2 ^ (a - b) == 2 * 2 ^ (a - b - 1)).
    { rewrite <- pow2_S. replace (a - b - 1 + 1)%Z with (a - b)%Z by lia. reflexivity. }
    assert (Pk1 := pow2_pos (a - b - 1)).
    (* 2^(a-b-1) * d < 2^(a-b-1) * 2^(b+1) = 2^a <= n = q * d *)
    apply Qnot_lt_le. intros Hc.
    assert ((n # d) * inject_Z (Zpos d) < 2 ^ (a - b - 1) * inject_Z (Zpos d)).
    { apply Qmult_lt_compat_r; [exact Hd | exact Hc]. }
    assert (2 ^ (a - b - 1) * inject_Z (Zpos d) < 2 ^ (a - b - 1) * 2 ^ (b + 1)).
    { apply Qmult_lt_l; [exact Pk1 | exact D2]. }
    assert (2 ^ (a - b - 1) * 2 ^ (b + 1) == 2 ^ a).
    { rewrite E3, E1, E4. ring. }
    lra.
Qed.

Lemma round_half_even_cases (q : Q) :
  (round_half_even q = Qfloor q /\ q - inject_Z (Qfloor q) <= 1 # 2) \/
  (round_half_even q = (Qfloor q + 1)%Z /\ 1 # 2 <= q - inject_Z (Qfloor q)).
Proof.
  unfold round_half_even.
  destruct (Qcompare (q - inject_Z (Qfloor q)) (1 # 2)) eqn:C.
  - apply Qeq_alt in C. destruct (Z.even (Qfloor q)); [left | right]; split; try reflexivity; lra.
  - apply Qlt_alt in C. left. split; [reflexivity | lra].
  - apply Qgt_alt in C. right. split; [reflexivity | lra].
Qed.

Lemma floor_bounds (q : Q) :
  inject_Z (Qfloor q) <= q /\ q < inject_Z (Qfloor q) + 1.
Proof.
  split; [apply Qfloor_le|].
  assert (H := Qlt_floor q). rewrite inject_Z_plus in H. exact H.
Qed.

Lemma round_half_even_error (q : Q) :
  q - (1 # 2) <= inject_Z (round_half_even q) /\
  inject_Z (round_half_even q) <= q + (1 # 2).
Proof.
  destruct (floor_bounds q) as [F1 F2].
  destruct (round_half_even_cases q) as [[-> H] | [-> H]].
  - lra.
  - rewrite inject_Z_plus. change (inject_Z 1) with 1. lra.
Qed.

Lemma round_half_even_Z (n : Z) : round_half_even (inject_Z n) = n.
Proof.
  unfold round_half_even. rewrite Qfloor_Z.
  replace (Qcompare (inject_Z n - inject_Z n) (1 # 2)) with Lt; [reflexivity|].
  symmetry. apply Qlt_alt.
  assert (E : inject_Z n - inject_Z n == 0) by ring.
  rewrite E. reflexivity.
Qed.

Lemma round_half_even_mono (x y : Q) :
  x <= y -> (round_half_even x <= round_half_even y)%Z.
Proof.
  intros H. assert (F := Qfloor_resp_le x y H).
  destruct (floor_bounds x) as [Hx1 Hx2]. destruct (floor_bounds y) as [Hy1 Hy2].
  destruct (Z.eq_dec (Qfloor x) (Qfloor y)) as [E | N].
  - unfold round_half_even. rewrite <- E in *.
    destruct (Qcompare_spec (x - inject_Z (Qfloor x)) (1 # 2)) as [Cx | Cx | Cx];
      destruct (Qcompare_spec (y - inject_Z (Qfloor x)) (1 # 2)) as [Cy | Cy | Cy];
      try (destruct (Z.even (Qfloor x))); try lia; exfalso; lra.
  - assert (Qfloor x + 1 <= Qfloor y)%Z by lia.
    destruct (round_half_even_cases x) as [[-> _] | [-> _]];
      destruct (round_half_even_cases y) as [[-> _] | [-> _]]; lia.
Qed.

Lemma ulp_pos (q : Q) : 0 < ulp q.
Proof. apply pow2_pos. Qed.

Lemma ulp_binade (q : Q) : 2 ^ binade q == 2 ^ 52 * ulp q.
Proof.
  unfold ulp. rewrite <- pow2_add. replace (52 + (binade q - 52))%Z with (binade q) by lia.
  reflexivity.
Qed.

Lemma round_double_pos (q : Q) :
  0 < q -> round_double q == inject_Z (round_half_even (q / ulp q)) * ulp q.
Proof.
  intros H. unfold round_double.
  replace (Qcompare q 0) with Gt; [apply Qred_correct|].
  symmetry. apply Qgt_alt. exact H.
Qed.

Lemma round_double_neg (q : Q) :
  q < 0 -> round_double q == - round_double (- q).
Proof.
  intros H. unfold round_double at 1.
  replace (Qcompare q 0) with Lt by (symmetry; apply Qlt_alt; exact H).
  rewrite round_double_pos by lra. apply Qred_correct.
Qed.

Lemma round_double_zero (q : Q) : q == 0 -> round_double q = 0.
Proof.
  intros H. unfold round_double.
  replace (Qcompare q 0) with Eq; [reflexivity|]. symmetry. apply Qeq_alt. exact H.
Qed.

Lemma scaled_bounds (q : Q) :
  0 < q -> 2 ^ 52 <= q / ulp q /\ q / ulp q < 2 ^ 53.
Proof.
  intros H. destruct (binade_spec q H) as [B1 B2].
  assert (U := ulp_pos q). assert (E := ulp_binade q).
  assert (E' : 2 ^ (binade q + 1) == 2 ^ 53 * ulp q).
  { rewrite pow2_S, E. change (2 ^ 53) with (2 * 2 ^ 52). ring. }
  rewrite E in B1. rewrite E' in B2.
  split.
  - apply Qle_shift_div_l; assumption.
  - apply Qlt_shift_div_r; assumption.
Qed.

Lemma scaled_back (q : Q) : q / ulp q * ulp q == q.
Proof. field. assert (U := ulp_pos q). lra. Qed.

(** A positive number and its double lie between the same two powers of
    two. *)
Lemma round_double_binade (q : Q) :
  0 < q ->
  2 ^ binade q <= round_double q /\ round_double q <= 2 ^ (binade q + 1).
Proof.
  intros H. rewrite round_double_pos by exact H.
  destruct (scaled_bounds q H) as [S1 S2].
  assert (U := ulp_pos q).
  assert (L : (2 ^ 52 <= round_half_even (q / ulp q))%Z).
  { change (2 ^ 52) with (inject_Z (2 ^ 52)) in S1.
    apply round_half_even_mono in S1. rewrite round_half_even_Z in S1. exact S1. }
  assert (R : (round_half_even (q / ulp q) <= 2 ^ 53)%Z).
  { apply Qlt_le_weak in S2. change (2 ^ 53) with (inject_Z (2 ^ 53)) in S2.
    apply round_half_even_mono in S2. rewrite round_half_even_Z in S2. exact S2. }
  rewrite pow2_S, ulp_binade.
  rewrite Zle_Qle in L, R.
  change (inject_Z (2 ^ 52)) with (2 ^ 52) in L. change (inject_Z (2 ^ 53)) with (2 * 2 ^ 52) in R.
  split.
  - apply Qmult_le_compat_r; [exact L | lra].
  - rewrite Qmult_assoc. apply Qmult_le_compat_r; [exact R | lra].
Qed.

(** The double is within half a unit in the last place, which is at most
    [2^-53] of the number. *)
Lemma round_double_error (q : Q) :
  0 < q ->
  q * (1 - (1 # 2 ^ 53)) <= round_double q /\
  round_double q <= q * (1 + (1 # 2 ^ 53)).
Proof.
  intros H. rewrite round_double_pos by exact H.
  destruct (round_half_even_error (q / ulp q)) as [E1 E2].
  destruct (binade_spec q H) as [B1 _]. rewrite ulp_binade in B1.
  assert (U := ulp_pos q). assert (S := scaled_back q).
  assert (M1 : (q / ulp q - (1 # 2)) * ulp q <= inject_Z (round_half_even (q / ulp q)) * ulp q).
  { apply Qmult_le_compat_r; [exact E1 | lra]. }
  assert (M2 : inject_Z (round_half_even (q / ulp q)) * ulp q <= (q / ulp q + (1 # 2)) * ulp q).
  { apply Qmult_le_compat_r; [exact E2 | lra]. }
  change (2 ^ 52) with 4503599627370496 in B1.
  change (1 # 2 ^ 53) with (1 # 9007199254740992).
  split; lra.
Qed.

Lemma binade_mono (a b : Q) : 0 < a -> a <= b -> (binade a <= binade b)%Z.
Proof.
  intros Ha Hab.
  destruct (binade_spec a Ha) as [A1 _].
  destruct (binade_spec b) as [_ B2]; [lra|].
  destruct (Z_lt_le_dec (binade b) (binade a)) as [L | L]; [|exact L].
  exfalso. assert (2 ^ (binade b + 1) <= 2 ^ binade a) by (apply pow2_le; lia). lra.
Qed.

Lemma round_double_mono_pos (a b : Q) :
  0 < a -> a <= b -> round_double a <= round_double b.
Proof.
  intros Ha Hab. assert (Hb : 0 < b) by lra.
  assert (M := binade_mono a b Ha Hab).
  destruct (Z.eq_dec (binade a) (binade b)) as [E | N].
  - rewrite !round_double_pos by assumption.
    assert (U : ulp a = ulp b) by (unfold ulp; rewrite E; reflexivity).
    rewrite U. assert (P := ulp_pos b).
    apply Qmult_le_compat_r; [|lra].
    rewrite <- Zle_Qle. apply round_half_even_mono.
    apply Qmult_le_compat_r; [exact Hab|]. apply Qlt_le_weak, Qinv_lt_0_compat, P.
  - destruct (round_double_binade a Ha) as [_ A2].
    destruct (round_double_binade b Hb) as [B1 _].
    assert (2 ^ (binade a + 1) <= 2 ^ binade b) by (apply pow2_le; lia). lra.
Qed.

Lemma round_double_nonneg (q : Q) : 0 <= q -> 0 <= round_double q.
Proof.
  intros H. destruct (Qlt_le_dec 0 q) as [P | Z].
  - destruct (round_double_binade q P) as [B _]. assert (T := pow2_pos (binade q)). lra.
  - rewrite round_double_zero by lra. lra.
Qed.

Lemma round_double_mono (a b : Q) : a <= b -> round_double a <= round_double b.
Proof.
  intros H. destruct (Qlt_le_dec 0 a) as [Pa | Na].
  - apply round_double_mono_pos; assumption.
  - destruct (Qlt_le_dec a 0) as [La | Za].
    + rewrite (round_double_neg a La).
      destruct (Qlt_le_dec b 0) as [Lb | Zb].
      * rewrite (round_double_neg b Lb).
        assert (round_double (- b) <= round_double (- a)) by (apply round_double_mono_pos; lra).
        lra.
      * assert (0 <= round_double (- a)) by (apply round_double_nonneg; lra).
        assert (0 <= round_double b) by (apply round_double_nonneg; exact Zb). lra.
    + rewrite (round_double_zero a) by lra. apply round_double_nonneg. lra.
Qed.

Lemma py_int_of_float_mono (a b : Q) :
  0 <= a -> a <= b -> (py_int_of_float a <= py_int_of_float b)%Z.
Proof.
  intros Pa H.
  rewrite (py_int_of_float_floor a Pa), (py_int_of_float_floor b) by lra.
  apply Qfloor_resp_le. exact H.
Qed.

(** Truncation towards zero, on either side of zero. *)
Lemma py_int_of_float_trunc (q : Q) :
  (0 <= q -> inject_Z (py_int_of_float q) <= q /\ q < inject_Z (py_int_of_float q) + 1)
  /\ (q <= 0 -> inject_Z (py_int_of_float q) - 1 < q /\ q <= inject_Z (py_int_of_float q)).
Proof.
  split; intros H.
  - rewrite (py_int_of_float_floor q H). apply floor_bounds.
  - assert (Hopp : 0 <= - q) by lra.
    assert (E : py_int_of_float q = (- Qfloor (- q))%Z).
    { rewrite <- (py_int_of_float_floor (- q) Hopp).
      unfold py_int_of_float. destruct q as [n d]. cbn [Qopp Qnum Qden].
      rewrite Z.quot_opp_l by discriminate. lia. }
    rewrite E, inject_Z_opp. destruct (floor_bounds (- q)) as [F1 F2]. lra.
Qed.

(** The stamp of a time at or after the epoch: the integer part of the
    rounded product, within one rounding and one unit of the exact one. *)
Lemma stamp_of_past_time (now : Q) :
  0 <= now ->
  inject_Z (py_int_of_float (round_double (now * 1000))) <= round_double (now * 1000)
  /\ round_double (now * 1000) < inject_Z (py_int_of_float (round_double (now * 1000))) + 1
  /\ now * 1000 * (1 - (1 # 2 ^ 53)) - 1
     < inject_Z (py_int_of_float (round_double (now * 1000)))
  /\ inject_Z (py_int_of_float (round_double (now * 1000)))
     <= now * 1000 * (1 + (1 # 2 ^ 53)).
Proof.
  intros H.
  assert (P : 0 <= round_double (now * 1000)) by (apply round_double_nonneg; lra).
  destruct (proj1 (py_int_of_float_trunc _) P) as [T1 T2].
  destruct (Qlt_le_dec 0 now) as [Pos | Zero].
  - destruct (round_double_error (now * 1000)) as [E1 E2]; [lra|].
    repeat split; lra.
  - assert (Z0 : round_double (now * 1000) = 0) by (apply round_double_zero; lra).
    rewrite Z0 in *. change (1 # 2 ^ 53) with (1 # 9007199254740992).
    repeat split; lra.
Qed.

Lemma stamp_before_the_epoch (now : Q) :
  now <= 0 ->
  inject_Z (py_int_of_float (round_double (now * 1000))) - 1 < round_double (now * 1000)
  /\ round_double (now * 1000) <= inject_Z (py_int_of_float (round_double (now * 1000))).
Proof.
  intros H.
  assert (N : round_double (now * 1000) <= 0).
  { assert (M := round_double_mono (now * 1000) 0 ltac:(lra)).
    rewrite (round_double_zero 0) in M by reflexivity. exact M. }
  exact (proj2 (py_int_of_float_trunc _) N).
Qed.

End Doubles.

(** ** Credentials are kept by the monad's primitives *)

Lemma keeps_ret {A} (a : A) : keeps_credentials (ret a).
Proof. intros st. split; reflexivity. Qed.

Lemma keeps_raise {A} (e : exn) : keeps_credentials (@raise A e).
Proof. intros st. split; reflexivity. Qed.

Lemma keeps_lift {A} (o : outcome A) : keeps_credentials (lift o).
Proof. intros st. split; reflexivity. Qed.

Lemma keeps_get_self : keeps_credentials get_self.
Proof. intros st. split; reflexivity. Qed.

Lemma keeps_bind {A B} (m : M A) (k : A -> M B) :
  keeps_credentials m -> (forall a, keeps_credentials (k a)) ->
  keeps_credentials (bind m k).
Proof.
  intros Hm Hk st. unfold bind. specialize (Hm st).
  destruct (m st) as [[a|e] st1]; cbn [snd] in *; [|exact Hm].
  destruct (Hk a st1) as [H1 H2]. destruct Hm as [H3 H4].
  split; congruence.
Qed.

Lemma keeps_try_except {A} (m : M A) (h : exn -> M A) :
  keeps_credentials m -> (forall e, keeps_credentials (h e)) ->
  keeps_credentials (try_except m h).
Proof.
  intros Hm Hh st. unfold try_except. specialize (Hm st).
  destruct (m st) as [[a|e] st1]; cbn [snd] in *; [exact Hm|].
  destruct (is_Exception (exc_type e)); [|exact Hm].
  destruct (Hh e st1) as [H1 H2]. destruct Hm as [H3 H4].
  split; congruence.
Qed.

Lemma keeps_time_time : keeps_credentials time_time.
Proof. intros st. split; reflexivity. Qed.

Lemma keeps_time_sleep (secs : Q) : keeps_credentials (time_sleep secs).
Proof.
  intros st. unfold time_sleep. destruct (Qle_bool 0 secs); split; reflexivity.
Qed.

Lemma keeps_set_last_call (t : Q) : keeps_credentials (set_last_call t).
Proof. intros st. split; reflexivity. Qed.

Create HintDb credentials.

#[local] Hint Resolve keeps_ret keeps_raise keeps_lift keeps_get_self
  keeps_time_time keeps_time_sleep keeps_set_last_call : credentials.

Ltac keeps_step :=
  match goal with
  | |- keeps_credentials (bind _ _) => apply keeps_bind; [|intros]
  | |- keeps_credentials (try_except _ _) => apply keeps_try_except; [|intros]
  | |- keeps_credentials (if ?b then _ else _) => destruct b
  | |- keeps_credentials (match ?x with _ => _ end) => destruct x
  | |- keeps_credentials _ => solve [auto with credentials]
  end.

(** ** Waiting *)

Lemma elapse_sent (w : world) : sent (elapse w) = sent w.
Proof. unfold elapse. destruct (drift w); reflexivity. Qed.

Lemma elapse_slept (w : world) : slept (elapse w) = slept w.
Proof. unfold elapse. destruct (drift w); reflexivity. Qed.

Lemma sleep_length_ok (rate passed : Q) :
  Qle_bool rate passed = false -> Qle_bool 0 (rate - passed) = true.
Proof.
  intros H. apply Qle_bool_iff.
  destruct (Qlt_le_dec passed rate) as [Hlt|Hle].
  - lra.
  - apply Qle_bool_iff in Hle. congruence.
Qed.

Lemma wait_eq (c : client) (w : world) :
  wait (MkState c w)
  = (Normal tt,
     MkState (with_last_call c (clock (world_after_wait c w)))
             (world_after_wait c w)).
Proof.
  unfold wait, world_after_wait, bind, get_self. cbn [self outside].
  destruct (last_call c) as [last|].
  - cbn [time_time self outside fst snd].
    destruct (Qle_bool (call_rate c) (clock (elapse w) - last)) eqn:E;
      cbn [negb].
    + reflexivity.
    + unfold time_sleep. cbn [self outside].
      rewrite (sleep_length_ok _ _ E). reflexivity.
  - reflexivity.
Qed.

Lemma world_after_wait_sent (c : client) (w : world) :
  sent (world_after_wait c w) = sent w.
Proof.
  unfold world_after_wait. destruct (last_call c); [|apply elapse_sent].
  destruct (negb _); repeat rewrite elapse_sent; reflexivity.
Qed.

(** ** The rate limiter *)

Lemma count_S (n : nat) : (count (S n) == count n + 1)%Q.
Proof.
  unfold count. rewrite Nat2Z.inj_succ, <- Z.add_1_r, inject_Z_plus. reflexivity.
Qed.

Lemma elapse_paced (w : world) :
  paced w -> paced (elapse w) /\ (clock w <= clock (elapse w))%Q.
Proof.
  unfold paced, elapse. intros H. destruct (drift w) as [|d ds] eqn:E.
  - rewrite E. split; [constructor | lra].
  - inversion H as [|? ? Hd Hds]; subst. cbn [drift clock]. split; [exact Hds | lra].
Qed.

Lemma world_after_wait_paced (c : client) (w : world) :
  paced w ->
  paced (world_after_wait c w)
  /\ (clock w <= clock (world_after_wait c w))%Q
  /\ (forall last : Q, last_call c = Some last ->
        (last + call_rate c <= clock (world_after_wait c w))%Q)
  /\ (last_call c = None -> slept (world_after_wait c w) = slept w).
Proof.
  intros Hw. unfold world_after_wait.
  destruct (elapse_paced w Hw) as [H1 L1].
  destruct (last_call c) as [last|].
  - cbv zeta.
    destruct (Qle_bool (call_rate c) (clock (elapse w) - last)) eqn:E; cbn [negb].
    + destruct (elapse_paced (elapse w) H1) as [H2 L2].
      apply Qle_bool_iff in E.
      repeat split; [exact H2 | lra | | discriminate].
      intros l [= <-]. lra.
    + set (w1 := MkWorld _ _ _ _).
      assert (Hp : paced w1) by exact H1.
      destruct (elapse_paced w1 Hp) as [H2 L2].
      destruct (elapse_paced (elapse w1) H2) as [H3 L3].
      assert (Hs := sleep_length_ok _ _ E). apply Qle_bool_iff in Hs.
      assert (Hc : (clock w1 == clock (elapse w) + (call_rate c - (clock (elapse w) - last)))%Q)
        by reflexivity.
      repeat split; [exact H3 | lra | | discriminate].
      intros l [= <-]. lra.
  - repeat split; [exact H1 | exact L1 | discriminate | intros _; apply elapse_slept].
Qed.


Section Properties.

Variable rt : runtime.

(** A method that starts by loading [API_V1_1] stops there. *)
Lemma starts_with_API_V1_1 (k : pyvalue -> M pyvalue) (st : state) :
  bind (lift (load_global module_globals "API_V1_1")) k st
  = (Raised (name_error "API_V1_1"), st).
Proof. rewrite load_API_V1_1. apply bind_lift_raised. Qed.

Lemma starts_with_API_V2_0 (k : pyvalue -> M pyvalue) (st : state) :
  bind (lift (load_global module_globals "API_V2_0")) k st
  = (Raised (name_error "API_V2_0"), st).
Proof. rewrite load_API_V2_0. apply bind_lift_raised. Qed.

(** C3. Every method whose [path_dict] is keyed by [API_V1_1] or
    [API_V2_0] (buy_limit, sell_limit, cancel, get_open_orders,
    get_balances, get_balance, get_deposit_address, withdraw,
    get_order_history, get_order, get_withdrawal_history,
    get_deposit_history, get_wallet_health, get_balance_distribution,
    get_pending_withdrawals, get_pending_deposits,
    generate_deposit_address, trade_sell, trade_buy, get_candles,
    get_latest_candle) raises [NameError] on a name the module does not
    bind, whatever its arguments and the state; the client and the world
    are left as they were, so nothing was sent and no response is
    returned. *)
Theorem versioned_methods_raise_NameError (op : operation) (st : state) :
  keyed_by_api_version op = true ->
  exists name : string,
    (name = "API_V1_1" \/ name = "API_V2_0")
    /\ module_globals !! name = None
    /\ call rt op st = (Raised (name_error name), st).
Proof.
  intros Hop. unfold call.
  destruct op; simpl in Hop; try discriminate Hop;
    first
      [ exists "API_V1_1"; split; [left; reflexivity|];
        split; [exact API_V1_1_unbound|];
        cbn [invoke];
        first [ apply starts_with_API_V1_1
              | unfold get_order_history;
                destruct (py_truthy market); apply starts_with_API_V1_1 ]
      | exists "API_V2_0"; split; [right; reflexivity|];
        split; [exact API_V2_0_unbound|];
        cbn [invoke]; apply starts_with_API_V2_0 ].
Qed.

(** ** What one call sends *)

Lemma encode_body (body : pyvalue) :
  sendable body = true ->
  py_encode (if py_truthy body then body else PyStr EmptyString)
  = Normal (body_text body).
Proof.
  unfold sendable, body_text. destruct (py_truthy body); cbn [negb orb].
  - destruct body; intros H; try discriminate H. reflexivity.
  - reflexivity.
Qed.

Lemma dispatch_eq (c : client) (w : world) (url timestamp : string) (body : pyvalue) :
  is_str (api_key c) = true -> is_str (api_secret c) = true ->
  sendable body = true ->
  let request :=
    signed_request rt (text_of (api_key c)) (text_of (api_secret c)) url timestamp
      (body_text body) in
  dispatch rt url timestamp body (MkState c w)
  = (obind (requests_get rt (sent w) request) resp_json,
     MkState c (MkWorld (clock (elapse w)) (drift (elapse w))
                  (sent w ++ [request]) (slept w))).
Proof.
  intros Hk Hs Hb request. subst request.
  unfold dispatch, bind at 1, lift at 1. rewrite (encode_body body Hb).
  unfold bind at 1, get_self. cbn [self outside].
  destruct (api_secret c) as [| | | |secret| | |]; try discriminate Hs.
  unfold bind at 1, lift at 1. cbn [py_encode].
  destruct (api_key c) as [| | | |key| | |]; try discriminate Hk.
  unfold bind at 1, lift at 1. cbn [py_encode].
  unfold bind, http_get, lift. cbn [self outside text_of].
  rewrite elapse_sent, elapse_slept. unfold signed_request.
  destruct (requests_get rt (sent w) _); reflexivity.
Qed.

Lemma format_base_url (v : pyvalue) :
  str_format rt "https://api.bittrex.com/v3{path}" [("path", v)]
  = Normal ("https://api.bittrex.com/v3" +:+ py_str rt v).
Proof.
  transitivity (@Normal string
    ("https://api.bittrex.com/v3" +:+ (py_str rt v +:+ EmptyString))).
  - reflexivity.
  - now rewrite append_empty_r.
Qed.

Lemma constructed_inv (c : client) :
  constructed c = true ->
  is_str (api_key c) = true /\ is_str (api_secret c) = true
  /\ base_url c = "https://api.bittrex.com/v3{path}".
Proof.
  unfold constructed. intros H.
  apply andb_prop in H as [H Hb]. apply andb_prop in H as [Hk Hs].
  apply String.eqb_eq in Hb. auto.
Qed.

Lemma api_query_eq (c : client) (w : world) (protection path_dict : pyvalue)
    (options : option pydict) (body : pyvalue) :
  constructed c = true -> sendable body = true ->
  let nonce := pretty (py_int_of_float (float_mul (clock (elapse w)) 1000)) in
  let url := ("https://api.bittrex.com/v3" +:+ py_str rt path_dict)
             +:+ urlencode rt (options_or_empty options) in
  let w2 := world_after_wait c (elapse w) in
  let request :=
    signed_request rt (text_of (api_key c)) (text_of (api_secret c)) url nonce
      (body_text body) in
  _api_query rt protection path_dict options body (MkState c w)
  = (caught (obind (requests_get rt (sent w) request) resp_json),
     MkState (with_last_call c (clock w2))
       (MkWorld (clock (elapse w2)) (drift (elapse w2))
          (sent w ++ [request]) (slept w2))).
Proof.
  intros Hc Hb nonce url w2 request.
  destruct (constructed_inv c Hc) as (Hk & Hs & Hbase).
  unfold _api_query, bind at 1, get_self. cbn [self outside].
  rewrite Hbase. unfold bind at 1, lift at 1. rewrite format_base_url.
  unfold bind at 1, time_time at 1. cbn [self outside].
  unfold try_except, bind at 1. rewrite wait_eq.
  fold w2. cbn [py_str]. fold nonce. fold url.
  rewrite (dispatch_eq (with_last_call c (clock w2)) w2 url nonce body Hk Hs Hb).
  cbn [with_last_call api_key api_secret].
  assert (Hsent : sent w2 = sent w)
    by (unfold w2; now rewrite world_after_wait_sent, elapse_sent).
  rewrite Hsent. fold request.
  destruct (obind (requests_get rt (sent w) request) resp_json) as [v|e];
    [reflexivity|].
  cbn [caught]. destruct (is_Exception (exc_type e)); reflexivity.
Qed.

Lemma urlencode_keeps_out_question_mark (query : pydict) :
  occurs "?" (urlencode rt query) = false.
Proof.
  assert (Hv : forall v, occurs "?" (quote_value rt v) = false).
  { intros v. unfold quote_value.
    destruct v; apply quote_plus_keeps_out_question_mark. }
  unfold urlencode. induction query as [|[k v] query IH]; [reflexivity|].
  cbn [map fst snd String.concat].
  assert (Hkv : occurs "?" (quote_value rt k +:+ "=" +:+ quote_value rt v) = false).
  { rewrite !occurs_append, !Hv. reflexivity. }
  destruct (map _ query) as [|x l] eqn:E; [exact Hkv|].
  rewrite occurs_append, Hkv. cbn [orb].
  rewrite occurs_append. cbn [orb occurs Ascii.eqb]. exact IH.
Qed.

Lemma urlencode_holds_equals_sign (query : pydict) :
  query <> [] -> occurs "=" (urlencode rt query) = true.
Proof.
  destruct query as [|[k v] query]; [congruence|]. intros _.
  unfold urlencode. cbn [map fst snd String.concat].
  assert (Hkv : occurs "=" (quote_value rt k +:+ "=" +:+ quote_value rt v) = true).
  { rewrite !occurs_append. cbn [occurs Ascii.eqb Bool.eqb]. apply orb_true_r. }
  destruct (map _ query) as [|x l]; [exact Hkv|].
  rewrite occurs_append, Hkv. reflexivity.
Qed.

Lemma append_same_prefix (a b : string) : a +:+ b = a -> b = EmptyString.
Proof.
  induction a as [|c a IH]; [auto|].
  rewrite append_cons. intros [= H]. auto.
Qed.

(** C1. [dispatch] hashes the body bytes (the empty byte string for an
    empty or absent body), signs timestamp, URL, the verb GET and that hash
    put end to end with the secret as key, and sends the API key, the same
    timestamp, the content hash and the signature as headers of one GET
    request; it returns what the transport then gives. *)
Theorem dispatch_signs_request (key secret url timestamp : string)
    (body : option string) (rate : Q) (last : option Q) (base : string)
    (w : world) :
  let c := MkClient (PyStr key) (PyStr secret) rate last base in
  let body_value := match body with Some b => PyStr b | None => PyNone end in
  let body_bytes := match body with Some b => b | None => EmptyString end in
  let content_hash := sha512_hexdigest rt body_bytes in
  let pre_sign := timestamp +:+ url +:+ "GET" +:+ content_hash in
  let signature := hmac_sha512_hexdigest rt secret pre_sign in
  let request :=
    MkRequest "GET" url
      [ ("Api-Key", PyBytes key);
        ("Api-Timestamp", PyStr timestamp);
        ("Api-Content-Hash", PyStr content_hash);
        ("Api-Signature", PyStr signature) ] 10 in
  dispatch rt url timestamp body_value (MkState c w)
  = (obind (requests_get rt (sent w) request) resp_json,
     MkState c (MkWorld (clock (elapse w)) (drift (elapse w))
                  (sent w ++ [request]) (slept w))).
Proof.
  intros c body_value body_bytes content_hash pre_sign signature request.
  assert (Hs : sendable body_value = true)
    by (destruct body; [apply orb_true_r | reflexivity]).
  rewrite (dispatch_eq c w url timestamp body_value eq_refl eq_refl Hs).
  assert (Hb : body_text body_value = body_bytes).
  { destruct body as [b|]; [|reflexivity].
    unfold body_text, body_value, body_bytes. cbn [py_truthy text_of].
    destruct (String.eqb b EmptyString) eqn:E; [|reflexivity].
    apply String.eqb_eq in E. now subst b. }
  rewrite Hb. reflexivity.
Qed.

(** C8. A call of [_api_query] by a constructed client sends one request:
    a GET with a timeout of 10 seconds to the base
    [https://api.bittrex.com], the prefix [/v3], the path and, when options
    are given, their URL-encoding, put end to end.  Its timestamp header is
    the decimal text of an integer [stamp], the integer part (towards zero)
    of the double nearest to a thousand times what [time.time()] returned:
    the Unix time in milliseconds, within the rounding of one float
    product and the truncation. *)
Theorem api_query_builds_request (c : client) (w : world) (now : Q)
    (protection : pyvalue) (path : string) (options : option pydict)
    (body : pyvalue) :
  constructed c = true -> sendable body = true ->
  fst (time_time (MkState c w)) = Normal now ->
  exists (request : http_request) (stamp : Z),
    sent (outside (snd (_api_query rt protection (PyStr path) options body
                          (MkState c w))))
    = sent w ++ [request]
    /\ req_method request = "GET"
    /\ (forall d : pydict, options = Some d ->
          req_url request
          = "https://api.bittrex.com" +:+ "/v3" +:+ path +:+ urlencode rt d)
    /\ (options = None ->
          req_url request = "https://api.bittrex.com" +:+ "/v3" +:+ path)
    /\ In ("Api-Timestamp", PyStr (pretty stamp)) (req_headers request)
    /\ ((0 <= now)%Q ->
          (inject_Z stamp <= round_double (now * 1000))%Q
          /\ (round_double (now * 1000) < inject_Z stamp + 1)%Q
          /\ (now * 1000 * (1 - (1 # 2 ^ 53)) - 1 < inject_Z stamp)%Q
          /\ (inject_Z stamp <= now * 1000 * (1 + (1 # 2 ^ 53)))%Q)
    /\ ((now <= 0)%Q ->
          (inject_Z stamp - 1 < round_double (now * 1000))%Q
          /\ (round_double (now * 1000) <= inject_Z stamp)%Q)
    /\ req_timeout request = 10%Z.
Proof.
  intros Hc Hb Hnow. cbn in Hnow. injection Hnow as <-.
  rewrite (api_query_eq c w protection (PyStr path) options body Hc Hb).
  eexists. exists (py_int_of_float (float_mul (clock (elapse w)) 1000)).
  cbn [snd outside sent]. split; [reflexivity|].
  cbn [signed_request req_method req_url req_headers req_timeout py_str auth_headers].
  split; [reflexivity|].
  split; [intros d ->; cbn [options_or_empty]; rewrite append_assoc; reflexivity|].
  split; [intros ->; cbn [options_or_empty urlencode map String.concat];
          rewrite append_empty_r; reflexivity|].
  split; [right; left; reflexivity|].
  split; [|split; [|reflexivity]]; unfold float_mul.
  - intros Hpos. apply stamp_of_past_time. exact Hpos.
  - intros Hneg. apply stamp_before_the_epoch. exact Hneg.
Qed.

(** C10. The URL of the request is the formatted base-plus-path string
    with the URL-encoding of the options that were passed put directly
    behind it: the encoded options hold no question mark, so none
    separates path and query, and when a parameter was passed they are not
    empty (they hold its equals sign).  For options that are [None] or
    empty the URL is the base-plus-path string and nothing more. *)
Theorem query_string_appended_without_separator (c : client) (w : world)
    (protection path_dict : pyvalue) (options : option pydict) (body : pyvalue) :
  constructed c = true -> sendable body = true ->
  exists (base_plus_path : string) (request : http_request),
    str_format rt (base_url c) [("path", path_dict)] = Normal base_plus_path
    /\ sent (outside (snd (_api_query rt protection path_dict options body
                             (MkState c w))))
       = sent w ++ [request]
    /\ (forall d : pydict, options = Some d ->
          req_url request = base_plus_path +:+ urlencode rt d
          /\ occurs "?" (urlencode rt d) = false
          /\ (d <> [] ->
              urlencode rt d <> EmptyString
              /\ occurs "=" (urlencode rt d) = true
              /\ req_url request <> base_plus_path))
    /\ (options = None \/ options = Some [] -> req_url request = base_plus_path).
Proof.
  intros Hc Hb.
  destruct (constructed_inv c Hc) as (_ & _ & Hbase).
  rewrite (api_query_eq c w protection path_dict options body Hc Hb).
  rewrite Hbase, format_base_url.
  eexists. eexists. split; [reflexivity|].
  cbn [snd outside sent]. split; [reflexivity|].
  cbn [signed_request req_url].
  split.
  - intros d ->. cbn [options_or_empty].
    split; [reflexivity|]. split; [apply urlencode_keeps_out_question_mark|].
    intros Hd. assert (Heq := urlencode_holds_equals_sign d Hd).
    assert (Hne : urlencode rt d <> EmptyString)
      by (intros E; rewrite E in Heq; discriminate Heq).
    repeat split; [exact Hne | exact Heq |].
    intros E. apply Hne. apply (append_same_prefix _ _ E).
  - intros [-> | ->]; cbn [options_or_empty urlencode map String.concat];
      apply append_empty_r.
Qed.

(** C4 as amended. Every request [_api_query] sends carries the four
    authentication headers, whatever the protection passed: the argument
    plays no part in the call. *)
Theorem every_request_is_signed (c : client) (w : world)
    (protection path_dict : pyvalue) (options : option pydict) (body : pyvalue) :
  constructed c = true -> sendable body = true ->
  (exists request : http_request,
      sent (outside (snd (_api_query rt protection path_dict options body
                            (MkState c w))))
      = sent w ++ [request]
      /\ has_auth_headers request = true)
  /\ _api_query rt protection path_dict options body
     = _api_query rt PyNone path_dict options body.
Proof.
  intros Hc Hb. split; [|reflexivity].
  rewrite (api_query_eq c w protection path_dict options body Hc Hb).
  eexists. cbn [snd outside sent]. split; reflexivity.
Qed.

(** C2. When the transport fails on the request of a call (a timeout, a
    connection error, or a body that is not JSON), [_api_query] does not
    raise: it returns the dictionary with [success] false, the message
    NO_API_RESPONSE, no result, and the text of the exception as error. *)
Theorem transport_failure_is_returned (c : client) (w : world)
    (protection path_dict : pyvalue) (options : option pydict) (body : pyvalue)
    (e : exn) :
  constructed c = true -> sendable body = true ->
  is_transport_failure (exc_type e) = true ->
  obind (requests_get rt (sent w)
           (signed_request rt (text_of (api_key c)) (text_of (api_secret c))
              (("https://api.bittrex.com/v3" +:+ py_str rt path_dict)
               +:+ urlencode rt (options_or_empty options))
              (pretty (py_int_of_float (float_mul (clock (elapse w)) 1000)))
              (body_text body)))
        resp_json
  = Raised e ->
  fst (_api_query rt protection path_dict options body (MkState c w))
  = Normal (PyDict [ (PyStr "success", PyBool false);
                     (PyStr "message", PyStr "NO_API_RESPONSE");
                     (PyStr "result", PyNone);
                     (PyStr "error", PyStr (exc_str e)) ]).
Proof.
  intros Hc Hb He Hfail.
  rewrite (api_query_eq c w protection path_dict options body Hc Hb).
  cbn [fst]. rewrite Hfail. cbn [caught].
  destruct e as [cls msg]. cbn [exc_type] in *.
  destruct cls; try discriminate He; reflexivity.
Qed.

(** ** The markets of a currency *)

Lemma markets_ending_with_filter (currency : string) (markets : list pyvalue)
    (names : list string) :
  Forall2 has_market_name markets names ->
  markets_ending_with rt (PyStr currency) markets
  = Normal (map PyStr
      (List.filter
         (fun n => endswith (text_lower rt n) (text_lower rt currency)) names)).
Proof.
  induction 1 as [|market name markets names [d [-> Hd]] _ IH].
  - reflexivity.
  - cbn [markets_ending_with py_getitem hashable obind].
    rewrite Hd. cbn [obind py_lower py_endswith List.filter map].
    rewrite IH.
    destruct (endswith (text_lower rt name) (text_lower rt currency)); reflexivity.
Qed.

Lemma listing_filter (st st' : state) (response : pydict)
    (markets : list pyvalue) (names : list string) (currency : string) :
  get_markets rt st = (Normal (PyDict response), st') ->
  dict_get response (PyStr "result") = Some (PyList markets) ->
  Forall2 has_market_name markets names ->
  list_markets_by_currency rt (PyStr currency) st
  = (Normal (PyList (map PyStr
       (List.filter
          (fun n => endswith (text_lower rt n) (text_lower rt currency)) names))),
     st').
Proof.
  intros Hget Hres Hnames.
  unfold list_markets_by_currency, bind at 1. rewrite Hget.
  unfold bind at 1, lift at 1. cbn [py_getitem hashable]. rewrite Hres.
  unfold bind at 1, lift at 1. cbn [py_iter].
  unfold bind at 1, lift at 1.
  rewrite (markets_ending_with_filter currency markets names Hnames).
  reflexivity.
Qed.

Lemma fixture_names :
  Forall2 has_market_name fixture_markets ["BTC-LTC"; "ETH-BTC"; "USDT-LTC"].
Proof.
  unfold fixture_markets.
  repeat (constructor; [eexists; split; reflexivity|]). constructor.
Qed.

(** C6. Whenever [get_markets] returns a response whose [result] lists
    market records, [list_markets_by_currency(currency)] returns the
    [MarketName] of some of them, in the order of the listing: exactly
    those whose lower-cased name has the lower-cased currency at its end.
    For ASCII names and currency these are the names that end with the
    currency when the case of the letters A to Z is ignored.  On the
    fixture of three markets the currency LTC, in whatever case it is
    written, gives BTC-LTC then USDT-LTC. *)
Theorem list_markets_by_currency_filters :
  (forall (st st' : state) (response : pydict) (markets : list pyvalue)
          (names : list string) (currency : string),
      get_markets rt st = (Normal (PyDict response), st') ->
      dict_get response (PyStr "result") = Some (PyList markets) ->
      Forall2 has_market_name markets names ->
      exists keep : string -> bool,
        list_markets_by_currency rt (PyStr currency) st
        = (Normal (PyList (map PyStr (List.filter keep names))), st')
        /\ (forall name : string,
              keep name = true
              <-> exists front : string,
                    text_lower rt name = front +:+ text_lower rt currency)
        /\ (isascii currency = true ->
            forall name : string, isascii name = true ->
              (keep name = true <-> ends_ignoring_case name currency)))
  /\ (forall (st st' : state) (currency : string),
      get_markets rt st
      = (Normal (PyDict [(PyStr "result", PyList fixture_markets)]), st') ->
      In currency ["LTC"; "ltc"; "Ltc"] ->
      list_markets_by_currency rt (PyStr currency) st
      = (Normal (PyList [PyStr "BTC-LTC"; PyStr "USDT-LTC"]), st')).
Proof.
  split.
  - intros st st' response markets names currency Hget Hres Hnames.
    exists (fun n => endswith (text_lower rt n) (text_lower rt currency)).
    split; [exact (listing_filter st st' response markets names currency
                     Hget Hres Hnames)|].
    split; [intros name; apply endswith_iff|].
    intros Hc name Hn. unfold text_lower. rewrite Hc, Hn.
    apply endswith_lower_iff.
  - intros st st' currency Hget Hin.
    rewrite (listing_filter st st' _ fixture_markets
               ["BTC-LTC"; "ETH-BTC"; "USDT-LTC"] currency Hget eq_refl
               fixture_names).
    destruct Hin as [<- | [<- | [<- | []]]]; reflexivity.
Qed.

(** ** The rate limiter of a constructed client *)





(** ** Credentials *)

Lemma keeps_http_get (r : http_request) : keeps_credentials (http_get rt r).
Proof. intros st. split; reflexivity. Qed.

Lemma keeps_wait : keeps_credentials wait.
Proof. unfold wait. repeat keeps_step. Qed.

Lemma keeps_dispatch (url timestamp : string) (body : pyvalue) :
  keeps_credentials (dispatch rt url timestamp body).
Proof. unfold dispatch. repeat first [keeps_step | apply keeps_http_get]. Qed.

Lemma keeps_api_query (protection path_dict : pyvalue) (options : option pydict)
    (body : pyvalue) :
  keeps_credentials (_api_query rt protection path_dict options body).
Proof.
  unfold _api_query.
  repeat first [keeps_step | apply keeps_wait | apply keeps_dispatch].
Qed.

Lemma keeps_invoke (globals : gmap string pyvalue) (op : operation) :
  op <> Call_decrypt -> keeps_credentials (invoke rt globals op).
Proof.
  intros Hop.
  destruct op; try (exfalso; apply Hop; reflexivity); cbn [invoke];
    try apply keeps_dispatch; try apply keeps_api_query;
    unfold returning_none, get_markets, get_currencies, get_market_summaries,
      get_market_summary, get_market_ticker, buy_limit, sell_limit, cancel,
      get_open_orders, get_balances, get_balance, get_deposit_address,
      withdraw, get_order_history, get_order, get_withdrawal_history,
      get_deposit_history, list_markets_by_currency, get_markets,
      get_wallet_health, get_balance_distribution, get_pending_withdrawals,
      get_pending_deposits, generate_deposit_address, trade_sell, trade_buy,
      get_candles, get_latest_candle;
    repeat first [apply keeps_api_query | apply keeps_wait | keeps_step].
Qed.

Lemma keeps_call (op : operation) :
  op <> Call_decrypt -> keeps_credentials (call rt op).
Proof. apply keeps_invoke. Qed.

(** C9 as amended. No method other than [decrypt] changes the API key or
    the API secret of the client, in any state and whatever the method
    returns or raises. *)
Theorem credentials_change_only_in_decrypt (op : operation) (st : state) :
  op <> Call_decrypt ->
  api_key (self (snd (call rt op st))) = api_key (self st)
  /\ api_secret (self (snd (call rt op st))) = api_secret (self st).
Proof. intros Hop. exact (keeps_call op Hop st). Qed.

End Properties.

(** ** Optional filters *)




Section Filters.

Variable rt : runtime.








End Filters.

(** * Closed instances in the reference runtime *)

(** The reference digests agree with [hashlib] and [hmac] on the standard
    test inputs. *)
Example sha512_of_nothing :
  Hashlib.sha512 EmptyString
  = "cf83e1357eefb8bdf1542850d66d8007d620e4050b5715dc83f4a921d36ce9ce47d0d13c5d85f2b0ff8318d2877eec2f63b931bd47417a81a538327af927da3e".
Proof. vm_compute. reflexivity. Qed.

Example sha512_of_abc :
  Hashlib.sha512 "abc"
  = "ddaf35a193617abacc417349ae20413112e6fa4e89a97ea20a9eeee64b55d39a2192992a274fc1a836ba3c23a3feebbd454d4423643ce80e2a9ac94fa54ca49f".
Proof. vm_compute. reflexivity. Qed.

Example sha512_of_two_blocks :
  Hashlib.sha512
    "abcdefghbcdefghicdefghijdefghijkefghijklfghijklmghijklmnhijklmnoijklmnopjklmnopqklmnopqrlmnopqrsmnopqrstnopqrstu"
  = "8e959b75dae313da8cf4f72814fc143f8f7779c6eb9f7fa17299aeadb6889018501d289e4900f7e4331b99dec4b5433ac7d329eeb6dd26545e96e55b874be909".
Proof. vm_compute. reflexivity. Qed.

Lemma reference_constructor :
  __init__ (Reference.answering Reference.listing) (PyStr "key") (PyStr "secret") 2
  = Normal Reference.trader.
Proof. reflexivity. Qed.

(** C1 at a concrete call: the digests are those Python computes. *)
Lemma dispatch_signs_request_witness :
  sent (outside (snd (dispatch (Reference.answering Reference.listing)
                        "https://api.bittrex.com/v3/markets" "1762000000123" PyNone
                        (MkState Reference.trader (Reference.start_of_time [])))))
  = [ MkRequest "GET" "https://api.bittrex.com/v3/markets"
        [ ("Api-Key", PyBytes "key");
          ("Api-Timestamp", PyStr "1762000000123");
          ("Api-Content-Hash", PyStr
             "cf83e1357eefb8bdf1542850d66d8007d620e4050b5715dc83f4a921d36ce9ce47d0d13c5d85f2b0ff8318d2877eec2f63b931bd47417a81a538327af927da3e");
          ("Api-Signature", PyStr
             "5b51bdade6878dcc4c5184f3f7ee00c5b9ec2ef529e28f6d0e652c29aa7518815ed7c2d6d372ed16195232dbec5c8f7c0daf90344855e7728922a605683a615e") ]
        10 ].
Proof.
  unfold Reference.trader.
  rewrite (dispatch_signs_request (Reference.answering Reference.listing)
             "key" "secret" "https://api.bittrex.com/v3/markets" "1762000000123" None).
  vm_compute. reflexivity.
Defined.

(** C2 at a concrete call: the request times out. *)
Lemma transport_failure_is_returned_witness :
  fst (_api_query (Reference.failing Reference.timed_out) PyNone (PyStr "/markets")
         None PyNone (MkState Reference.trader (Reference.start_of_time [])))
  = Normal (PyDict [ (PyStr "success", PyBool false);
                     (PyStr "message", PyStr "NO_API_RESPONSE");
                     (PyStr "result", PyNone);
                     (PyStr "error", PyStr "timed out") ]).
Proof.
  apply (transport_failure_is_returned (Reference.failing Reference.timed_out)
           Reference.trader (Reference.start_of_time []) PyNone (PyStr "/markets")
           None PyNone Reference.timed_out); reflexivity.
Defined.

(** The same when the body that comes back is not JSON. *)
Lemma garbled_body_is_returned :
  fst (get_markets (Reference.garbled Reference.not_json)
         (MkState Reference.trader (Reference.start_of_time [])))
  = Normal (no_api_response Reference.not_json).
Proof. vm_compute. reflexivity. Qed.

(** C3 at a concrete call: a withdrawal. *)
Lemma versioned_methods_raise_NameError_witness :
  exists name : string,
    (name = "API_V1_1" \/ name = "API_V2_0")
    /\ module_globals !! name = None
    /\ call (Reference.answering Reference.listing)
         (Call_withdraw (PyStr "BTC") (PyInt 1) (PyStr "1BoatSLRHtKNngkdXEeobR76b53LETtpyT") PyNone)
         (MkState Reference.trader (Reference.start_of_time []))
       = (Raised (name_error name),
          MkState Reference.trader (Reference.start_of_time [])).
Proof.
  apply (versioned_methods_raise_NameError (Reference.answering Reference.listing)).
  reflexivity.
Defined.

(** C8 at a concrete call: order book parameters on a market path. *)
Lemma api_query_builds_request_witness :
  exists (request : http_request) (stamp : Z),
    sent (outside (snd (_api_query (Reference.answering Reference.listing) PyNone
                          (PyStr "/markets/BTC-LTC/orderbook")
                          (Some [(PyStr "depth", PyInt 25)]) PyNone
                          (MkState Reference.trader (Reference.start_of_time [])))))
    = [] ++ [request]
    /\ req_method request = "GET"
    /\ (forall d : pydict, Some [(PyStr "depth", PyInt 25)] = Some d ->
          req_url request
          = "https://api.bittrex.com" +:+ "/v3" +:+ "/markets/BTC-LTC/orderbook"
            +:+ urlencode (Reference.answering Reference.listing) d)
    /\ (Some [(PyStr "depth", PyInt 25)] = None ->
          req_url request
          = "https://api.bittrex.com" +:+ "/v3" +:+ "/markets/BTC-LTC/orderbook")
    /\ In ("Api-Timestamp", PyStr (pretty stamp)) (req_headers request)
    /\ ((0 <= Reference.first_reading)%Q ->
          (inject_Z stamp <= round_double (Reference.first_reading * 1000))%Q
          /\ (round_double (Reference.first_reading * 1000) < inject_Z stamp + 1)%Q
          /\ (Reference.first_reading * 1000 * (1 - (1 # 2 ^ 53)) - 1
              < inject_Z stamp)%Q
          /\ (inject_Z stamp
              <= Reference.first_reading * 1000 * (1 + (1 # 2 ^ 53)))%Q)
    /\ ((Reference.first_reading <= 0)%Q ->
          (inject_Z stamp - 1 < round_double (Reference.first_reading * 1000))%Q
          /\ (round_double (Reference.first_reading * 1000) <= inject_Z stamp)%Q)
    /\ req_timeout request = 10%Z.
Proof.
  apply (api_query_builds_request (Reference.answering Reference.listing)
           Reference.trader (Reference.start_of_time []) Reference.first_reading);
    reflexivity.
Defined.

(** The product of the reading and 1000 is not a double: it lies below
    1762000000123 by less than half the distance to the next double, so
    the float product is 1762000000123 and so is the stamp, where the
    integer part of the exact product is 1762000000122. *)
Lemma reference_nonce :
  (round_double (Reference.first_reading * 1000) == 1762000000123)%Q
  /\ Qfloor (Reference.first_reading * 1000) = 1762000000122%Z
  /\ map (fun r => List.filter (fun h => String.eqb (fst h) "Api-Timestamp")
                     (req_headers r))
       (sent (outside (snd (_api_query (Reference.answering Reference.listing) PyNone
                              (PyStr "/markets") None PyNone
                              (MkState Reference.trader (Reference.start_of_time []))))))
     = [[("Api-Timestamp", PyStr "1762000000123")]].
Proof. repeat split; vm_compute; reflexivity. Qed.

(** The doubles of a third and of a tenth. *)
Example double_of_a_third :
  float_div 1 3 = (6004799503160661 # 18014398509481984)%Q.
Proof. vm_compute. reflexivity. Qed.

Example half_is_a_double : (round_double (1 / 2) == 1 / 2)%Q.
Proof. vm_compute. reflexivity. Qed.

Example double_of_a_tenth :
  float_div 1 10 = (3602879701896397 # 36028797018963968)%Q.
Proof. vm_compute. reflexivity. Qed.

(** C10 at a concrete call: the query follows the path with nothing in
    between. *)
Lemma query_string_appended_without_separator_witness :
  exists (base_plus_path : string) (request : http_request),
    str_format (Reference.answering Reference.listing)
      (base_url Reference.trader) [("path", PyStr "/markets")]
    = Normal base_plus_path
    /\ sent (outside (snd (_api_query (Reference.answering Reference.listing) PyNone
                             (PyStr "/markets") (Some [(PyStr "a b", PyStr "c?d")])
                             PyNone
                             (MkState Reference.trader (Reference.start_of_time [])))))
       = [] ++ [request]
    /\ (forall d : pydict, Some [(PyStr "a b", PyStr "c?d")] = Some d ->
          req_url request
          = base_plus_path +:+ urlencode (Reference.answering Reference.listing) d
          /\ occurs "?" (urlencode (Reference.answering Reference.listing) d) = false
          /\ (d <> [] ->
              urlencode (Reference.answering Reference.listing) d <> EmptyString
              /\ occurs "=" (urlencode (Reference.answering Reference.listing) d) = true
              /\ req_url request <> base_plus_path))
    /\ (Some [(PyStr "a b", PyStr "c?d")] = None
        \/ Some [(PyStr "a b", PyStr "c?d")] = Some [] ->
        req_url request = base_plus_path).
Proof.
  apply (query_string_appended_without_separator
           (Reference.answering Reference.listing)
           Reference.trader (Reference.start_of_time [])); reflexivity.
Defined.

Lemma reference_query_url :
  map req_url
    (sent (outside (snd (_api_query (Reference.answering Reference.listing) PyNone
                           (PyStr "/markets") (Some [(PyStr "a b", PyStr "c?d")])
                           PyNone
                           (MkState Reference.trader (Reference.start_of_time []))))))
  = ["https://api.bittrex.com/v3/marketsa+b=c%3Fd"].
Proof. vm_compute. reflexivity. Qed.

(** C4 at a concrete call of the amended statement. *)
Lemma every_request_is_signed_witness :
  (exists request : http_request,
      sent (outside (snd (_api_query (Reference.answering Reference.listing)
                            (PyStr PROTECTION_PUB) (PyStr "/markets") None PyNone
                            (MkState Reference.trader (Reference.start_of_time [])))))
      = [] ++ [request]
      /\ has_auth_headers request = true)
  /\ _api_query (Reference.answering Reference.listing)
       (PyStr PROTECTION_PUB) (PyStr "/markets") None PyNone
     = _api_query (Reference.answering Reference.listing)
         PyNone (PyStr "/markets") None PyNone.
Proof.
  apply (every_request_is_signed (Reference.answering Reference.listing)
           Reference.trader (Reference.start_of_time [])); reflexivity.
Defined.

(** C4 as stated fails: a call declared public, and the public method
    [get_markets], each send a request that carries the four
    authentication headers although no authentication is required. *)
Lemma public_request_carries_auth_headers :
  let request :=
    signed_request (Reference.answering Reference.listing) "key" "secret"
      "https://api.bittrex.com/v3/markets" "1762000000123" EmptyString in
  sent (outside (snd (_api_query (Reference.answering Reference.listing)
                        (PyStr PROTECTION_PUB) (PyStr "/markets") None PyNone
                        (MkState Reference.trader (Reference.start_of_time [])))))
  = [request]
  /\ sent (outside (snd (get_markets (Reference.answering Reference.listing)
                           (MkState Reference.trader (Reference.start_of_time [])))))
     = [request]
  /\ has_auth_headers request = true
  /\ requires_auth (PyStr PROTECTION_PUB) = false
  /\ requires_auth PyNone = false
  /\ ~ (has_auth_headers request = true <-> requires_auth (PyStr PROTECTION_PUB) = true).
Proof.
  cbv zeta. repeat split; try (vm_compute; reflexivity).
  intros [H _]. specialize (H eq_refl). vm_compute in H. discriminate H.
Qed.



(** C6 on the fixture, end to end, the currency written in small
    letters. *)
Lemma list_markets_by_currency_filters_witness :
  fst (list_markets_by_currency (Reference.answering Reference.listing) (PyStr "ltc")
         (MkState Reference.trader (Reference.start_of_time [])))
  = Normal (PyList [PyStr "BTC-LTC"; PyStr "USDT-LTC"]).
Proof.
  rewrite (proj2 (list_markets_by_currency_filters (Reference.answering Reference.listing))
             (MkState Reference.trader (Reference.start_of_time []))
             (snd (get_markets (Reference.answering Reference.listing)
                     (MkState Reference.trader (Reference.start_of_time []))))
             "ltc").
  - reflexivity.
  - rewrite (surjective_pairing (get_markets _ _)) at 1. reflexivity.
  - right. left. reflexivity.
Defined.

(** Beyond ASCII the case tables of the runtime decide: with those of the
    Latin-1 range a small E with acute accent selects the market that ends
    with the capital one as well. *)
Example accented_names_are_folded :
  fst (list_markets_by_currency (Reference.answering Reference.latin_listing)
         (PyStr (String (ascii_of_nat 195) (String (ascii_of_nat 169) EmptyString)))
         (MkState Reference.trader (Reference.start_of_time [])))
  = Normal (PyList [PyStr (Reference.accented false); PyStr (Reference.accented true)]).
Proof. vm_compute. reflexivity. Qed.



(** C9 at a concrete call of the amended statement. *)
Lemma credentials_change_only_in_decrypt_witness :
  api_key (self (snd (call (Reference.failing Reference.timed_out) Call_get_markets
                        (MkState Reference.trader (Reference.start_of_time [])))))
  = api_key Reference.trader
  /\ api_secret (self (snd (call (Reference.failing Reference.timed_out) Call_get_markets
                              (MkState Reference.trader (Reference.start_of_time [])))))
     = api_secret Reference.trader.
Proof.
  apply (credentials_change_only_in_decrypt (Reference.failing Reference.timed_out)
           Call_get_markets (MkState Reference.trader (Reference.start_of_time []))).
  discriminate.
Defined.

(** C9 as stated fails: [decrypt] is a method of the client, and it
    replaces both credentials. *)
Lemma decrypt_replaces_credentials :
  exists c' : client,
    call (Reference.runtime_with Reference.spaces (fun _ _ => Raised Reference.timed_out))
      Call_decrypt (MkState Reference.sealed (Reference.start_of_time []))
    = (Normal PyNone, MkState c' (Reference.start_of_time []))
    /\ api_key Reference.sealed = PyStr "b'MYAPIKEYMYAPIKEY'"
    /\ api_key c' = PyStr "myapikeymyapikey"
    /\ api_secret Reference.sealed = PyStr "b'MYSECRETMYSECRET'"
    /\ api_secret c' = PyStr "mysecretmysecret"
    /\ api_key c' <> api_key Reference.sealed
    /\ api_secret c' <> api_secret Reference.sealed.
Proof.
  exists (MkClient (PyStr "myapikeymyapikey") (PyStr "mysecretmysecret") 1 None
            "https://api.bittrex.com/v3{path}").
  repeat split; try (vm_compute; reflexivity); discriminate.
Qed.

(** * Further properties of the module *)

Section Further.

Variable rt : runtime.

(** ** What [_api_query] does with any arguments *)

Lemma encode_refused (v : pyvalue) :
  is_str v = false ->
  exists e : exn, exc_type e = AttributeError /\ py_encode v = Raised e.
Proof.
  destruct v; intros H; try discriminate H;
    exact (ex_intro _ (MkExn AttributeError _) (conj eq_refl eq_refl)).
Qed.

Lemma dispatch_refuses (c : client) (w : world) (url timestamp : string)
    (body : pyvalue) :
  sendable body = false \/ is_str (api_secret c) = false
  \/ is_str (api_key c) = false ->
  exists e : exn,
    exc_type e = AttributeError
    /\ dispatch rt url timestamp body (MkState c w) = (Raised e, MkState c w).
Proof.
  intros H. unfold dispatch, bind at 1, lift at 1.
  destruct (sendable body) eqn:Hb.
  - rewrite (encode_body body Hb).
    unfold bind at 1, get_self. cbn [self outside].
    unfold bind at 1, lift at 1.
    destruct (is_str (api_secret c)) eqn:Hs.
    + destruct (api_secret c); try discriminate Hs. cbn [py_encode].
      unfold bind at 1, lift at 1.
      destruct H as [H|[H|H]]; try discriminate H.
      destruct (encode_refused (api_key c) H) as (e & He & ->).
      exists e. split; [exact He | reflexivity].
    + destruct (encode_refused (api_secret c) Hs) as (e & He & ->).
      exists e. split; [exact He | reflexivity].
  - unfold sendable in Hb. apply orb_false_elim in Hb as [Ht Hs].
    apply negb_false_iff in Ht. rewrite Ht.
    destruct (encode_refused body Hs) as (e & He & ->).
    exists e. split; [exact He | reflexivity].
Qed.

Lemma api_query_unfold (c : client) (w : world) (protection path_dict : pyvalue)
    (options : option pydict) (body : pyvalue) :
  well_based c ->
  let nonce := pretty (py_int_of_float (float_mul (clock (elapse w)) 1000)) in
  let url := ("https://api.bittrex.com/v3" +:+ py_str rt path_dict)
             +:+ urlencode rt (options_or_empty options) in
  let w2 := world_after_wait c (elapse w) in
  let sending :=
    dispatch rt url nonce body (MkState (with_last_call c (clock w2)) w2) in
  _api_query rt protection path_dict options body (MkState c w)
  = (caught (fst sending), snd sending).
Proof.
  intros Hbase nonce url w2 sending. unfold well_based in Hbase.
  unfold _api_query, bind at 1, get_self. cbn [self outside].
  rewrite Hbase. unfold bind at 1, lift at 1. rewrite format_base_url.
  unfold bind at 1, time_time at 1. cbn [self outside].
  unfold try_except, bind at 1. rewrite wait_eq.
  fold w2. cbn [py_str]. fold nonce. fold url. fold sending.
  destruct sending as [[v|e] st3]; cbn [fst snd caught]; [reflexivity|].
  destruct (is_Exception (exc_type e)); reflexivity.
Qed.

(** X2. Whatever the arguments, the credentials and the transport do, a
    call of [_api_query] by a client with the constructor's base URL raises
    nothing that derives from [Exception]: it returns, or lets through an
    interrupt or an exit. *)
Theorem api_query_raises_no_exception (c : client) (w : world)
    (protection path_dict : pyvalue) (options : option pydict) (body : pyvalue)
    (e : exn) :
  well_based c ->
  fst (_api_query rt protection path_dict options body (MkState c w)) = Raised e ->
  is_Exception (exc_type e) = false.
Proof.
  intros Hbase.
  rewrite (api_query_unfold c w protection path_dict options body Hbase).
  cbn [fst]. destruct (fst (dispatch _ _ _ _ _)) as [v|e']; cbn [caught];
    [discriminate|].
  destruct (is_Exception (exc_type e')) eqn:E; [discriminate|].
  intros [= <-]. exact E.
Qed.

(** X3. What the exchange answers is returned as it is: when the transport
    gives a JSON value for the request of the call, that value is the
    result, whether it reports success or not. *)
Theorem exchange_answer_is_passed_through (c : client) (w : world)
    (protection path_dict : pyvalue) (options : option pydict) (body : pyvalue)
    (answer : pyvalue) :
  constructed c = true -> sendable body = true ->
  obind (requests_get rt (sent w)
           (signed_request rt (text_of (api_key c)) (text_of (api_secret c))
              (("https://api.bittrex.com/v3" +:+ py_str rt path_dict)
               +:+ urlencode rt (options_or_empty options))
              (pretty (py_int_of_float (float_mul (clock (elapse w)) 1000)))
              (body_text body)))
        resp_json
  = Normal answer ->
  fst (_api_query rt protection path_dict options body (MkState c w))
  = Normal answer.
Proof.
  intros Hc Hb Hanswer.
  rewrite (api_query_eq rt c w protection path_dict options body Hc Hb).
  cbn [fst]. rewrite Hanswer. reflexivity.
Qed.

Lemma api_query_refused (c : client) (w : world)
    (protection path_dict : pyvalue) (options : option pydict) (body : pyvalue) :
  well_based c ->
  sendable body = false \/ is_str (api_secret c) = false
  \/ is_str (api_key c) = false ->
  exists e : exn,
    exc_type e = AttributeError
    /\ _api_query rt protection path_dict options body (MkState c w)
       = (Normal (no_api_response e),
          MkState (with_last_call c (clock (world_after_wait c (elapse w))))
                  (world_after_wait c (elapse w))).
Proof.
  intros Hbase Hbad.
  rewrite (api_query_unfold c w protection path_dict options body Hbase).
  cbv zeta.
  destruct (dispatch_refuses
              (with_last_call c (clock (world_after_wait c (elapse w))))
              (world_after_wait c (elapse w))
              (("https://api.bittrex.com/v3" +:+ py_str rt path_dict)
               +:+ urlencode rt (options_or_empty options))
              (pretty (py_int_of_float (float_mul (clock (elapse w)) 1000)))
              body Hbad) as (e & He & ->).
  exists e. split; [exact He|]. cbn [fst snd caught]. rewrite He. reflexivity.
Qed.

(** X4. When the body is truthy and not a [str], or a credential is not a
    [str], [_api_query] sends nothing: it returns the NO_API_RESPONSE
    dictionary of an [AttributeError], having still waited and moved the
    marker of the rate limiter. *)
Theorem unencodable_call_sends_nothing (c : client) (w : world)
    (protection path_dict : pyvalue) (options : option pydict) (body : pyvalue) :
  well_based c ->
  sendable body = false \/ is_str (api_secret c) = false
  \/ is_str (api_key c) = false ->
  exists (e : exn) (st' : state),
    exc_type e = AttributeError
    /\ _api_query rt protection path_dict options body (MkState c w)
       = (Normal (no_api_response e), st')
    /\ sent (outside st') = sent w
    /\ last_call (self st') = Some (clock (outside st')).
Proof.
  intros Hbase Hbad.
  destruct (api_query_refused c w protection path_dict options body Hbase Hbad)
    as (e & He & Hrun).
  exists e. eexists. split; [exact He|]. split; [exact Hrun|].
  cbn [outside self with_last_call last_call].
  split; [|reflexivity].
  now rewrite world_after_wait_sent, elapse_sent.
Qed.

(** ** One request at most, and always the same kind *)

Lemma quiet_ret {A} (a : A) : quiet (ret a).
Proof. intros st. reflexivity. Qed.

Lemma quiet_raise {A} (e : exn) : quiet (@raise A e).
Proof. intros st. reflexivity. Qed.

Lemma quiet_lift {A} (o : outcome A) : quiet (lift o).
Proof. intros st. reflexivity. Qed.

Lemma quiet_get_self : quiet get_self.
Proof. intros st. reflexivity. Qed.

Lemma quiet_set_last_call (t : Q) : quiet (set_last_call t).
Proof. intros st. reflexivity. Qed.

Lemma quiet_set_api_key (v : pyvalue) : quiet (set_api_key v).
Proof. intros st. reflexivity. Qed.

Lemma quiet_set_api_secret (v : pyvalue) : quiet (set_api_secret v).
Proof. intros st. reflexivity. Qed.

Lemma quiet_time_time : quiet time_time.
Proof. intros st. cbn. apply elapse_sent. Qed.

Lemma quiet_time_sleep (secs : Q) : quiet (time_sleep secs).
Proof.
  intros st. unfold time_sleep. destruct (Qle_bool 0 secs); [|reflexivity].
  cbn [snd outside]. now rewrite elapse_sent.
Qed.

Lemma quiet_bind {A B} (m : M A) (k : A -> M B) :
  quiet m -> (forall a, quiet (k a)) -> quiet (bind m k).
Proof.
  intros Hm Hk st. unfold bind. specialize (Hm st).
  destruct (m st) as [[a|e] st1]; cbn [snd] in *; [|exact Hm].
  now rewrite (Hk a st1).
Qed.

Lemma quiet_try_except {A} (m : M A) (h : exn -> M A) :
  quiet m -> (forall e, quiet (h e)) -> quiet (try_except m h).
Proof.
  intros Hm Hh st. unfold try_except. specialize (Hm st).
  destruct (m st) as [[a|e] st1]; cbn [snd] in *; [exact Hm|].
  destruct (is_Exception (exc_type e)); [|exact Hm].
  now rewrite (Hh e st1).
Qed.

Create HintDb quiet.

#[local] Hint Resolve quiet_ret quiet_raise quiet_lift quiet_get_self
  quiet_set_last_call quiet_set_api_key quiet_set_api_secret quiet_time_time
  quiet_time_sleep : quiet.

Ltac quiet_step :=
  match goal with
  | |- quiet (bind _ _) => apply quiet_bind; [|intros]
  | |- quiet (try_except _ _) => apply quiet_try_except; [|intros]
  | |- quiet (if ?b then _ else _) => destruct b
  | |- quiet (match ?x with _ => _ end) => destruct x
  | |- quiet _ => solve [auto with quiet]
  end.

Lemma quiet_wait : quiet wait.
Proof. unfold wait. repeat quiet_step. Qed.

Lemma quiet_decrypt : quiet (decrypt rt).
Proof. unfold decrypt, literal_eval_if_str. repeat quiet_step. Qed.

Lemma quiet_sends {A} (m : M A) : quiet m -> sends_at_most_one m.
Proof. intros H st. left. apply H. Qed.

Lemma sends_after_quiet {A B} (m : M A) (k : A -> M B) :
  quiet m -> (forall a, sends_at_most_one (k a)) -> sends_at_most_one (bind m k).
Proof.
  intros Hm Hk st. unfold bind. specialize (Hm st).
  destruct (m st) as [[a|e] st1]; cbn [snd] in *; [|left; exact Hm].
  rewrite <- Hm. apply Hk.
Qed.

Lemma sends_then_quiet {A B} (m : M A) (k : A -> M B) :
  sends_at_most_one m -> (forall a, quiet (k a)) -> sends_at_most_one (bind m k).
Proof.
  intros Hm Hk st. unfold bind. specialize (Hm st).
  destruct (m st) as [[a|e] st1]; cbn [snd] in *; [|exact Hm].
  rewrite (Hk a st1). exact Hm.
Qed.

Lemma sends_try_except {A} (m : M A) (h : exn -> M A) :
  sends_at_most_one m -> (forall e, quiet (h e)) ->
  sends_at_most_one (try_except m h).
Proof.
  intros Hm Hh st. unfold try_except. specialize (Hm st).
  destruct (m st) as [[a|e] st1]; cbn [snd] in *; [exact Hm|].
  destruct (is_Exception (exc_type e)); [|exact Hm].
  rewrite (Hh e st1). exact Hm.
Qed.

Lemma sends_http_get (r : http_request) :
  is_signed_get r -> sends_at_most_one (http_get rt r).
Proof.
  intros Hr st. right. exists r. split; [|exact Hr].
  unfold http_get. cbn [snd outside sent]. now rewrite elapse_sent.
Qed.

Lemma sends_dispatch (url timestamp : string) (body : pyvalue) :
  sends_at_most_one (dispatch rt url timestamp body).
Proof.
  unfold dispatch.
  repeat (apply sends_after_quiet; [solve [auto with quiet] | intros]).
  apply sends_then_quiet; [|intros; apply quiet_lift].
  apply sends_http_get. repeat split.
Qed.

Lemma sends_api_query (protection path_dict : pyvalue) (options : option pydict)
    (body : pyvalue) :
  sends_at_most_one (_api_query rt protection path_dict options body).
Proof.
  unfold _api_query.
  repeat (apply sends_after_quiet; [solve [auto with quiet] | intros]).
  apply sends_try_except; [|intros; apply quiet_ret].
  apply sends_after_quiet; [apply quiet_wait | intros; apply sends_dispatch].
Qed.

Ltac sends_step :=
  match goal with
  | |- sends_at_most_one (_api_query _ _ _ _ _) => apply sends_api_query
  | |- sends_at_most_one (dispatch _ _ _ _) => apply sends_dispatch
  | |- sends_at_most_one (bind (lift _) _) =>
      apply sends_after_quiet; [apply quiet_lift | intros]
  | |- sends_at_most_one (if ?b then _ else _) => destruct b
  end.

Lemma sends_call (op : operation) : sends_at_most_one (call rt op).
Proof.
  unfold call. destruct op; cbn [invoke];
    unfold returning_none, get_markets, get_currencies, get_market_summaries,
      get_market_summary, get_market_ticker, buy_limit, sell_limit, cancel,
      get_open_orders, get_balances, get_balance, get_deposit_address,
      withdraw, get_order_history, get_order, get_withdrawal_history,
      get_deposit_history, list_markets_by_currency, get_markets,
      get_wallet_health, get_balance_distribution, get_pending_withdrawals,
      get_pending_deposits, generate_deposit_address, trade_sell, trade_buy,
      get_candles, get_latest_candle;
    cbv zeta;
    first
      [ solve [repeat sends_step]
      | apply quiet_sends, quiet_bind;
        [first [apply quiet_decrypt | apply quiet_wait] | intros; apply quiet_ret]
      | apply sends_then_quiet; [apply sends_api_query | intros; repeat quiet_step] ].
Qed.

(** X5. No method retries or fans out: a call of any method leaves the
    list of requests sent as it was or adds exactly one request to it, and
    that request is a GET with a timeout of 10 seconds carrying the four
    authentication headers. *)
Theorem every_call_sends_at_most_one_signed_get (op : operation) (st : state) :
  sent (outside (snd (call rt op st))) = sent (outside st)
  \/ exists r : http_request,
       sent (outside (snd (call rt op st))) = sent (outside st) ++ [r]
       /\ req_method r = "GET"
       /\ req_timeout r = 10%Z
       /\ has_auth_headers r = true.
Proof. exact (sends_call op st). Qed.

(** ** The rate and the base URL never change *)

Lemma settings_ret {A} (a : A) : keeps_settings (ret a).
Proof. intros st. split; reflexivity. Qed.

Lemma settings_raise {A} (e : exn) : keeps_settings (@raise A e).
Proof. intros st. split; reflexivity. Qed.

Lemma settings_lift {A} (o : outcome A) : keeps_settings (lift o).
Proof. intros st. split; reflexivity. Qed.

Lemma settings_get_self : keeps_settings get_self.
Proof. intros st. split; reflexivity. Qed.

Lemma settings_set_last_call (t : Q) : keeps_settings (set_last_call t).
Proof. intros st. split; reflexivity. Qed.

Lemma settings_set_api_key (v : pyvalue) : keeps_settings (set_api_key v).
Proof. intros st. split; reflexivity. Qed.

Lemma settings_set_api_secret (v : pyvalue) : keeps_settings (set_api_secret v).
Proof. intros st. split; reflexivity. Qed.

Lemma settings_time_time : keeps_settings time_time.
Proof. intros st. split; reflexivity. Qed.

Lemma settings_time_sleep (secs : Q) : keeps_settings (time_sleep secs).
Proof.
  intros st. unfold time_sleep. destruct (Qle_bool 0 secs); split; reflexivity.
Qed.

Lemma settings_http_get (r : http_request) : keeps_settings (http_get rt r).
Proof. intros st. split; reflexivity. Qed.

Lemma settings_bind {A B} (m : M A) (k : A -> M B) :
  keeps_settings m -> (forall a, keeps_settings (k a)) ->
  keeps_settings (bind m k).
Proof.
  intros Hm Hk st. unfold bind. specialize (Hm st).
  destruct (m st) as [[a|e] st1]; cbn [snd] in *; [|exact Hm].
  destruct (Hk a st1) as [H1 H2]. destruct Hm as [H3 H4].
  split; congruence.
Qed.

Lemma settings_try_except {A} (m : M A) (h : exn -> M A) :
  keeps_settings m -> (forall e, keeps_settings (h e)) ->
  keeps_settings (try_except m h).
Proof.
  intros Hm Hh st. unfold try_except. specialize (Hm st).
  destruct (m st) as [[a|e] st1]; cbn [snd] in *; [exact Hm|].
  destruct (is_Exception (exc_type e)); [|exact Hm].
  destruct (Hh e st1) as [H1 H2]. destruct Hm as [H3 H4].
  split; congruence.
Qed.

Create HintDb settings.

#[local] Hint Resolve settings_ret settings_raise settings_lift
  settings_get_self settings_set_last_call settings_set_api_key
  settings_set_api_secret settings_time_time settings_time_sleep
  settings_http_get : settings.

Ltac settings_step :=
  match goal with
  | |- keeps_settings (bind _ _) => apply settings_bind; [|intros]
  | |- keeps_settings (try_except _ _) => apply settings_try_except; [|intros]
  | |- keeps_settings (if ?b then _ else _) => destruct b
  | |- keeps_settings (match ?x with _ => _ end) => destruct x
  | |- keeps_settings _ => solve [auto with settings]
  end.

Lemma settings_call (op : operation) : keeps_settings (call rt op).
Proof.
  unfold call. destruct op; cbn [invoke];
    unfold returning_none, dispatch, decrypt, literal_eval_if_str, wait,
      get_markets, get_currencies, get_market_summaries,
      get_market_summary, get_market_ticker, buy_limit, sell_limit, cancel,
      get_open_orders, get_balances, get_balance, get_deposit_address,
      withdraw, get_order_history, get_order, get_withdrawal_history,
      get_deposit_history, list_markets_by_currency, get_markets,
      get_wallet_health, get_balance_distribution, get_pending_withdrawals,
      get_pending_deposits, generate_deposit_address, trade_sell, trade_buy,
      get_candles, get_latest_candle, _api_query, dispatch, wait;
    repeat settings_step.
Qed.

(** X6. The call rate and the base URL are fixed for the life of the
    client: no method changes them, [decrypt] included, whatever it
    returns or raises. *)
Theorem rate_and_base_url_are_fixed (op : operation) (st : state) :
  call_rate (self (snd (call rt op st))) = call_rate (self st)
  /\ base_url (self (snd (call rt op st))) = base_url (self st).
Proof. exact (settings_call op st). Qed.

(** ** The rate limiter under [_api_query] *)

Lemma dispatch_state (c : client) (w : world) (url timestamp : string)
    (body : pyvalue) :
  exists w' : world,
    snd (dispatch rt url timestamp body (MkState c w)) = MkState c w'
    /\ (paced w -> paced w' /\ (clock w <= clock w')%Q).
Proof.
  destruct (sendable body) eqn:Hb;
    [destruct (is_str (api_secret c)) eqn:Hs;
       [destruct (is_str (api_key c)) eqn:Hk|]|].
  - rewrite (dispatch_eq rt c w url timestamp body Hk Hs Hb).
    eexists. split; [reflexivity|]. intros Hw.
    destruct (elapse_paced w Hw) as [H1 L1]. split; [exact H1 | exact L1].
  - destruct (dispatch_refuses c w url timestamp body (or_intror (or_intror Hk)))
      as (e & _ & ->).
    exists w. split; [reflexivity|]. intros Hw. split; [exact Hw | lra].
  - destruct (dispatch_refuses c w url timestamp body (or_intror (or_introl Hs)))
      as (e & _ & ->).
    exists w. split; [reflexivity|]. intros Hw. split; [exact Hw | lra].
  - destruct (dispatch_refuses c w url timestamp body (or_introl Hb))
      as (e & _ & ->).
    exists w. split; [reflexivity|]. intros Hw. split; [exact Hw | lra].
Qed.

Lemma api_query_marker (c : client) (w : world) (q : query) :
  well_based c -> paced w ->
  exists (t : Q) (w' : world),
    snd (_api_query rt (q_protection q) (q_path_dict q) (q_options q) (q_body q)
           (MkState c w))
    = MkState (with_last_call c t) w'
    /\ paced w' /\ (t <= clock w')%Q /\ (clock w <= t)%Q
    /\ (forall last : Q, last_call c = Some last -> (last + call_rate c <= t)%Q).
Proof.
  intros Hbase Hw.
  rewrite (api_query_unfold c w _ _ _ _ Hbase). cbv zeta. cbn [snd].
  destruct (elapse_paced w Hw) as [H1 L1].
  destruct (world_after_wait_paced c (elapse w) H1) as (H2 & L2 & Hgap & _).
  destruct (dispatch_state
              (with_last_call c (clock (world_after_wait c (elapse w))))
              (world_after_wait c (elapse w))
              (("https://api.bittrex.com/v3" +:+ py_str rt (q_path_dict q))
               +:+ urlencode rt (options_or_empty (q_options q)))
              (pretty (py_int_of_float (float_mul (clock (elapse w)) 1000)))
              (q_body q)) as (w' & -> & Hw').
  destruct (Hw' H2) as [H3 L3].
  exists (clock (world_after_wait c (elapse w))), w'.
  repeat split; [exact H3 | exact L3 | lra | exact Hgap].
Qed.

Lemma after_queries_spacing (calls : list query) :
  forall (c : client) (w : world) (last : Q),
    well_based c -> paced w -> last_call c = Some last -> (last <= clock w)%Q ->
    exists (c' : client) (w' : world) (last' : Q),
      after_queries rt calls (MkState c w) = MkState c' w'
      /\ last_call c' = Some last' /\ (last' <= clock w')%Q
      /\ (last + count (List.length calls) * call_rate c <= last')%Q.
Proof.
  induction calls as [|q calls IH]; intros c w last Hbase Hw Hlast Hle.
  - exists c, w, last. repeat split; auto.
    cbn [List.length]. unfold count. change (inject_Z (Z.of_nat 0)) with 0%Q. lra.
  - destruct (api_query_marker c w q Hbase Hw) as (t & w1 & Hrun & H1 & L1 & _ & Hgap).
    specialize (Hgap last Hlast).
    destruct (IH (with_last_call c t) w1 t Hbase H1 eq_refl L1)
      as (c' & w' & last' & Hrest & Hl & Hle' & Hgap').
    exists c', w', last'. cbn [after_queries]. rewrite Hrun, Hrest.
    cbn [with_last_call call_rate List.length] in *.
    repeat split; auto. rewrite count_S. lra.
Qed.

(** X7. The throttle holds across calls of [_api_query], whatever they are
    asked and whatever becomes of them: for a client without a marker, a
    run of [N >= 1] calls takes at least [(N - 1)] times the call rate on
    the clock. *)
Theorem queries_are_spaced (c : client) (w : world) (calls : list query) :
  well_based c -> last_call c = None -> paced w ->
  (1 <= List.length calls)%nat ->
  (clock w + (count (List.length calls) - 1) * call_rate c
   <= clock (outside (after_queries rt calls (MkState c w))))%Q.
Proof.
  intros Hbase Hnone Hw Hlen.
  destruct calls as [|q calls]; [cbn in Hlen; lia|].
  destruct (api_query_marker c w q Hbase Hw) as (t & w1 & Hrun & H1 & L1 & L0 & _).
  destruct (after_queries_spacing calls (with_last_call c t) w1 t Hbase H1 eq_refl L1)
    as (c' & w' & last' & Hrest & _ & Hle & Hgap).
  cbn [after_queries]. rewrite Hrun, Hrest. cbn [outside List.length].
  cbn [with_last_call call_rate] in Hgap. rewrite count_S. lra.
Qed.

(** X8. A [wait] that finds a marker not ahead of the clock sleeps at most
    once, for more than nothing and no longer than the call rate; when the
    call rate or more has passed since the marker it does not sleep. *)
Theorem wait_sleeps_no_longer_than_the_rate (c : client) (w : world)
    (last now : Q) :
  last_call c = Some last -> paced w -> (last <= clock w)%Q ->
  fst (time_time (MkState c w)) = Normal now ->
  ((call_rate c <= now - last)%Q ->
     slept (outside (snd (wait (MkState c w)))) = slept w)
  /\ (slept (outside (snd (wait (MkState c w)))) = slept w
      \/ exists d : Q,
           slept (outside (snd (wait (MkState c w)))) = slept w ++ [d]
           /\ (0 < d)%Q /\ (d <= call_rate c)%Q /\ (d == call_rate c - (now - last))%Q).
Proof.
  intros Hlast Hw Hle Hnow. cbn in Hnow. injection Hnow as <-.
  rewrite wait_eq. cbn [snd outside]. unfold world_after_wait. rewrite Hlast.
  cbv zeta. destruct (elapse_paced w Hw) as [_ L1].
  destruct (Qle_bool (call_rate c) (clock (elapse w) - last)) eqn:E; cbn [negb].
  - rewrite !elapse_slept. split; [reflexivity | left; reflexivity].
  - repeat first [rewrite elapse_slept | progress cbn [slept]].
    assert (Hlt : ~ (call_rate c <= clock (elapse w) - last)%Q).
    { intros H. apply Qle_bool_iff in H. congruence. }
    split; [intros H; contradiction|].
    right. eexists. split; [reflexivity|].
    split; [lra|]. split; [lra | reflexivity].
Qed.

(** X9. A request is stamped with the clock read on entry, before the
    wait.  For a clock that is not negative the stamp is not past the
    stamp the same expression would give at the moment the request goes
    out, and it is past that moment itself, in milliseconds, by no more
    than the rounding of the float product, a factor of [2^-53]; and
    after a marker the request goes out no sooner than the call rate
    allows. *)
Theorem stamp_is_not_after_sending (c : client) (w : world)
    (protection path_dict : pyvalue) (options : option pydict) (body : pyvalue) :
  constructed c = true -> sendable body = true -> paced w -> (0 <= clock w)%Q ->
  exists (request : http_request) (stamp : Z),
    sent (outside (snd (_api_query rt protection path_dict options body
                          (MkState c w))))
    = sent w ++ [request]
    /\ In ("Api-Timestamp", PyStr (pretty stamp)) (req_headers request)
    /\ (stamp
        <= py_int_of_float
             (float_mul
                (clock (outside (snd (_api_query rt protection path_dict options
                                        body (MkState c w))))) 1000))%Z
    /\ (inject_Z stamp
        <= 1000 * clock (outside (snd (_api_query rt protection path_dict options
                                         body (MkState c w))))
           * (1 + (1 # 2 ^ 53)))%Q
    /\ (forall last : Q,
          last_call c = Some last ->
          (last + call_rate c
           <= clock (outside (snd (_api_query rt protection path_dict options
                                     body (MkState c w)))))%Q).
Proof.
  intros Hc Hb Hw Hpos.
  rewrite (api_query_eq rt c w protection path_dict options body Hc Hb).
  cbn [snd outside sent clock].
  destruct (elapse_paced w Hw) as [H1 L1].
  destruct (world_after_wait_paced c (elapse w) H1) as (H2 & L2 & Hgap & _).
  destruct (elapse_paced _ H2) as [_ L3].
  eexists. exists (py_int_of_float (float_mul (clock (elapse w)) 1000)).
  split; [reflexivity|]. split; [right; left; reflexivity|].
  assert (P0 : (0 <= clock (elapse w))%Q) by lra.
  set (out := clock (elapse (world_after_wait c (elapse w)))) in *.
  assert (Pout : (clock (elapse w) <= out)%Q) by lra.
  split; [|split].
  - unfold float_mul. apply py_int_of_float_mono.
    + apply round_double_nonneg. lra.
    + apply round_double_mono. lra.
  - destruct (stamp_of_past_time (clock (elapse w)) P0) as (_ & _ & _ & Hup).
    unfold float_mul. change (1 # 2 ^ 53)%Q with (1 # 9007199254740992)%Q in *.
    lra.
  - intros last Hlast. specialize (Hgap last Hlast). lra.
Qed.

(** ** The public methods *)

Lemma path_query_url (c : client) (w : world) (path : string) :
  constructed c = true ->
  requests_url (_api_query rt PyNone (PyStr path) None PyNone) (MkState c w)
    ("https://api.bittrex.com/v3" +:+ path).
Proof.
  intros Hc. unfold requests_url.
  rewrite (api_query_eq rt c w PyNone (PyStr path) None PyNone Hc eq_refl).
  eexists. cbn [snd outside sent]. split; [reflexivity|].
  cbn [signed_request req_url py_str options_or_empty urlencode map String.concat].
  apply append_empty_r.
Qed.

Lemma format_summary_path (market : pyvalue) :
  str_format rt "/markets/{marketSymbol}/summary" [("marketSymbol", market)]
  = Normal ("/markets/" +:+ py_str rt market +:+ "/summary").
Proof. reflexivity. Qed.

Lemma format_ticker_path (market : pyvalue) :
  str_format rt "/markets/{marketSymbol}/ticker" [("marketSymbol", market)]
  = Normal ("/markets/" +:+ py_str rt market +:+ "/ticker").
Proof. reflexivity. Qed.

(** X10. For a constructed client each public method sends one request to
    its own URL under [https://api.bittrex.com/v3]; the market symbol of
    a summary or a ticker goes into the path as [str] gives it, without
    any escaping. *)
Theorem public_methods_request_their_url (c : client) (w : world)
    (market : pyvalue) :
  constructed c = true ->
  requests_url (get_markets rt) (MkState c w)
    "https://api.bittrex.com/v3/markets"
  /\ requests_url (get_currencies rt) (MkState c w)
       "https://api.bittrex.com/v3/currencies"
  /\ requests_url (get_market_summaries rt) (MkState c w)
       "https://api.bittrex.com/v3/markets/summaries"
  /\ requests_url (get_market_summary rt market) (MkState c w)
       ("https://api.bittrex.com/v3/markets/" +:+ py_str rt market +:+ "/summary")
  /\ requests_url (get_market_ticker rt market) (MkState c w)
       ("https://api.bittrex.com/v3/markets/" +:+ py_str rt market +:+ "/ticker").
Proof.
  intros Hc.
  split; [exact (path_query_url c w "/markets" Hc)|].
  split; [exact (path_query_url c w "/currencies" Hc)|].
  split; [exact (path_query_url c w "/markets/summaries" Hc)|].
  split.
  - unfold get_market_summary, requests_url, bind at 1, lift at 1.
    rewrite format_summary_path.
    exact (path_query_url c w _ Hc).
  - unfold get_market_ticker, requests_url, bind at 1, lift at 1.
    rewrite format_ticker_path.
    exact (path_query_url c w _ Hc).
Qed.

(** ** The markets of a currency, at the edges *)

Lemma get_markets_eq (c : client) (w : world) :
  constructed c = true ->
  fst (get_markets rt (MkState c w))
  = caught (obind (requests_get rt (sent w)
                     (signed_request rt (text_of (api_key c)) (text_of (api_secret c))
                        "https://api.bittrex.com/v3/markets"
                        (pretty (py_int_of_float (float_mul (clock (elapse w)) 1000)))
                        EmptyString))
                  resp_json).
Proof.
  intros Hc. unfold get_markets.
  rewrite (api_query_eq rt c w PyNone (PyStr "/markets") None PyNone Hc eq_refl).
  reflexivity.
Qed.

(** X11. The helper does not share the promise of [_api_query]: when the
    request for the listing fails, the dictionary that comes back has no
    result to iterate and [list_markets_by_currency] raises [TypeError]. *)
Theorem failed_listing_raises_TypeError (c : client) (w : world)
    (currency : pyvalue) (e : exn) :
  constructed c = true -> is_Exception (exc_type e) = true ->
  obind (requests_get rt (sent w)
           (signed_request rt (text_of (api_key c)) (text_of (api_secret c))
              "https://api.bittrex.com/v3/markets"
              (pretty (py_int_of_float (float_mul (clock (elapse w)) 1000)))
              EmptyString))
        resp_json
  = Raised e ->
  fst (list_markets_by_currency rt currency (MkState c w))
  = Raised (MkExn TypeError "'NoneType' object is not iterable").
Proof.
  intros Hc He Hfail.
  assert (Hget := get_markets_eq c w Hc). rewrite Hfail in Hget.
  cbn [caught] in Hget. rewrite He in Hget.
  unfold list_markets_by_currency, bind at 1.
  destruct (get_markets rt (MkState c w)) as [r st1]. cbn [fst] in Hget.
  subst r. reflexivity.
Qed.

Lemma markets_ending_with_missing_name (currency : string)
    (before after : list pyvalue) (names : list string) (record : pydict) :
  Forall2 has_market_name before names ->
  dict_get record (PyStr "MarketName") = None ->
  markets_ending_with rt (PyStr currency) (before ++ PyDict record :: after)
  = Raised (MkExn KeyError "'MarketName'").
Proof.
  intros Hnames Hmissing.
  induction Hnames as [|market name before names [d [-> Hd]] _ IH].
  - cbn [app markets_ending_with py_getitem hashable]. rewrite Hmissing.
    reflexivity.
  - cbn [app markets_ending_with py_getitem hashable obind].
    rewrite Hd. cbn [obind py_lower py_endswith]. rewrite IH.
    destruct (endswith (text_lower rt name) (text_lower rt currency)); reflexivity.
Qed.

(** X12. A market record without a [MarketName] stops the helper: when
    the records before it are well formed, [list_markets_by_currency]
    raises [KeyError] for that key, whatever the currency and whatever
    follows in the listing. *)
Theorem record_without_name_raises_KeyError (st st' : state) (response : pydict)
    (before after : list pyvalue) (names : list string) (record : pydict)
    (currency : string) :
  get_markets rt st = (Normal (PyDict response), st') ->
  dict_get response (PyStr "result")
  = Some (PyList (before ++ PyDict record :: after)) ->
  Forall2 has_market_name before names ->
  dict_get record (PyStr "MarketName") = None ->
  list_markets_by_currency rt (PyStr currency) st
  = (Raised (MkExn KeyError "'MarketName'"), st').
Proof.
  intros Hget Hres Hnames Hmissing.
  unfold list_markets_by_currency, bind at 1. rewrite Hget.
  unfold bind at 1, lift at 1. cbn [py_getitem hashable]. rewrite Hres.
  unfold bind at 1, lift at 1. cbn [py_iter].
  unfold bind at 1, lift at 1.
  rewrite (markets_ending_with_missing_name currency before after names record
             Hnames Hmissing).
  reflexivity.
Qed.

Lemma substring_nothing (n : nat) (s : string) : substring n 0 s = EmptyString.
Proof.
  revert n. induction s as [|c s IH]; intros [|n]; cbn; auto.
Qed.

Lemma endswith_nothing (s : string) : endswith s EmptyString = true.
Proof. unfold endswith. cbn. now rewrite substring_nothing. Qed.

Lemma filter_keeps_all {A} (f : A -> bool) (l : list A) :
  (forall x, f x = true) -> List.filter f l = l.
Proof.
  intros H. induction l as [|x l IH]; [reflexivity|].
  cbn. now rewrite H, IH.
Qed.

(** X13. The empty currency matches every market: whenever [get_markets]
    returns a listing of well-formed records, [list_markets_by_currency]
    of the empty string returns all their names, in order. *)
Theorem empty_currency_lists_every_market (st st' : state) (response : pydict)
    (markets : list pyvalue) (names : list string) :
  get_markets rt st = (Normal (PyDict response), st') ->
  dict_get response (PyStr "result") = Some (PyList markets) ->
  Forall2 has_market_name markets names ->
  list_markets_by_currency rt (PyStr EmptyString) st
  = (Normal (PyList (map PyStr names)), st').
Proof.
  intros Hget Hres Hnames.
  unfold list_markets_by_currency, bind at 1. rewrite Hget.
  unfold bind at 1, lift at 1. cbn [py_getitem hashable]. rewrite Hres.
  unfold bind at 1, lift at 1. cbn [py_iter].
  unfold bind at 1, lift at 1.
  rewrite (markets_ending_with_filter rt EmptyString markets names Hnames).
  rewrite filter_keeps_all; [reflexivity|].
  intros n. change (text_lower rt EmptyString) with EmptyString.
  apply endswith_nothing.
Qed.

(** ** Stored credentials *)

Ltac run_decrypt :=
  cbv beta iota zeta delta
    [decrypt bind lift raise try_except get_self literal_eval_if_str
     set_api_key set_api_secret put_self ret self outside
     api_key api_secret call_rate last_call base_url decrypt_decode].

(** X14. [decrypt] is not all or nothing: when the stored key reads back
    as a bytes literal and the cipher then refuses it, [decrypt] raises
    with the key already replaced by those bytes, and from then on every
    call of [_api_query] returns NO_API_RESPONSE without sending. *)
Theorem failed_decrypt_leaves_bytes_behind (c : client) (w : world)
    (stored sealed : string) (dec : pyvalue -> outcome pyvalue) (e : exn) :
  encrypted rt = true ->
  aes_new rt (getpass rt "Input decryption password (string will not show)")
  = Normal dec ->
  well_based c ->
  api_key c = PyStr stored ->
  literal_eval rt stored = Normal (PyBytes sealed) ->
  (forall e0 : exn,
      literal_eval rt (text_of (api_secret c)) = Raised e0 ->
      is_Exception (exc_type e0) = true) ->
  dec (PyBytes sealed) = Raised e ->
  exists c' : client,
    decrypt rt (MkState c w) = (Raised e, MkState c' w)
    /\ api_key c' = PyBytes sealed
    /\ forall (q : query) (w2 : world),
         exists (e' : exn) (st' : state),
           exc_type e' = AttributeError
           /\ _api_query rt (q_protection q) (q_path_dict q) (q_options q)
                (q_body q) (MkState c' w2)
              = (Normal (no_api_response e'), st')
           /\ sent (outside st') = sent w2.
Proof.
  intros Henc Hnew Hbase Hkey Hlit Hsecret Hdec.
  destruct c as [k sec rate lc base]. cbn in Hkey, Hbase, Hsecret. subst k.
  assert (Hafter : forall sec' : pyvalue,
    exists c' : client,
      c' = MkClient (PyBytes sealed) sec' rate lc base
      /\ api_key c' = PyBytes sealed
      /\ forall (q : query) (w2 : world),
           exists (e' : exn) (st' : state),
             exc_type e' = AttributeError
             /\ _api_query rt (q_protection q) (q_path_dict q) (q_options q)
                  (q_body q) (MkState c' w2)
                = (Normal (no_api_response e'), st')
             /\ sent (outside st') = sent w2).
  { intros sec'. eexists. split; [reflexivity|]. split; [reflexivity|].
    intros q w2.
    destruct (api_query_refused (MkClient (PyBytes sealed) sec' rate lc base) w2
                (q_protection q) (q_path_dict q) (q_options q) (q_body q)
                Hbase (or_intror (or_intror eq_refl))) as (e' & He' & Hrun).
    exists e'. eexists. split; [exact He'|]. split; [exact Hrun|].
    cbn [outside]. now rewrite world_after_wait_sent, elapse_sent. }
  run_decrypt. rewrite Henc, Hnew. run_decrypt. rewrite Hlit. run_decrypt.
  destruct sec as [| | | |s2| | |]; run_decrypt;
    try (rewrite Hdec;
         match goal with
         | |- context [MkClient (PyBytes sealed) ?x rate lc base] =>
             destruct (Hafter x) as (c' & -> & Hk & Hq)
         end;
         eexists; split; [reflexivity | split; [exact Hk | exact Hq]]).
  cbn [text_of] in Hsecret.
  destruct (literal_eval rt s2) as [v|e0] eqn:E; run_decrypt.
  - rewrite Hdec. destruct (Hafter v) as (c' & -> & Hk & Hq).
    eexists. split; [reflexivity | split; [exact Hk | exact Hq]].
  - rewrite (Hsecret e0 eq_refl). run_decrypt. rewrite Hdec.
    destruct (Hafter (PyStr s2)) as (c' & -> & Hk & Hq).
    eexists. split; [reflexivity | split; [exact Hk | exact Hq]].
Qed.

(** X15. What [encrypt] hands out, the constructor takes and [decrypt]
    opens: with [pycrypto] installed, the same password typed at both
    prompts and a cipher, [repr], [literal_eval] and [decode] that undo one
    another on the two credentials, a client constructed from the [key]
    and [secret] entries of the dictionary [encrypt] returned holds, after
    [decrypt], the text of the original credentials. *)
Theorem encrypt_then_decrypt_restores (ks : keystore)
    (plain_key plain_secret : pyvalue) (key secret password : string)
    (export : bool) (export_fn : string) (api : pydict) (cps : Q) (w : world) :
  encrypted rt = true ->
  getpass rt "Input encryption password (string will not show)" = password ->
  getpass rt "Input decryption password (string will not show)" = password ->
  opens rt ks password plain_key key ->
  opens rt ks password plain_secret secret ->
  encrypt rt ks plain_key plain_secret export export_fn = Normal api ->
  ~ (cps == 0)%Q ->
  exists (k s : pyvalue) (c c' : client),
    dict_get api (PyStr "key") = Some k
    /\ dict_get api (PyStr "secret") = Some s
    /\ __init__ rt k s cps = Normal c
    /\ decrypt rt (MkState c w) = (Normal tt, MkState c' w)
    /\ api_key c' = PyStr key
    /\ api_secret c' = PyStr secret.
Proof.
  intros Henc Hin Hout
    (enc & dec & sk & ok & He & Hd & Hek & Hlk & Hdk & Hbk)
    (enc2 & dec2 & ss & os & He2 & Hd2 & Hes & Hls & Hds & Hbs)
    Hrun Hcps.
  rewrite He in He2. injection He2 as <-.
  rewrite Hd in Hd2. injection Hd2 as <-.
  unfold encrypt in Hrun. rewrite Henc, Hin, He in Hrun. cbn [obind] in Hrun.
  rewrite Hek in Hrun. cbn [obind] in Hrun.
  rewrite Hes in Hrun. cbn [obind py_str] in Hrun.
  assert (Hapi : api = [ (PyStr "key", PyStr (py_repr rt (PyBytes sk)));
                         (PyStr "secret", PyStr (py_repr rt (PyBytes ss))) ]).
  { destruct export; [destruct (json_dump_to ks export_fn _)|];
      cbn [obind] in Hrun; congruence. }
  subst api.
  assert (F : str_format rt "{uri}{path}"
                [("uri", PyStr API_URI); ("path", PyStr BASE_PATH)]
              = Normal "https://api.bittrex.com/v3{path}") by reflexivity.
  exists (PyStr (py_repr rt (PyBytes sk))), (PyStr (py_repr rt (PyBytes ss))).
  eexists. eexists.
  split; [reflexivity|]. split; [reflexivity|].
  split.
  { unfold __init__. cbn [is_none py_str].
    destruct (Qeq_bool cps 0) eqn:E; [apply Qeq_bool_iff in E; contradiction|].
    rewrite F. reflexivity. }
  run_decrypt. rewrite Henc, Hout, Hd. run_decrypt.
  rewrite Hlk. run_decrypt. rewrite Hls. run_decrypt.
  rewrite Hdk. run_decrypt. rewrite Hbk. run_decrypt.
  rewrite Hds. run_decrypt. rewrite Hbs.
  split; [reflexivity|]. split; reflexivity.
Qed.

(** X16. A stored key that does not read back as a literal is handed to
    the cipher as the text it is, and the secret is then not read back
    either: when the cipher refuses that text, [decrypt] raises what the
    cipher raised and the client is as it was. *)
Theorem unreadable_key_goes_to_the_cipher_as_text (c : client) (w : world)
    (stored : string) (dec : pyvalue -> outcome pyvalue) (e0 e : exn) :
  encrypted rt = true ->
  aes_new rt (getpass rt "Input decryption password (string will not show)")
  = Normal dec ->
  api_key c = PyStr stored ->
  literal_eval rt stored = Raised e0 -> is_Exception (exc_type e0) = true ->
  dec (PyStr stored) = Raised e ->
  decrypt rt (MkState c w) = (Raised e, MkState c w).
Proof.
  intros Henc Hnew Hkey Hlit He0 Hdec.
  destruct c as [k sec rate lc base]. cbn in Hkey. subst k.
  run_decrypt. rewrite Henc, Hnew. run_decrypt. rewrite Hlit. run_decrypt.
  rewrite He0. run_decrypt. rewrite Hdec. reflexivity.
Qed.

(** X17. Stamps never go back: on a clock that is monotone and not
    negative, two calls of [_api_query] in a row send two requests, and
    the milliseconds stamped on the second are at least those stamped on
    the first. *)
Theorem stamps_never_go_back (c : client) (w : world) (q1 q2 : query) :
  constructed c = true ->
  sendable (q_body q1) = true -> sendable (q_body q2) = true ->
  paced w -> (0 <= clock w)%Q ->
  exists (r1 r2 : http_request) (n1 n2 : Z),
    sent (outside (after_queries rt [q1; q2] (MkState c w))) = sent w ++ [r1; r2]
    /\ In ("Api-Timestamp", PyStr (pretty n1)) (req_headers r1)
    /\ In ("Api-Timestamp", PyStr (pretty n2)) (req_headers r2)
    /\ (n1 <= n2)%Z.
Proof.
  intros Hc Hb1 Hb2 Hw Hpos. cbn [after_queries].
  rewrite (api_query_eq rt c w _ _ _ _ Hc Hb1). cbn [snd].
  set (w2 := world_after_wait c (elapse w)).
  set (r1 := signed_request rt _ _ _ _ _).
  set (w1 := MkWorld (clock (elapse w2)) (drift (elapse w2)) (sent w ++ [r1])
               (slept w2)).
  assert (Hc1 : constructed (with_last_call c (clock w2)) = true) by exact Hc.
  rewrite (api_query_eq rt (with_last_call c (clock w2)) w1 _ _ _ _ Hc1 Hb2).
  cbn [snd outside sent].
  set (r2 := signed_request rt _ _ _ _ _).
  destruct (elapse_paced w Hw) as [H1 L1].
  destruct (world_after_wait_paced c (elapse w) H1) as (H2 & L2 & _ & _).
  fold w2 in H2, L2.
  destruct (elapse_paced w2 H2) as [H3 L3].
  assert (Hw1 : paced w1) by exact H3.
  destruct (elapse_paced w1 Hw1) as [_ L4].
  assert (Hclock : (clock w1 == clock (elapse w2))%Q) by reflexivity.
  exists r1, r2, (py_int_of_float (float_mul (clock (elapse w)) 1000)),
    (py_int_of_float (float_mul (clock (elapse w1)) 1000)).
  split; [unfold w1; cbn [sent]; now rewrite <- app_assoc|].
  split; [right; left; reflexivity|].
  split; [right; left; reflexivity|].
  unfold float_mul. apply py_int_of_float_mono.
  - apply round_double_nonneg. lra.
  - apply round_double_mono. lra.
Qed.

(** X18. A client constructed without credentials signs all the same:
    the request of its call carries an empty API key and a signature made
    under the empty secret. *)
Theorem anonymous_client_still_signs (R : Q) (c : client) (w : world)
    (protection : pyvalue) (path : string) (options : option pydict) :
  __init__ rt PyNone PyNone R = Normal c ->
  exists (request : http_request) (stamp url : string),
    sent (outside (snd (_api_query rt protection (PyStr path) options PyNone
                          (MkState c w))))
    = sent w ++ [request]
    /\ req_url request = url
    /\ req_headers request
       = [ ("Api-Key", PyBytes EmptyString);
           ("Api-Timestamp", PyStr stamp);
           ("Api-Content-Hash", PyStr (sha512_hexdigest rt EmptyString));
           ("Api-Signature",
            PyStr (hmac_sha512_hexdigest rt EmptyString
                     (stamp +:+ url +:+ "GET" +:+ sha512_hexdigest rt EmptyString))) ].
Proof.
  intros Hinit.
  assert (Hc : c = MkClient (PyStr EmptyString) (PyStr EmptyString) (float_div 1 R) None
                     "https://api.bittrex.com/v3{path}").
  { unfold __init__ in Hinit. cbn [is_none] in Hinit.
    destruct (Qeq_bool R 0); [discriminate|].
    assert (F : str_format rt "{uri}{path}"
                  [("uri", PyStr API_URI); ("path", PyStr BASE_PATH)]
                = Normal "https://api.bittrex.com/v3{path}") by reflexivity.
    rewrite F in Hinit. now injection Hinit as <-. }
  subst c.
  rewrite (api_query_eq rt
             (MkClient (PyStr EmptyString) (PyStr EmptyString) (float_div 1 R) None
                "https://api.bittrex.com/v3{path}")
             w protection (PyStr path) options PyNone eq_refl eq_refl).
  eexists. eexists. eexists. cbn [snd outside sent].
  split; [reflexivity|]. split; reflexivity.
Qed.

End Further.

(** * Closed instances of the further properties *)

Lemma api_query_raises_no_exception_witness :
  fst (_api_query (Reference.failing Reference.interrupted) PyNone (PyStr "/markets")
         None PyNone (MkState Reference.trader (Reference.start_of_time [])))
  = Raised Reference.interrupted
  /\ is_Exception (exc_type Reference.interrupted) = false.
Proof.
  split; [reflexivity|].
  apply (api_query_raises_no_exception (Reference.failing Reference.interrupted)
           Reference.trader (Reference.start_of_time []) PyNone (PyStr "/markets")
           None PyNone Reference.interrupted); reflexivity.
Defined.

Lemma exchange_answer_is_passed_through_witness :
  fst (_api_query (Reference.answering Reference.listing) PyNone (PyStr "/markets")
         None PyNone (MkState Reference.trader (Reference.start_of_time [])))
  = Normal Reference.listing.
Proof.
  apply (exchange_answer_is_passed_through (Reference.answering Reference.listing)
           Reference.trader (Reference.start_of_time [])); reflexivity.
Defined.

Lemma unencodable_call_sends_nothing_witness :
  exists (e : exn) (st' : state),
    exc_type e = AttributeError
    /\ _api_query (Reference.answering Reference.listing) PyNone (PyStr "/markets")
         None (PyBytes "raw") (MkState Reference.trader (Reference.start_of_time []))
       = (Normal (no_api_response e), st')
    /\ sent (outside st') = sent (Reference.start_of_time [])
    /\ last_call (self st') = Some (clock (outside st')).
Proof.
  apply (unencodable_call_sends_nothing (Reference.answering Reference.listing)
           Reference.trader (Reference.start_of_time [])).
  - reflexivity.
  - left. reflexivity.
Defined.

Lemma reference_clock_is_paced : paced Reference.busy_clock.
Proof.
  unfold paced. cbn [drift Reference.busy_clock Reference.start_of_time].
  repeat constructor; unfold Qle; cbn; lia.
Qed.

Lemma queries_are_spaced_witness :
  (clock Reference.busy_clock
   + (count (List.length Reference.some_queries) - 1) * call_rate Reference.trader
   <= clock (outside (after_queries (Reference.failing Reference.timed_out)
                        Reference.some_queries
                        (MkState Reference.trader Reference.busy_clock))))%Q.
Proof.
  apply (queries_are_spaced (Reference.failing Reference.timed_out)
           Reference.trader Reference.busy_clock Reference.some_queries).
  - reflexivity.
  - reflexivity.
  - exact reference_clock_is_paced.
  - cbn. lia.
Defined.

Lemma wait_sleeps_no_longer_than_the_rate_witness :
  ((call_rate Reference.paused <= Reference.first_reading - (1762000000 # 1))%Q ->
     slept (outside (snd (wait (MkState Reference.paused Reference.busy_clock))))
     = slept Reference.busy_clock)
  /\ (slept (outside (snd (wait (MkState Reference.paused Reference.busy_clock))))
      = slept Reference.busy_clock
      \/ exists d : Q,
           slept (outside (snd (wait (MkState Reference.paused Reference.busy_clock))))
           = slept Reference.busy_clock ++ [d]
           /\ (0 < d)%Q /\ (d <= call_rate Reference.paused)%Q
           /\ (d == call_rate Reference.paused
                    - (Reference.first_reading - (1762000000 # 1)))%Q).
Proof.
  apply (wait_sleeps_no_longer_than_the_rate Reference.paused Reference.busy_clock
           (1762000000 # 1) Reference.first_reading).
  - reflexivity.
  - exact reference_clock_is_paced.
  - unfold Qle. cbn. lia.
  - reflexivity.
Defined.

Lemma stamp_is_not_after_sending_witness :
  exists (request : http_request) (stamp : Z),
    sent (outside (snd (_api_query (Reference.answering Reference.listing) PyNone
                          (PyStr "/markets") None PyNone
                          (MkState Reference.paused Reference.busy_clock))))
    = sent Reference.busy_clock ++ [request]
    /\ In ("Api-Timestamp", PyStr (pretty stamp)) (req_headers request)
    /\ (stamp
        <= py_int_of_float
             (float_mul
                (clock (outside (snd (_api_query
                                        (Reference.answering Reference.listing)
                                        PyNone (PyStr "/markets") None PyNone
                                        (MkState Reference.paused
                                           Reference.busy_clock))))) 1000))%Z
    /\ (inject_Z stamp
        <= 1000 * clock (outside (snd (_api_query
                                         (Reference.answering Reference.listing)
                                         PyNone (PyStr "/markets") None PyNone
                                         (MkState Reference.paused
                                            Reference.busy_clock))))
           * (1 + (1 # 2 ^ 53)))%Q
    /\ (forall last : Q,
          last_call Reference.paused = Some last ->
          (last + call_rate Reference.paused
           <= clock (outside (snd (_api_query
                                     (Reference.answering Reference.listing)
                                     PyNone (PyStr "/markets") None PyNone
                                     (MkState Reference.paused
                                        Reference.busy_clock)))))%Q).
Proof.
  apply (stamp_is_not_after_sending (Reference.answering Reference.listing)
           Reference.paused Reference.busy_clock).
  - reflexivity.
  - reflexivity.
  - exact reference_clock_is_paced.
  - unfold Qle. cbn. lia.
Defined.

Lemma public_methods_request_their_url_witness :
  requests_url (get_market_summary (Reference.answering Reference.listing)
                  (PyStr "BTC-LTC"))
    (MkState Reference.trader (Reference.start_of_time []))
    ("https://api.bittrex.com/v3/markets/"
     +:+ py_str (Reference.answering Reference.listing) (PyStr "BTC-LTC")
     +:+ "/summary").
Proof.
  apply (public_methods_request_their_url (Reference.answering Reference.listing)
           Reference.trader (Reference.start_of_time []) (PyStr "BTC-LTC")).
  reflexivity.
Defined.

Lemma failed_listing_raises_TypeError_witness :
  fst (list_markets_by_currency (Reference.failing Reference.timed_out) (PyStr "LTC")
         (MkState Reference.trader (Reference.start_of_time [])))
  = Raised (MkExn TypeError "'NoneType' object is not iterable").
Proof.
  apply (failed_listing_raises_TypeError (Reference.failing Reference.timed_out)
           Reference.trader (Reference.start_of_time []) (PyStr "LTC")
           Reference.timed_out); reflexivity.
Defined.

Lemma record_without_name_raises_KeyError_witness :
  fst (list_markets_by_currency
         (Reference.answering (PyDict Reference.renamed_listing)) (PyStr "LTC")
         (MkState Reference.trader (Reference.start_of_time [])))
  = Raised (MkExn KeyError "'MarketName'").
Proof.
  rewrite (record_without_name_raises_KeyError
             (Reference.answering (PyDict Reference.renamed_listing))
             (MkState Reference.trader (Reference.start_of_time []))
             (snd (get_markets (Reference.answering (PyDict Reference.renamed_listing))
                     (MkState Reference.trader (Reference.start_of_time []))))
             Reference.renamed_listing
             [PyDict [(PyStr "MarketName", PyStr "BTC-LTC")]]
             [PyDict [(PyStr "MarketName", PyStr "USDT-LTC")]]
             ["BTC-LTC"] [(PyStr "symbol", PyStr "ETH-BTC")] "LTC").
  - reflexivity.
  - rewrite (surjective_pairing (get_markets _ _)) at 1. reflexivity.
  - reflexivity.
  - repeat (constructor; [eexists; split; reflexivity|]). constructor.
  - reflexivity.
Defined.

Lemma empty_currency_lists_every_market_witness :
  fst (list_markets_by_currency (Reference.answering Reference.listing)
         (PyStr EmptyString)
         (MkState Reference.trader (Reference.start_of_time [])))
  = Normal (PyList [PyStr "BTC-LTC"; PyStr "ETH-BTC"; PyStr "USDT-LTC"]).
Proof.
  rewrite (empty_currency_lists_every_market
             (Reference.answering Reference.listing)
             (MkState Reference.trader (Reference.start_of_time []))
             (snd (get_markets (Reference.answering Reference.listing)
                     (MkState Reference.trader (Reference.start_of_time []))))
             [(PyStr "result", PyList fixture_markets)] fixture_markets
             ["BTC-LTC"; "ETH-BTC"; "USDT-LTC"]).
  - reflexivity.
  - rewrite (surjective_pairing (get_markets _ _)) at 1. reflexivity.
  - reflexivity.
  - unfold fixture_markets.
    repeat (constructor; [eexists; split; reflexivity|]). constructor.
Defined.

Lemma failed_decrypt_leaves_bytes_behind_witness :
  exists c' : client,
    decrypt (Reference.answering Reference.listing)
      (MkState Reference.short_sealed (Reference.start_of_time []))
    = (Raised (MkExn ValueError "Input strings must be a multiple of 16 in length"),
       MkState c' (Reference.start_of_time []))
    /\ api_key c' = PyBytes "abc"
    /\ forall (q : query) (w2 : world),
         exists (e' : exn) (st' : state),
           exc_type e' = AttributeError
           /\ _api_query (Reference.answering Reference.listing)
                (q_protection q) (q_path_dict q) (q_options q) (q_body q)
                (MkState c' w2)
              = (Normal (no_api_response e'), st')
           /\ sent (outside st') = sent w2.
Proof.
  destruct (Reference.cipher "0123456789abcdef") as [dec|e] eqn:E;
    [|discriminate E].
  apply (failed_decrypt_leaves_bytes_behind (Reference.answering Reference.listing)
           Reference.short_sealed (Reference.start_of_time []) "b'abc'" "abc" dec).
  - reflexivity.
  - exact E.
  - reflexivity.
  - reflexivity.
  - reflexivity.
  - cbn. intros e0 [= <-]. reflexivity.
  - injection E as <-. reflexivity.
Defined.

Lemma encrypt_then_decrypt_restores_witness :
  exists (k s : pyvalue) (c c' : client),
    dict_get [ (PyStr "key", PyStr "b'MYAPIKEYMYAPIKEY'");
               (PyStr "secret", PyStr "b'MYSECRETMYSECRET'") ] (PyStr "key")
    = Some k
    /\ dict_get [ (PyStr "key", PyStr "b'MYAPIKEYMYAPIKEY'");
                  (PyStr "secret", PyStr "b'MYSECRETMYSECRET'") ] (PyStr "secret")
       = Some s
    /\ __init__ (Reference.runtime_with Reference.spaces
                   (fun _ _ => Raised Reference.timed_out)) k s 1
       = Normal c
    /\ decrypt (Reference.runtime_with Reference.spaces
                  (fun _ _ => Raised Reference.timed_out))
         (MkState c (Reference.start_of_time []))
       = (Normal tt, MkState c' (Reference.start_of_time []))
    /\ api_key c' = PyStr "myapikeymyapikey"
    /\ api_secret c' = PyStr "mysecretmysecret".
Proof.
  destruct (Reference.cipher Reference.spaces) as [f|e] eqn:E; [|discriminate E].
  apply (encrypt_then_decrypt_restores
           (Reference.runtime_with Reference.spaces
              (fun _ _ => Raised Reference.timed_out))
           Reference.vault (PyBytes "myapikeymyapikey") (PyBytes "mysecretmysecret")
           "myapikeymyapikey" "mysecretmysecret" Reference.spaces true
           "secrets.json").
  - reflexivity.
  - reflexivity.
  - reflexivity.
  - exists f, f, "MYAPIKEYMYAPIKEY", "myapikeymyapikey".
    injection E as <-. repeat split; reflexivity.
  - exists f, f, "MYSECRETMYSECRET", "mysecretmysecret".
    injection E as <-. repeat split; reflexivity.
  - reflexivity.
  - discriminate.
Defined.

Lemma unreadable_key_goes_to_the_cipher_as_text_witness :
  decrypt (Reference.answering Reference.listing)
    (MkState Reference.unsealed (Reference.start_of_time []))
  = (Raised (MkExn TypeError "argument must be bytes"),
     MkState Reference.unsealed (Reference.start_of_time [])).
Proof.
  destruct (Reference.cipher "0123456789abcdef") as [dec|e] eqn:E;
    [|discriminate E].
  apply (unreadable_key_goes_to_the_cipher_as_text
           (Reference.answering Reference.listing)
           Reference.unsealed (Reference.start_of_time []) "plainkey" dec
           (MkExn ValueError "malformed node or string")).
  - reflexivity.
  - exact E.
  - reflexivity.
  - reflexivity.
  - reflexivity.
  - injection E as <-. reflexivity.
Defined.

Lemma stamps_never_go_back_witness :
  exists (r1 r2 : http_request) (n1 n2 : Z),
    sent (outside (after_queries (Reference.answering Reference.listing)
                     [ MkQuery PyNone (PyStr "/markets") None PyNone;
                       MkQuery PyNone (PyStr "/currencies") None PyNone ]
                     (MkState Reference.trader Reference.busy_clock)))
    = sent Reference.busy_clock ++ [r1; r2]
    /\ In ("Api-Timestamp", PyStr (pretty n1)) (req_headers r1)
    /\ In ("Api-Timestamp", PyStr (pretty n2)) (req_headers r2)
    /\ (n1 <= n2)%Z.
Proof.
  apply (stamps_never_go_back (Reference.answering Reference.listing)
           Reference.trader Reference.busy_clock).
  - reflexivity.
  - reflexivity.
  - reflexivity.
  - exact reference_clock_is_paced.
  - unfold Qle. cbn. lia.
Defined.

Lemma anonymous_client_still_signs_witness :
  exists (request : http_request) (stamp url : string),
    sent (outside (snd (_api_query (Reference.answering Reference.listing) PyNone
                          (PyStr "/markets") None PyNone
                          (MkState (MkClient (PyStr EmptyString) (PyStr EmptyString)
                                      (1 / 1) None "https://api.bittrex.com/v3{path}")
                             (Reference.start_of_time [])))))
    = sent (Reference.start_of_time []) ++ [request]
    /\ req_url request = url
    /\ req_headers request
       = [ ("Api-Key", PyBytes EmptyString);
           ("Api-Timestamp", PyStr stamp);
           ("Api-Content-Hash",
            PyStr (sha512_hexdigest (Reference.answering Reference.listing) EmptyString));
           ("Api-Signature",
            PyStr (hmac_sha512_hexdigest (Reference.answering Reference.listing)
                     EmptyString
                     (stamp +:+ url +:+ "GET"
                      +:+ sha512_hexdigest (Reference.answering Reference.listing)
                            EmptyString))) ].
Proof.
  apply (anonymous_client_still_signs (Reference.answering Reference.listing) 1%Q).
  reflexivity.
Defined.
